(** * Token revocation and access guard of the kitapandu backend

    A shallow embedding of [src/lib/tokenBlacklist.ts], [src/lib/jwt.ts],
    [src/middleware/auth.ts] and the login and logout routes of
    [src/routes/auth.ts].

    Asynchronous functions are run to completion one at a time: an
    [async] function is a computation over the [World] (database table,
    wall clock, console, ...) that either returns a value or throws. *)

From Stdlib Require Import ZArith List String Ascii Bool Lia.
From Stdlib Require Import DecimalString DecimalZ DecimalNat.
Import ListNotations.

Local Open Scope string_scope.
Local Open Scope Z_scope.

(** ** JavaScript runtime: exceptions, console, world *)

(** The exceptions that the modelled code can meet. *)
Inductive Exn : Type :=
| PrismaClientKnownRequestError (code : string)
    (* "P2002": unique constraint failed; "P2025": record not found *)
| PrismaClientInitializationError
    (* the database cannot be reached *)
| PrismaClientValidationError
    (* an argument of the call is not of its type, e.g. an Invalid Date *)
| JsonWebTokenError (msg : string)
| TokenExpiredError.

(** [error.message] *)
Definition message (e : Exn) : string :=
  match e with
  | PrismaClientKnownRequestError code => "Prisma request failed: " ++ code
  | PrismaClientInitializationError => "Can't reach database server"
  | PrismaClientValidationError => "Provided Date object is invalid. Expected Date."
  | JsonWebTokenError msg => msg
  | TokenExpiredError => "jwt expired"
  end.

Inductive Result (A : Type) : Type :=
| Ok (a : A)
| Throw (e : Exn).
Arguments Ok {A} a.
Arguments Throw {A} e.

(** A line written by [console.log] or [console.error]. *)
Inductive ConsoleLine : Type :=
| console_log (text : string)
| console_error (text : string) (detail : string).

Module Prisma.

(** A row of the [TokenBlacklist] table (migrations: primary key [id],
    unique index on [jti], nullable [userId], [expiresAt] and
    [createdAt] in milliseconds since the epoch).  The primary key is
    generated by the client on insert; here it is a serial number. *)
Record TokenBlacklist : Type := {
  id : nat;
  jti : string;
  userId : option string;
  expiresAt : Z;
  createdAt : Z
}.

End Prisma.

Record World : Type := {
  tokenBlacklist : list Prisma.TokenBlacklist; (* the table *)
  clock : Z;                 (* [Date.now()], milliseconds *)
  outages : list bool;       (* for each database call to come: does it fail? *)
  uuids : nat -> string;     (* what [uuidv4()] returns on its n-th call *)
  drawn : nat;               (* number of [uuidv4()] calls so far *)
  serial : nat;              (* next primary key handed out by the client *)
  console : list ConsoleLine (* everything logged so far, oldest first *)
}.

Definition set_table (t : list Prisma.TokenBlacklist) (w : World) : World :=
  {| tokenBlacklist := t; clock := clock w; outages := outages w;
     uuids := uuids w; drawn := drawn w; serial := serial w;
     console := console w |}.

Definition set_outages (o : list bool) (w : World) : World :=
  {| tokenBlacklist := tokenBlacklist w; clock := clock w; outages := o;
     uuids := uuids w; drawn := drawn w; serial := serial w;
     console := console w |}.

Definition set_console (c : list ConsoleLine) (w : World) : World :=
  {| tokenBlacklist := tokenBlacklist w; clock := clock w;
     outages := outages w; uuids := uuids w; drawn := drawn w;
     serial := serial w; console := c |}.

(** ** The monad of [async] functions *)

Definition M (A : Type) : Type := World -> Result A * World.

Definition ret {A} (a : A) : M A := fun w => (Ok a, w).

Definition throw {A} (e : Exn) : M A := fun w => (Throw e, w).

Definition bind {A B} (m : M A) (k : A -> M B) : M B :=
  fun w => match m w with
           | (Ok a, w') => k a w'
           | (Throw e, w') => (Throw e, w')
           end.

(** [try { body } catch (error) { handler }]: what the body did to the
    world before it threw stays done. *)
Definition tryCatch {A} (body : M A) (handler : Exn -> M A) : M A :=
  fun w => match body w with
           | (Ok a, w') => (Ok a, w')
           | (Throw e, w') => handler e w'
           end.

Notation "x <- m ;; k" := (bind m (fun x => k))
  (at level 61, m at next level, right associativity).
Notation "m ;;; k" := (bind m (fun _ => k))
  (at level 61, right associativity).

(** The world with one more console line. *)
Definition logged (line : ConsoleLine) (w : World) : World :=
  set_console (console w ++ [line]) w.

(** [await Promise.all([a, b])]: both calls are made; the result is the
    pair of their values, or the first failure. *)
Definition promiseAll {A B} (a : M A) (b : M B) : M (A * B) :=
  fun w =>
    let (ra, w1) := a w in
    let (rb, w2) := b w1 in
    match ra, rb with
    | Ok x, Ok y => (Ok (x, y), w2)
    | Throw e, _ => (Throw e, w2)
    | Ok _, Throw e => (Throw e, w2)
    end.

(** [new Date(ms)]: a [Date] holds a time value of at most 8.64e15
    milliseconds either side of the epoch; beyond that it is an Invalid Date,
    here [None]. *)
Definition maxTime : Z := 8640000000000000.

Definition dateOf (ms : Z) : option Z :=
  if (- maxTime <=? ms) && (ms <=? maxTime) then Some ms else None.

(** [new Date()] *)
Definition newDate : M Z := fun w => (Ok (clock w), w).

Definition consoleLog (text : string) : M unit :=
  fun w => (Ok tt, logged (console_log text) w).

Definition consoleError (text : string) (e : Exn) : M unit :=
  fun w => (Ok tt, logged (console_error text (message e)) w).

(** Template-literal rendering of a count. *)
Definition showNat (n : nat) : string :=
  NilEmpty.string_of_uint (Nat.to_uint n).

(** JavaScript truthiness of an optional string, and [s || null]. *)
Definition truthy (s : option string) : bool :=
  match s with
  | Some s' => negb (s' =? "")%string
  | None => false
  end.

Definition orNull (s : option string) : option string :=
  if truthy s then s else None.

(** [s || ''] *)
Definition orEmpty (s : option string) : string :=
  match s with
  | Some s' => s'
  | None => ""
  end.

(** ** The data-access client [prisma.tokenBlacklist]

    The client itself is a third-party library; its calls are modelled
    on their documented behaviour.  Every call first consults the outage
    schedule of the world: a call that hits an outage throws and leaves the
    table as it is. *)
Module Db.
Import Prisma.

(** Does the next database call fail?  An exhausted schedule means no
    further outage. *)
Definition fails (w : World) : bool := hd false (outages w).

(** The world once that call has been made. *)
Definition after (w : World) : World := set_outages (tl (outages w)) w.

Definition call {A} (op : M A) : M A :=
  fun w => if fails w
           then (Throw PrismaClientInitializationError, after w)
           else op (after w).

(** The unique index on [jti]: no two rows share an identifier. *)
Fixpoint distinct (l : list string) : bool :=
  match l with
  | [] => true
  | x :: rest => negb (existsb (String.eqb x) rest) && distinct rest
  end.

Definition unique (w : World) : Prop :=
  distinct (map jti (tokenBlacklist w)) = true.

Definition has_jti (j : string) (r : TokenBlacklist) : bool :=
  (jti r =? j)%string.

(** [create({ data: { jti, expiresAt, userId } })]: the client refuses an
    Invalid Date before it calls the database; the unique index on [jti]
    rejects a second row with the same identifier (P2002).  Every valid
    [Date] is taken to be storable. *)
Definition create (j : string) (expires : option Z) (owner : option string)
  : M TokenBlacklist :=
  match expires with
  | None => throw PrismaClientValidationError
  | Some expires =>
      call (fun w =>
        if existsb (has_jti j) (tokenBlacklist w)
        then (Throw (PrismaClientKnownRequestError "P2002"), w)
        else
          let r := {| id := serial w; jti := j; userId := owner;
                      expiresAt := expires; createdAt := clock w |} in
          (Ok r,
           {| tokenBlacklist := tokenBlacklist w ++ [r]; clock := clock w;
              outages := outages w; uuids := uuids w; drawn := drawn w;
              serial := S (serial w); console := console w |}))
  end.

(** [findUnique({ where: { jti } })] *)
Definition findUnique (j : string) : M (option TokenBlacklist) :=
  call (fun w => (Ok (find (has_jti j) (tokenBlacklist w)), w)).

(** [delete({ where: { jti } })]: throws P2025 when there is no such row. *)
Definition delete (j : string) : M TokenBlacklist :=
  call (fun w =>
    match find (has_jti j) (tokenBlacklist w) with
    | Some r =>
        (Ok r, set_table (filter (fun x => negb (has_jti j x)) (tokenBlacklist w)) w)
    | None => (Throw (PrismaClientKnownRequestError "P2025"), w)
    end).

(** [deleteMany({ where })]: removes the rows that satisfy [where] and
    returns [{ count }]. *)
Definition deleteMany (where_ : TokenBlacklist -> bool) : M nat :=
  call (fun w =>
    (Ok (List.length (filter where_ (tokenBlacklist w))),
     set_table (filter (fun x => negb (where_ x)) (tokenBlacklist w)) w)).

(** The [where] clauses used by the service. *)
Definition expiresAt_lt (d : Z) (r : TokenBlacklist) : bool :=
  expiresAt r <? d.

Definition userId_equals (u : string) (r : TokenBlacklist) : bool :=
  match userId r with
  | Some v => (v =? u)%string
  | None => false
  end.

Definition anything (_ : TokenBlacklist) : bool := true.

(** [count({ where })]: the number of rows that satisfy [where]. *)
Definition count (where_ : TokenBlacklist -> bool) : M nat :=
  call (fun w => (Ok (List.length (filter where_ (tokenBlacklist w))), w)).

Definition expiresAt_lte (d : Z) (r : TokenBlacklist) : bool :=
  expiresAt r <=? d.

End Db.

(** ** [src/lib/tokenBlacklist.ts] *)
Module TokenBlacklist.

(** Add a token to the blacklist by JTI. *)
Definition blacklistToken (jti : string) (expiresAt : Z) (userId : option string)
  : M unit :=
  tryCatch
    (Db.create jti (dateOf (expiresAt * 1000)) (orNull userId) ;;;
     consoleLog ("[TokenBlacklist] Token blacklisted. JTI: " ++ jti))
    (fun error =>
       consoleError "[TokenBlacklist] Error adding token to blacklist:" error ;;;
       throw error).

(** Check if a JTI is blacklisted. *)
Definition isJtiBlacklisted (jti : string) : M bool :=
  tryCatch
    (blacklistedToken <- Db.findUnique jti ;;
     match blacklistedToken with
     | None => ret false
     | Some blacklistedToken =>
         now <- newDate ;;
         if now >? Prisma.expiresAt blacklistedToken
         then Db.delete jti ;;; ret false
         else ret true
     end)
    (fun error =>
       consoleError "[TokenBlacklist] Error checking token blacklist:" error ;;;
       ret false).

(** Remove all expired tokens from blacklist. *)
Definition cleanupExpiredTokens : M unit :=
  tryCatch
    (now <- newDate ;;
     count <- Db.deleteMany (Db.expiresAt_lt now) ;;
     if (0 <? count)%nat
     then consoleLog ("[TokenBlacklist] Cleaned up " ++ showNat count ++ " expired tokens")
     else ret tt)
    (fun error =>
       consoleError "[TokenBlacklist] Error during cleanup:" error).

(** Revoke all tokens for a specific user. *)
Definition revokeUserTokens (userId : string) : M nat :=
  tryCatch
    (count <- Db.deleteMany (Db.userId_equals userId) ;;
     consoleLog ("[TokenBlacklist] Revoked " ++ showNat count
                 ++ " tokens for user: " ++ userId) ;;;
     ret count)
    (fun error =>
       consoleError "[TokenBlacklist] Error revoking user tokens:" error ;;;
       ret 0%nat).

(** Clear entire blacklist. *)
Definition clearBlacklist : M unit :=
  tryCatch
    (Db.deleteMany Db.anything ;;;
     consoleLog "[TokenBlacklist] Blacklist cleared")
    (fun error =>
       consoleError "[TokenBlacklist] Error clearing blacklist:" error).

(** The lines that [blacklistToken] and [isJtiBlacklisted] log on failure. *)
Definition addFailed (e : Exn) : ConsoleLine :=
  console_error "[TokenBlacklist] Error adding token to blacklist:" (message e).

Definition cleanupFailed : ConsoleLine :=
  console_error "[TokenBlacklist] Error during cleanup:"
                (message PrismaClientInitializationError).

Definition revokeFailed : ConsoleLine :=
  console_error "[TokenBlacklist] Error revoking user tokens:"
                (message PrismaClientInitializationError).

(** A row is expired for the purge when its expiry is before the clock. *)
Definition expired (w : World) (r : Prisma.TokenBlacklist) : bool :=
  Db.expiresAt_lt (clock w) r.

Definition cleanedUp (count : nat) : ConsoleLine :=
  console_log ("[TokenBlacklist] Cleaned up " ++ showNat count ++ " expired tokens").

Definition checkFailed : ConsoleLine :=
  console_error "[TokenBlacklist] Error checking token blacklist:"
                (message PrismaClientInitializationError).

(** The value returned by [getBlacklistStats]. *)
Record BlacklistStats : Type := {
  totalBlacklisted : nat;
  expiredSoon : nat;
  statsCreatedAt : string
}.

Section Stats.
(* [Date.prototype.toISOString], applied to an instant in milliseconds *)
Variable toISOString : Z -> string.

(** Get blacklist statistics. *)
Definition getBlacklistStats : M BlacklistStats :=
  tryCatch
    (dateNow <- newDate ;;
     counts <- promiseAll
                 (Db.count Db.anything)
                 (Db.count (Db.expiresAt_lte (dateNow + 24 * 60 * 60 * 1000))) ;;
     now <- newDate ;;
     ret {| totalBlacklisted := fst counts; expiredSoon := snd counts;
            statsCreatedAt := toISOString now |})
    (fun error =>
       consoleError "[TokenBlacklist] Error getting stats:" error ;;;
       now <- newDate ;;
       ret {| totalBlacklisted := 0; expiredSoon := 0;
              statsCreatedAt := toISOString now |}).

End Stats.

(** A row expires within the next 24 hours (or has expired already). *)
Definition expiresSoon (w : World) (r : Prisma.TokenBlacklist) : bool :=
  Db.expiresAt_lte (clock w + 86400000) r.

End TokenBlacklist.

(** ** [src/lib/jwt.ts] *)
Module Jwt.

(** [interface JwtPayload].  At run time a decoded payload is whatever the
    token carried, so the fields the code tests for presence are
    optional here. *)
Record JwtPayload : Type := {
  id : string;
  email : string;
  role : option string;
  jti : option string;
  iat : option Z;
  exp : option Z
}.

(** The two roles of the type ['admin' | 'operator']. *)
Inductive Role : Type := admin | operator.

Definition roleName (r : Role) : string :=
  match r with
  | admin => "admin"
  | operator => "operator"
  end.

(** [Omit<JwtPayload, 'iat' | 'exp' | 'jti'>] *)
Record Subject : Type := {
  subjectId : string;
  subjectEmail : string;
  subjectRole : Role
}.

(** [{ ...payload, jti }] *)
Definition withJti (payload : Subject) (j : string) : JwtPayload :=
  {| id := subjectId payload; email := subjectEmail payload;
     role := Some (roleName (subjectRole payload)); jti := Some j;
     iat := None; exp := None |}.

(** [helper/env.ts]: the two settings the module reads; the process does
    not start when the secret is missing. *)
Class Env : Type := {
  JWT_SECRET : string;
  JWT_EXPIRY : string
}.

(** The [jsonwebtoken] package, a third-party library: its three entry
    points are parameters of the development.  Times are in seconds. *)
Class JsonWebToken : Type := {
  (* the time span that an [expiresIn] string stands for, in seconds *)
  timespan : string -> option Z;
  (* [jwt.sign(payload, secret, { expiresIn })] at a given time *)
  sign : JwtPayload -> string -> string -> Z -> Result string;
  (* [jwt.verify(token, secret)] at a given time *)
  verify : string -> string -> Z -> Result JwtPayload;
  (* [jwt.decode(token)] *)
  decode : string -> option JwtPayload
}.

(** What the payload looks like once signed at time [t] for [ttl] seconds. *)
Definition stamped (p : JwtPayload) (t ttl : Z) : JwtPayload :=
  {| id := id p; email := email p; role := role p; jti := jti p;
     iat := Some t; exp := Some (t + ttl) |}.

(** The part of the documented behaviour of [jsonwebtoken] that the
    properties below rely on. *)
Class JsonWebTokenLaws (J : JsonWebToken) : Prop := {
  sign_succeeds : forall p secret e t ttl,
    timespan e = Some ttl -> iat p = None -> exp p = None ->
    exists token, sign p secret e t = Ok token;
  verify_sign : forall p secret e t ttl token t',
    timespan e = Some ttl -> iat p = None -> exp p = None ->
    sign p secret e t = Ok token ->
    t' < t + ttl ->
    verify token secret t' = Ok (stamped p t ttl)
}.

(** Two more documented facts about [jsonwebtoken]: a token that verifies
    decodes to the same payload, and it has not reached its [exp]. *)
Class JsonWebTokenPayloadLaws (J : JsonWebToken) : Prop := {
  decode_verified : forall token secret t p,
    verify token secret t = Ok p -> decode token = Some p;
  verify_unexpired : forall token secret t p e,
    verify token secret t = Ok p -> exp p = Some e -> t < e
}.

Section Functions.
Context {env : Env} {J : JsonWebToken}.

(** [Math.floor(Date.now() / 1000)], the time [jsonwebtoken] works with. *)
Definition seconds (w : World) : Z := clock w / 1000.

(** [uuidv4()] *)
Definition uuidv4 : M string :=
  fun w => (Ok (uuids w (drawn w)),
            {| tokenBlacklist := tokenBlacklist w; clock := clock w;
               outages := outages w; uuids := uuids w;
               drawn := S (drawn w); serial := serial w;
               console := console w |}).

(** Generate JWT token with JTI. *)
Definition generateToken (payload : Subject) : M string :=
  j <- uuidv4 ;;
  fun w => (sign (withJti payload j) JWT_SECRET JWT_EXPIRY (seconds w), w).

(** Verify JWT token. *)
Definition verifyToken (token : string) : M (option JwtPayload) :=
  tryCatch
    (fun w => match verify token JWT_SECRET (seconds w) with
              | Ok decoded => (Ok (Some decoded), w)
              | Throw e => (Throw e, w)
              end)
    (fun error =>
       consoleError "JWT verification failed:" error ;;;
       ret None).

(** Decode token without verification. *)
Definition decodeToken (token : string) : option JwtPayload :=
  decode token.

(** Get token expiration time in Unix timestamp: [decoded?.exp || null]. *)
Definition getTokenExpiration (token : string) : option Z :=
  match decodeToken token with
  | Some decoded =>
      match exp decoded with
      | Some e => if e =? 0 then None else Some e
      | None => None
      end
  | None => None
  end.

(** Get JTI from token: [decoded?.jti || null]. *)
Definition getTokenJti (token : string) : option string :=
  match decodeToken token with
  | Some decoded => orNull (jti decoded)
  | None => None
  end.

End Functions.

End Jwt.

(** ** HTTP plumbing: requests, responses ([helper/apiResponse.ts]) *)

Record Request : Type := {
  authorization : option string;   (* [req.headers.authorization] *)
  user : option Jwt.JwtPayload     (* [req.user] *)
}.

Record Response : Type := {
  statusCode : Z;
  success : bool;
  responseMessage : string;
  errors : option string
}.

Definition errorResponse (msg : string) (status : Z) (errs : option string)
  : Response :=
  {| statusCode := status; success := false; responseMessage := msg;
     errors := errs |}.

Definition successResponse (msg : string) : Response :=
  {| statusCode := 200; success := true; responseMessage := msg;
     errors := None |}.

(** A middleware either answers the request itself or hands it on with
    [next()]. *)
Inductive Handled : Type :=
| Sent (res : Response)
| Next (req : Request).

(** [s.split(sep)] for a one-character separator. *)
Fixpoint split (sep : ascii) (s : string) : list string :=
  match s with
  | EmptyString => [EmptyString]
  | String c rest =>
      if Ascii.eqb c sep then EmptyString :: split sep rest
      else match split sep rest with
           | first :: others => String c first :: others
           | [] => [String c EmptyString]
           end
  end.

Definition space : ascii := " "%char.

(** [list.includes(x)] *)
Definition includes (l : list string) (x : string) : bool :=
  existsb (String.eqb x) l.

(** ** [src/middleware/auth.ts] *)
Module Middleware.
Import Jwt TokenBlacklist.

Section Guards.
Context {env : Env} {J : JsonWebToken}.

Definition setUser (req : Request) (payload : JwtPayload) : Request :=
  {| authorization := authorization req; user := Some payload |}.

(** Authentication middleware: only allows 'admin' or 'operator'. *)
Definition authMiddleware (req : Request) : M Handled :=
  tryCatch
    (let authHeader := authorization req in
     if negb (truthy authHeader)
     then ret (Sent (errorResponse "Missing authorization header" 401 None))
     else
       let parts := split space (orEmpty authHeader) in
       if negb (List.length parts =? 2)%nat
          || negb (nth 0 parts "" =? "Bearer")%string
       then ret (Sent (errorResponse
              "Invalid authorization header format. Expected: Bearer <token>"
              401 None))
       else
         let token := nth 1 parts "" in
         payload <- verifyToken token ;;
         match payload with
         | None => ret (Sent (errorResponse "Invalid or expired token" 401 None))
         | Some payload =>
             isBlacklisted <- isJtiBlacklisted (orEmpty (jti payload)) ;;
             if isBlacklisted
             then ret (Sent (errorResponse
                    "Token has been revoked. Please login again." 401 None))
             else
               if negb (truthy (role payload))
                  || negb (includes ["admin"; "operator"] (orEmpty (role payload)))
               then ret (Sent (errorResponse
                      "Insufficient permissions. Only users can access this resource."
                      403 None))
               else ret (Next (setUser req payload))
         end)
    (fun error =>
       ret (Sent (errorResponse "Authentication error" 500 (Some (message error))))).

(** Require admin role middleware. *)
Definition requiredAdmin (req : Request) : M Handled :=
  tryCatch
    (let authHeader := authorization req in
     if negb (truthy authHeader)
     then ret (Sent (errorResponse "Missing authorization header" 401 None))
     else
       let parts := split space (orEmpty authHeader) in
       if negb (List.length parts =? 2)%nat
          || negb (nth 0 parts "" =? "Bearer")%string
       then ret (Sent (errorResponse
              "Invalid authorization header format. Expected: Bearer <token>"
              401 None))
       else
         let token := nth 1 parts "" in
         payload <- verifyToken token ;;
         match payload with
         | None => ret (Sent (errorResponse "Invalid or expired token" 401 None))
         | Some payload =>
             isBlacklisted <- isJtiBlacklisted (orEmpty (jti payload)) ;;
             if isBlacklisted
             then ret (Sent (errorResponse
                    "Token has been revoked. Please login again." 401 None))
             else
               if negb (truthy (role payload))
                  || negb (includes ["admin"] (orEmpty (role payload)))
               then ret (Sent (errorResponse
                      "Insufficient permissions. Only admin can access this resource."
                      403 None))
               else ret (Next (setUser req payload))
         end)
    (fun error =>
       ret (Sent (errorResponse "Authentication error" 500 (Some (message error))))).

(** The two guards differ only in the roles they permit and in the
    wording of the role rejection; this is their common text, with the
    revocation lookup it calls made a parameter as well. *)
Definition guardWith (isRevoked : string -> M bool)
    (permitted : list string) (roleMessage : string)
    (req : Request) : M Handled :=
  tryCatch
    (let authHeader := authorization req in
     if negb (truthy authHeader)
     then ret (Sent (errorResponse "Missing authorization header" 401 None))
     else
       let parts := split space (orEmpty authHeader) in
       if negb (List.length parts =? 2)%nat
          || negb (nth 0 parts "" =? "Bearer")%string
       then ret (Sent (errorResponse
              "Invalid authorization header format. Expected: Bearer <token>"
              401 None))
       else
         let token := nth 1 parts "" in
         payload <- verifyToken token ;;
         match payload with
         | None => ret (Sent (errorResponse "Invalid or expired token" 401 None))
         | Some payload =>
             isBlacklisted <- isRevoked (orEmpty (jti payload)) ;;
             if isBlacklisted
             then ret (Sent (errorResponse
                    "Token has been revoked. Please login again." 401 None))
             else
               if negb (truthy (role payload))
                  || negb (includes permitted (orEmpty (role payload)))
               then ret (Sent (errorResponse roleMessage 403 None))
               else ret (Next (setUser req payload))
         end)
    (fun error =>
       ret (Sent (errorResponse "Authentication error" 500 (Some (message error))))).

Definition usersOnly : string :=
  "Insufficient permissions. Only users can access this resource.".

Definition adminOnly : string :=
  "Insufficient permissions. Only admin can access this resource.".

(** Optional authentication middleware: does not fail if the token is
    missing or invalid. *)
Definition optionalAuthMiddleware (req : Request) : M Handled :=
  tryCatch
    (let authHeader := authorization req in
     if truthy authHeader
     then
       let parts := split space (orEmpty authHeader) in
       if (List.length parts =? 2)%nat && (nth 0 parts "" =? "Bearer")%string
       then
         payload <- verifyToken (nth 1 parts "") ;;
         match payload with
         | Some payload =>
             isBlacklisted <- isJtiBlacklisted (orEmpty (jti payload)) ;;
             if negb isBlacklisted
             then ret (Next (setUser req payload))
             else ret (Next req)
         | None => ret (Next req)
         end
       else ret (Next req)
     else ret (Next req))
    (fun _ => ret (Next req)).

End Guards.

End Middleware.

(** ** [src/routes/auth.ts]: POST /logout *)
Module Routes.
Import Jwt TokenBlacklist Middleware.

Section Logout.
Context {env : Env} {J : JsonWebToken}.

(** The handler registered behind [authMiddleware].  When the header
    has no second part, [split(' ')[1]] is [undefined], which
    [jwt.decode] turns into [null]: no identifier, nothing is inserted. *)
Definition logout (req : Request) : M Response :=
  tryCatch
    (let authHeader := authorization req in
     let userId := option_map Jwt.id (user req) in
     (if truthy authHeader
      then
        match nth_error (split space (orEmpty authHeader)) 1 with
        | Some token =>
            match getTokenJti token, getTokenExpiration token with
            | Some jti, Some expiration => blacklistToken jti expiration userId
            | _, _ => ret tt
            end
        | None => ret tt
        end
      else ret tt) ;;;
     ret (successResponse "Logout successful"))
    (fun error =>
       consoleError "Logout error:" error ;;;
       ret (errorResponse "Logout failed" 500 (Some (message error)))).

(** The token that the handler reads from the request, if any. *)
Definition presented (req : Request) : option string :=
  if truthy (authorization req)
  then nth_error (split space (orEmpty (authorization req))) 1
  else None.

(** [router.post('/logout', authMiddleware, handler)] *)
Definition postLogout (req : Request) : M Response :=
  handled <- authMiddleware req ;;
  match handled with
  | Sent res => ret res
  | Next req' => logout req'
  end.

End Logout.

(** *** POST /login *)

(** A row of the [User] table, as the route reads it. *)
Module User.
Record t : Type := {
  id : string;
  email : string;
  name : string;
  password : string;      (* the stored hash *)
  role : Role;
  isActive : bool
}.
End User.

(** [z.infer<typeof loginSchema>] *)
Record LoginRequest : Type := {
  loginEmail : string;
  loginPassword : string
}.

(** The [data] of a successful login: the token and the public fields of
    the user. *)
Record LoginData : Type := {
  token : string;
  userId : string;
  userEmail : string;
  userName : string;
  userRole : Role
}.

(** The [errors] member of a response. *)
Inductive Detail (Issues : Type) : Type :=
| noDetail
| errorMessage (text : string)
| zodIssues (issues : Issues).
Arguments noDetail {Issues}.
Arguments errorMessage {Issues} text.
Arguments zodIssues {Issues} issues.

(** A response that may carry data. *)
Record Reply (Data Issues : Type) : Type := {
  replyStatus : Z;
  replySuccess : bool;
  replyMessage : string;
  replyData : option Data;
  replyErrors : Detail Issues
}.
Arguments replyStatus {Data Issues} r.
Arguments replySuccess {Data Issues} r.
Arguments replyMessage {Data Issues} r.
Arguments replyData {Data Issues} r.
Arguments replyErrors {Data Issues} r.

Definition errorReply {Data Issues} (msg : string) (status : Z)
    (errs : Detail Issues) : Reply Data Issues :=
  {| replyStatus := status; replySuccess := false; replyMessage := msg;
     replyData := None; replyErrors := errs |}.

Definition successReply {Data Issues} (data : Data) (msg : string)
  : Reply Data Issues :=
  {| replyStatus := 200; replySuccess := true; replyMessage := msg;
     replyData := Some data; replyErrors := noDetail |}.

Section Login.
Context {env : Env} {J : JsonWebToken}.

(* the request body, and what [ZodError.errors] holds *)
Variables Body Issues : Type.
(* [loginSchema.parse]: the parsed body, or the issues of the [ZodError] *)
Variable loginSchema_parse : Body -> Issues + LoginRequest.
(* [bcrypt.compare(password, hash)] *)
Variable bcrypt_compare : string -> string -> bool.
(* the [User] table *)
Variable users : list User.t.

(** [prisma.user.findFirst({ where: { email } })] *)
Definition findFirstByEmail (email : string) : M (option User.t) :=
  Db.call (fun w =>
    (Ok (find (fun u => (User.email u =? email)%string) users), w)).

(** The handler of POST /login.  A [ZodError] can only come from the
    parse, so the [instanceof ZodError] arm of the catch is the answer to a
    failed parse. *)
Definition login (body : Body) : M (Reply LoginData Issues) :=
  match loginSchema_parse body with
  | inl issues => ret (errorReply "Validation failed" 400 (zodIssues issues))
  | inr body =>
      tryCatch
        (user <- findFirstByEmail (loginEmail body) ;;
         match user with
         | None => ret (errorReply "Invalid email or password" 401 noDetail)
         | Some user =>
             if negb (User.isActive user)
             then ret (errorReply "User account is inactive" 403 noDetail)
             else
               let isPasswordValid :=
                 bcrypt_compare (loginPassword body) (User.password user) in
               if negb isPasswordValid
               then ret (errorReply "Invalid email or password" 401 noDetail)
               else
                 token <- generateToken
                            {| subjectId := User.id user;
                               subjectEmail := User.email user;
                               subjectRole := User.role user |} ;;
                 ret (successReply
                        {| token := token; userId := User.id user;
                           userEmail := User.email user;
                           userName := User.name user;
                           userRole := User.role user |}
                        "Login successful")
         end)
        (fun error =>
           consoleError "Login error:" error ;;;
           ret (errorReply "Login failed" 500 (errorMessage (message error))))
  end.

End Login.

Arguments login {env J Body Issues} loginSchema_parse bcrypt_compare users body.

(** The first user with a given email, the subject that the route signs
    for a user, and the data it answers with. *)
Definition account (users : list User.t) (email : string) : option User.t :=
  find (fun u => (User.email u =? email)%string) users.

Definition subjectOf (u : User.t) : Subject :=
  {| subjectId := User.id u; subjectEmail := User.email u;
     subjectRole := User.role u |}.

Definition loginData (tok : string) (u : User.t) : LoginData :=
  {| token := tok; userId := User.id u; userEmail := User.email u;
     userName := User.name u; userRole := User.role u |}.

End Routes.

(** ** The running server

    What can happen to the world after start-up: requests come in through
    the guards and the logout route, a login issues a token, the cleanup
    timer of [initializeBlacklist] fires, the exported maintenance functions
    are called, and the environment moves on (time passes, the database
    goes down or comes back). *)
Module Server.
Import Jwt TokenBlacklist Middleware Routes.

Inductive Event : Type :=
| Login (payload : Subject)
| Guarded (req : Request)          (* a route behind [authMiddleware] *)
| AdminOnly (req : Request)        (* a route behind [requiredAdmin] *)
| Logout (req : Request)
| CleanupTick                      (* [setInterval] fires *)
| RevokeUser (userId : string)
| Clear
| Environment (now : Z) (schedule : list bool).

Section Run.
Context {env : Env} {J : JsonWebToken}.

Definition react (w : World) (ev : Event) : World :=
  match ev with
  | Login payload => snd (generateToken payload w)
  | Guarded req => snd (authMiddleware req w)
  | AdminOnly req => snd (requiredAdmin req w)
  | Logout req => snd (postLogout req w)
  | CleanupTick => snd (cleanupExpiredTokens w)
  | RevokeUser u => snd (revokeUserTokens u w)
  | Clear => snd (clearBlacklist w)
  | Environment now schedule =>
      {| tokenBlacklist := tokenBlacklist w; clock := now;
         outages := schedule; uuids := uuids w; drawn := drawn w;
         serial := serial w; console := console w |}
  end.

Definition run (w : World) (evs : list Event) : World :=
  fold_left react evs w.

(** The world at start-up: an empty table. *)
Definition boot (now : Z) (schedule : list bool) (ids : nat -> string) : World :=
  {| tokenBlacklist := []; clock := now; outages := schedule;
     uuids := ids; drawn := 0; serial := 0; console := [] |}.

Definition reachable (w : World) : Prop :=
  exists now schedule ids evs, w = run (boot now schedule ids) evs.

(** What the table of a running server always satisfies: identifiers
    are unique and none of them is the empty string. *)
Definition wellFormed (w : World) : Prop :=
  NoDup (map Prisma.jti (tokenBlacklist w))
  /\ forall r, In r (tokenBlacklist w) -> Prisma.jti r <> "".

(** The table of [w'] is a selection of the rows of [w]. *)
Definition keeps (w w' : World) : Prop :=
  exists f, tokenBlacklist w' = filter f (tokenBlacklist w).

(** Events that never delete a row whose expiry has not passed: all but
    the two maintenance calls. *)
Definition sparing (ev : Event) : bool :=
  match ev with
  | RevokeUser _ => false
  | Clear => false
  | _ => true
  end.


(** From [w] to [w'] the clock stands still and only rows whose expiry
    has passed have gone. *)
Definition gentle (w w' : World) : Prop :=
  clock w' = clock w
  /\ forall r, In r (tokenBlacklist w) ->
       In r (tokenBlacklist w') \/ Prisma.expiresAt r < clock w.

(** [uuidv4()] never returns the same identifier twice. *)
Definition distinctIds (ids : nat -> string) : Prop :=
  forall m n, ids m = ids n -> m = n.

(** The identifiers that [generateToken] has put into tokens so far. *)
Definition issued (w : World) (j : string) : Prop :=
  exists k, (k < drawn w)%nat /\ uuids w k = j.

(** The secret is the server's alone: a token that verifies under it was
    signed by [generateToken], so the identifier it carries, if any, is one
    the server has issued. *)
Definition ownTokens (w : World) (req : Request) : Prop :=
  forall token claim j,
    presented req = Some token ->
    verify token JWT_SECRET (seconds w) = Ok claim ->
    jti claim = Some j ->
    issued w j.

(** A run in which every request to the logout route carries, if any, a
    token of the server's own. *)
Fixpoint ownRun (w : World) (evs : list Event) : Prop :=
  match evs with
  | [] => True
  | ev :: rest =>
      match ev with
      | Logout req => ownTokens w req
      | _ => True
      end
      /\ ownRun (react w ev) rest
  end.

End Run.

End Server.

(** ** A small implementation of the token library

    Used to evaluate the guards on concrete requests.  A token is the
    secret followed by the fields of the payload, each written so that it
    can be read back; whoever does not know the secret cannot produce a
    token that verifies. *)
Module ToyJwt.
Import Jwt.

Fixpoint put (s : string) (k : string) : string :=
  match s with
  | EmptyString => String "."%char k
  | String c r => String "+"%char (String c (put r k))
  end.

Fixpoint get (s : string) : option (string * string) :=
  match s with
  | EmptyString => None
  | String a r =>
      if Ascii.eqb a "."%char then Some (EmptyString, r)
      else if Ascii.eqb a "+"%char then
        match r with
        | EmptyString => None
        | String c r' =>
            match get r' with
            | Some (x, k) => Some (String c x, k)
            | None => None
            end
        end
      else None
  end.

Definition putOpt (o : option string) (k : string) : string :=
  match o with
  | Some s => String "s"%char (put s k)
  | None => String "n"%char k
  end.

Definition getOpt (s : string) : option (option string * string) :=
  match s with
  | EmptyString => None
  | String a r =>
      if Ascii.eqb a "n"%char then Some (None, r)
      else if Ascii.eqb a "s"%char then
        match get r with
        | Some (x, k) => Some (Some x, k)
        | None => None
        end
      else None
  end.

Definition showZ (z : Z) : string := NilEmpty.string_of_int (Z.to_int z).

Definition readZ (s : string) : option Z :=
  option_map Z.of_int (NilEmpty.int_of_string s).

Definition readOptZ (o : option string) : option (option Z) :=
  match o with
  | None => Some None
  | Some s => option_map Some (readZ s)
  end.

Definition render (secret : string) (p : JwtPayload) : string :=
  put secret (put (id p) (put (email p) (putOpt (role p) (putOpt (jti p)
    (putOpt (option_map showZ (iat p)) (putOpt (option_map showZ (exp p)) "")))))).

Definition parse (token : string) : option (string * JwtPayload) :=
  match get token with
  | Some (secret, r1) =>
    match get r1 with
    | Some (i, r2) =>
      match get r2 with
      | Some (e, r3) =>
        match getOpt r3 with
        | Some (ro, r4) =>
          match getOpt r4 with
          | Some (j, r5) =>
            match getOpt r5 with
            | Some (ia, r6) =>
              match getOpt r6 with
              | Some (ex, EmptyString) =>
                match readOptZ ia, readOptZ ex with
                | Some ia', Some ex' =>
                    Some (secret, {| id := i; email := e; role := ro; jti := j;
                                     iat := ia'; exp := ex' |})
                | _, _ => None
                end
              | _ => None
              end
            | None => None
            end
          | None => None
          end
        | None => None
        end
      | None => None
      end
    | None => None
    end
  | None => None
  end.

Definition toyTimespan (e : string) : option Z :=
  if (e =? "7d")%string then Some 604800
  else if (e =? "1h")%string then Some 3600
  else if (e =? "1s")%string then Some 1
  else if (e =? "0s")%string then Some 0
  else None.

Definition toySign (p : JwtPayload) (secret e : string) (t : Z) : Result string :=
  match toyTimespan e, exp p with
  | Some ttl, None =>
      let issued := match iat p with Some i => i | None => t end in
      Ok (render secret (stamped p issued ttl))
  | Some _, Some _ => Throw (JsonWebTokenError "payload already has an exp property")
  | None, _ => Throw (JsonWebTokenError "expiresIn should be a timespan")
  end.

Definition toyVerify (token secret : string) (t : Z) : Result JwtPayload :=
  match parse token with
  | None => Throw (JsonWebTokenError "jwt malformed")
  | Some (s, p) =>
      if (s =? secret)%string then
        match exp p with
        | Some e => if t >=? e then Throw TokenExpiredError else Ok p
        | None => Ok p
        end
      else Throw (JsonWebTokenError "invalid signature")
  end.

Definition toyDecode (token : string) : option JwtPayload :=
  option_map snd (parse token).

#[export] Instance toy : JsonWebToken :=
  {| timespan := toyTimespan; sign := toySign; verify := toyVerify;
     decode := toyDecode |}.

#[export] Instance toyEnv : Env :=
  {| JWT_SECRET := "s3cret"; JWT_EXPIRY := "7d" |}.

End ToyJwt.

(** ** The Access Guard as the specification words it

    Terminal outcomes, their status codes and the six steps of section 4.4,
    written over what the guard observes: the header, the verifier, the
    revocation lookup and the permitted roles of the guard instance. *)
Module Spec.
Import Jwt.

Inductive Reason : Type :=
| missing_credential
| malformed_credential
| invalid_or_expired
| revoked
| insufficient_role
| internal_error.

Inductive Outcome : Type :=
| ADMITTED (claim : JwtPayload)
| REJECTED (reason : Reason).

Definition status (r : Reason) : Z :=
  match r with
  | missing_credential => 401
  | malformed_credential => 401
  | invalid_or_expired => 401
  | revoked => 401
  | insufficient_role => 403
  | internal_error => 500
  end.

Fixpoint stripPrefix (p s : string) : option string :=
  match p, s with
  | EmptyString, _ => Some s
  | String a p', String b s' =>
      if Ascii.eqb a b then stripPrefix p' s' else None
  | String _ _, EmptyString => None
  end.

Fixpoint mentions (c : ascii) (s : string) : bool :=
  match s with
  | EmptyString => false
  | String a r => Ascii.eqb a c || mentions c r
  end.

(** The token of a header of the form [Bearer <token>]. *)
Definition bearer (header : string) : option string :=
  match stripPrefix "Bearer " header with
  | Some token => if mentions space token then None else Some token
  | None => None
  end.

Definition identifier (claim : JwtPayload) : string := orEmpty (jti claim).

Definition permits (permitted : list string) (claim : JwtPayload) : bool :=
  match role claim with
  | Some r => includes permitted r
  | None => false
  end.

Definition accessGuard
    (permitted : list string)
    (verify : string -> option JwtPayload)
    (isRevoked : string -> bool)
    (header : option string) : Outcome :=
  match header with
  | None => REJECTED missing_credential
  | Some h =>
      if (h =? "")%string then REJECTED missing_credential
      else
        match bearer h with
        | None => REJECTED malformed_credential
        | Some token =>
            match verify token with
            | None => REJECTED invalid_or_expired
            | Some claim =>
                if isRevoked (identifier claim) then REJECTED revoked
                else if permits permitted claim then ADMITTED claim
                else REJECTED insufficient_role
            end
        end
  end.

(** How a guard instance words its rejections. *)
Definition wording (roleMessage : string) (r : Reason) : string :=
  match r with
  | missing_credential => "Missing authorization header"
  | malformed_credential =>
      "Invalid authorization header format. Expected: Bearer <token>"
  | invalid_or_expired => "Invalid or expired token"
  | revoked => "Token has been revoked. Please login again."
  | insufficient_role => roleMessage
  | internal_error => "Authentication error"
  end.

Definition respond (roleMessage : string) (req : Request) (o : Outcome) : Handled :=
  match o with
  | ADMITTED claim => Next (Middleware.setUser req claim)
  | REJECTED r => Sent (errorResponse (wording roleMessage r) (status r) None)
  end.

Section Observations.
Context {env : Env} {J : JsonWebToken}.

(** What [verify] and [isRevoked] answer in a given world. *)
Definition verifiedAt (w : World) (token : string) : option JwtPayload :=
  match verify token JWT_SECRET (seconds w) with
  | Ok claim => Some claim
  | Throw _ => None
  end.

Definition revokedAt (w : World) (identifier : string) : bool :=
  match fst (TokenBlacklist.isJtiBlacklisted identifier w) with
  | Ok b => b
  | Throw _ => false
  end.

End Observations.

End Spec.

(** ** Concrete worlds and requests, for evaluation *)
Module Examples.
Import Jwt ToyJwt.

Definition row (i : nat) (j : string) (u : option string) (e : Z)
  : Prisma.TokenBlacklist :=
  {| Prisma.id := i; Prisma.jti := j; Prisma.userId := u;
     Prisma.expiresAt := e; Prisma.createdAt := 0 |}.

Definition ids (n : nat) : string := "uuid-" ++ showNat n.

Definition world (table : list Prisma.TokenBlacklist) (now : Z) (schedule : list bool)
  : World :=
  {| tokenBlacklist := table; clock := now; outages := schedule;
     uuids := ids; drawn := 0; serial := List.length table; console := [] |}.

(** At clock 1,000,000 ms: "j1" and "j3" are current, "j2" has expired. *)
Definition table3 : list Prisma.TokenBlacklist :=
  [ row 0 "j1" (Some "u1") 2000000;
    row 1 "j2" (Some "u2") 500000;
    row 2 "j3" (Some "u1") 3000000 ].

Definition calm : World := world table3 1000000 [].

(** The same world with the database unreachable for the next call. *)
Definition down : World := world table3 1000000 [true].

(** The same world with the database unreachable for the next call but one. *)
Definition stalled : World := world table3 1000000 [false; true].

Definition claim (r : option string) (j : option string) : JwtPayload :=
  {| id := "u1"; email := "u1@example.org"; role := r; jti := j;
     iat := Some 900; exp := Some 605700 |}.

Definition tokenOf (p : JwtPayload) : string := render "s3cret" p.

Definition bearerOf (token : string) : Request :=
  {| authorization := Some ("Bearer " ++ token); user := None |}.

(** An administrator's token whose identifier "j1" is revoked in [table3]. *)
Definition adminClaim : JwtPayload := claim (Some "admin") (Some "j1").
Definition adminToken : string := tokenOf adminClaim.

(** An operator's token whose identifier is not revoked. *)
Definition operatorClaim : JwtPayload := claim (Some "operator") (Some "j9").
Definition operatorToken : string := tokenOf operatorClaim.

(** The same claim signed with another secret. *)
Definition forgedToken : string := render "guess" adminClaim.

(** A world whose clock is past the expiry of the example tokens. *)
Definition late : World := world table3 700000000 [].

(** An operator's token that carries no identifier. *)
Definition anonymousClaim : JwtPayload := claim (Some "operator") None.
Definition anonymousToken : string := tokenOf anonymousClaim.

(** The server after one logout with the administrator's token. *)
Definition afterLogout : World :=
  Server.run (Server.boot 1000000 [] ids) [Server.Logout (bearerOf adminToken)].

Definition operatorSubject : Subject :=
  {| subjectId := "u7"; subjectEmail := "u7@example.org";
     subjectRole := operator |}.

(** A small [User] table, a body parser and a password check for
    evaluating the login route. *)
Definition ada : Routes.User.t :=
  {| Routes.User.id := "u1"; Routes.User.email := "ada@example.org";
     Routes.User.name := "Ada"; Routes.User.password := "hash:secret1";
     Routes.User.role := admin; Routes.User.isActive := true |}.

Definition bob : Routes.User.t :=
  {| Routes.User.id := "u2"; Routes.User.email := "bob@example.org";
     Routes.User.name := "Bob"; Routes.User.password := "hash:secret2";
     Routes.User.role := operator; Routes.User.isActive := false |}.

Definition people : list Routes.User.t := [ada; bob].

Definition parseBody (body : option string * option string)
  : list string + Routes.LoginRequest :=
  match body with
  | (Some e, Some p) =>
      if (6 <=? String.length p)%nat
      then inr {| Routes.loginEmail := e; Routes.loginPassword := p |}
      else inl ["Password must be at least 6 characters"]
  | _ => inl ["Required"]
  end.

Definition checkPassword (password hash : string) : bool :=
  (hash =? "hash:" ++ password)%string.

(** The server at start-up, and a later run of it. *)
Definition started : World := Server.boot 1000000 [] ids.

(** The operator logs in at start-up and logs out with the token received. *)
Definition operatorSession : string :=
  match fst (generateToken operatorSubject started) with
  | Ok token => token
  | Throw _ => ""
  end.

Definition session : list Server.Event :=
  [ Server.Login operatorSubject;
    Server.Logout (bearerOf operatorSession) ].

Definition afterSession : World := Server.run started session.

(** A token whose expiry, in milliseconds, is one second past the last valid
    [Date]. *)
Definition distantClaim : JwtPayload :=
  {| id := "u1"; email := "u1@example.org"; role := Some "admin";
     jti := Some "j7"; iat := Some 900; exp := Some 8640000000001 |}.
Definition distantToken : string := tokenOf distantClaim.


End Examples.

(** * Properties *)

(** ** The revocation store *)
Module StoreFacts.
Import Prisma TokenBlacklist.

(** The lookup, case by case. *)
Lemma isJtiBlacklisted_eq j w :
  isJtiBlacklisted j w =
  if Db.fails w then (Ok false, logged checkFailed (Db.after w))
  else
    match find (Db.has_jti j) (tokenBlacklist w) with
    | None => (Ok false, Db.after w)
    | Some r =>
        if clock w >? expiresAt r then
          if Db.fails (Db.after w)
          then (Ok false, logged checkFailed (Db.after (Db.after w)))
          else (Ok false,
                set_table (filter (fun x => negb (Db.has_jti j x)) (tokenBlacklist w))
                          (Db.after (Db.after w)))
        else (Ok true, Db.after w)
    end.
Proof.
  unfold isJtiBlacklisted, tryCatch, bind, Db.findUnique, Db.delete, Db.call.
  destruct (Db.fails w) eqn:F1; [reflexivity|].
  change (tokenBlacklist (Db.after w)) with (tokenBlacklist w).
  destruct (find (Db.has_jti j) (tokenBlacklist w)) as [r|] eqn:Fd; [|reflexivity].
  unfold newDate.
  change (clock (Db.after w)) with (clock w).
  destruct (clock w >? expiresAt r) eqn:Ex; [|reflexivity].
  destruct (Db.fails (Db.after w)) eqn:F2; [reflexivity|].
  change (tokenBlacklist (Db.after (Db.after w))) with (tokenBlacklist w).
  rewrite Fd. reflexivity.
Qed.

Lemma has_jti_true j r : Db.has_jti j r = true <-> jti r = j.
Proof. unfold Db.has_jti. apply String.eqb_eq. Qed.

Lemma has_jti_false j r : Db.has_jti j r = false <-> jti r <> j.
Proof. unfold Db.has_jti. apply String.eqb_neq. Qed.

Lemma distinct_NoDup l : Db.distinct l = true <-> NoDup l.
Proof.
  induction l as [|x l IH]; simpl.
  - split; [constructor | reflexivity].
  - rewrite andb_true_iff, negb_true_iff, IH. split.
    + intros [Hx Hl]. constructor; [|assumption].
      intros Hin. assert (E : existsb (String.eqb x) l = true).
      { apply existsb_exists. exists x. split; [assumption | apply String.eqb_refl]. }
      congruence.
    + intros Hnd. inversion Hnd as [|? ? Hx Hl]; subst. split; [|assumption].
      destruct (existsb (String.eqb x) l) eqn:E; [|reflexivity].
      apply existsb_exists in E as [y [Hy Hxy]].
      apply String.eqb_eq in Hxy. subst y. contradiction.
Qed.

(** Under the unique index a row is determined by its identifier. *)
Lemma same_jti_same_row l r r' :
  NoDup (map jti l) -> In r l -> In r' l -> jti r = jti r' -> r = r'.
Proof.
  induction l as [|x l IH]; simpl; [contradiction|].
  intros Hnd Hr Hr' E. inversion Hnd as [|? ? Hx Hl]; subst.
  destruct Hr as [-> | Hr], Hr' as [-> | Hr'].
  - reflexivity.
  - exfalso. apply Hx. rewrite E. now apply in_map.
  - exfalso. apply Hx. rewrite <- E. now apply in_map.
  - now apply IH.
Qed.

Lemma find_none_iff j l :
  find (Db.has_jti j) l = None <-> (forall r, In r l -> jti r <> j).
Proof.
  split.
  - intros Hf r Hin. apply has_jti_false. exact (find_none _ _ Hf r Hin).
  - intros Hno. destruct (find (Db.has_jti j) l) as [r|] eqn:Fd; [|reflexivity].
    apply find_some in Fd as [Hin Hj]. apply has_jti_true in Hj.
    exfalso. exact (Hno r Hin Hj).
Qed.

(** With the database unreachable the lookup answers "not revoked" for an
    identifier that has a current row; and when the database answers the
    lookup but not the delete, the expired row is still there afterwards. *)
Lemma isJtiBlacklisted_store_failure :
  (exists r, In r (tokenBlacklist Examples.down)
             /\ jti r = "j1" /\ clock Examples.down <= expiresAt r)
  /\ fst (isJtiBlacklisted "j1" Examples.down) = Ok false
  /\ (exists r, In r (tokenBlacklist Examples.stalled)
                /\ jti r = "j2" /\ expiresAt r < clock Examples.stalled)
  /\ fst (isJtiBlacklisted "j2" Examples.stalled) = Ok false
  /\ exists r, In r (tokenBlacklist (snd (isJtiBlacklisted "j2" Examples.stalled)))
               /\ jti r = "j2".
Proof.
  split; [exists (Examples.row 0 "j1" (Some "u1") 2000000); simpl; split; [auto|];
          split; [reflexivity | lia]|].
  split; [reflexivity|].
  split; [exists (Examples.row 1 "j2" (Some "u2") 500000); simpl; split; [auto|];
          split; [reflexivity | lia]|].
  split; [reflexivity|].
  exists (Examples.row 1 "j2" (Some "u2") 500000). simpl. auto.
Qed.

(** C2, as the code has it.  When the database answers the lookup,
    [isJtiBlacklisted] reports a revocation exactly when the table holds a
    row for the identifier whose expiry is not past; for a row whose expiry
    is past the answer is false and, when the database answers the delete
    as well, the row is deleted (no row with that identifier remains, the
    other rows stay); when there is no row the answer is false and the table
    is untouched. *)
Theorem isJtiBlacklisted_lookup (j : string) (w : World) :
  Db.unique w ->
  Db.fails w = false ->
  (fst (isJtiBlacklisted j w) = Ok true <->
     exists r, In r (tokenBlacklist w) /\ jti r = j /\ clock w <= expiresAt r)
  /\ (forall r, In r (tokenBlacklist w) -> jti r = j -> expiresAt r < clock w ->
        fst (isJtiBlacklisted j w) = Ok false
        /\ (Db.fails (Db.after w) = false ->
            (forall r', In r' (tokenBlacklist (snd (isJtiBlacklisted j w))) ->
               jti r' <> j)
            /\ (forall r', jti r' <> j ->
                  (In r' (tokenBlacklist (snd (isJtiBlacklisted j w))) <->
                   In r' (tokenBlacklist w)))))
  /\ ((forall r, In r (tokenBlacklist w) -> jti r <> j) ->
        fst (isJtiBlacklisted j w) = Ok false
        /\ tokenBlacklist (snd (isJtiBlacklisted j w)) = tokenBlacklist w).
Proof.
  intros U F1. apply distinct_NoDup in U.
  rewrite isJtiBlacklisted_eq, F1.
  destruct (find (Db.has_jti j) (tokenBlacklist w)) as [t|] eqn:Fd.
  - pose proof (find_some _ _ Fd) as [Hin Hj]. apply has_jti_true in Hj.
    assert (Only : forall r, In r (tokenBlacklist w) -> jti r = j -> r = t).
    { intros r Hr Ej. apply (same_jti_same_row _ _ _ U Hr Hin). congruence. }
    rewrite Z.gtb_ltb.
    destruct (expiresAt t <? clock w) eqn:Ex.
    + apply Z.ltb_lt in Ex. split; [|split].
      * split; [destruct (Db.fails (Db.after w)); discriminate|].
        intros [r [Hr [Ej Hc]]]. rewrite (Only r Hr Ej) in Hc. lia.
      * intros r Hr Ej Hpast.
        split; [destruct (Db.fails (Db.after w)); reflexivity|].
        intros F2. rewrite F2. cbn [fst snd]. split.
        -- intros r' Hr'. cbn in Hr'. apply filter_In in Hr' as [_ Hn].
           apply negb_true_iff in Hn. now apply has_jti_false.
        -- intros r' Hne. cbn. rewrite filter_In, negb_true_iff, has_jti_false.
           tauto.
      * intros Hno. exfalso. exact (Hno t Hin Hj).
    + apply Z.ltb_ge in Ex. cbn [fst snd]. split; [|split].
      * split; [|reflexivity]. intros _. exists t. auto.
      * intros r Hr Ej Hpast. rewrite (Only r Hr Ej) in Hpast. lia.
      * intros Hno. exfalso. exact (Hno t Hin Hj).
  - pose proof (proj1 (find_none_iff _ _) Fd) as Hno. cbn [fst snd].
    split; [|split].
    + split; [discriminate|].
      intros [r [Hr [Ej _]]]. exfalso. exact (Hno r Hr Ej).
    + intros r Hr Ej _. exfalso. exact (Hno r Hr Ej).
    + intros _. split; reflexivity.
Qed.

Lemma isJtiBlacklisted_lookup_witness :
  Db.unique Examples.calm
  /\ Db.fails Examples.calm = false
  /\ fst (isJtiBlacklisted "j2" Examples.calm) = Ok false
  /\ forall r, In r (tokenBlacklist (snd (isJtiBlacklisted "j2" Examples.calm))) ->
       jti r <> "j2".
Proof.
  split; [reflexivity|]. split; [reflexivity|].
  assert (Hin : In (Examples.row 1 "j2" (Some "u2") 500000)
                   (tokenBlacklist Examples.calm)) by (simpl; auto).
  assert (Hpast : expiresAt (Examples.row 1 "j2" (Some "u2") 500000)
                  < clock Examples.calm) by (simpl; lia).
  destruct (proj1 (proj2
    (isJtiBlacklisted_lookup "j2" Examples.calm eq_refl eq_refl))
    (Examples.row 1 "j2" (Some "u2") 500000) Hin eq_refl Hpast) as [H1 H2].
  split; [exact H1 | exact (proj1 (H2 eq_refl))].
Defined.

Lemma find_unique l r :
  NoDup (map jti l) -> In r l -> find (Db.has_jti (jti r)) l = Some r.
Proof.
  intros U Hin.
  destruct (find (Db.has_jti (jti r)) l) as [t|] eqn:Fd.
  - apply find_some in Fd as [Ht Hj]. apply has_jti_true in Hj.
    f_equal. now apply (same_jti_same_row l).
  - exfalso. exact (proj1 (find_none_iff _ _) Fd r Hin eq_refl).
Qed.

Lemma userId_equals_true u r : Db.userId_equals u r = true <-> userId r = Some u.
Proof.
  unfold Db.userId_equals. destruct (userId r) as [v|].
  - rewrite String.eqb_eq. split; congruence.
  - split; discriminate.
Qed.

Lemma userId_equals_false u r : Db.userId_equals u r = false <-> userId r <> Some u.
Proof.
  rewrite <- userId_equals_true. destruct (Db.userId_equals u r); split; congruence.
Qed.

(** ** [blacklistToken] *)

Lemma dateOf_valid ms :
  - maxTime <= ms <= maxTime -> dateOf ms = Some ms.
Proof.
  intros [L U]. unfold dateOf.
  apply Z.leb_le in L. apply Z.leb_le in U. now rewrite L, U.
Qed.

Lemma dateOf_invalid ms :
  ~ (- maxTime <= ms <= maxTime) -> dateOf ms = None.
Proof.
  intros H. unfold dateOf.
  destruct (- maxTime <=? ms) eqn:L; [|reflexivity].
  destruct (ms <=? maxTime) eqn:U; [|reflexivity].
  apply Z.leb_le in L. apply Z.leb_le in U. exfalso. apply H. lia.
Qed.

Lemma dateOf_some ms d :
  dateOf ms = Some d -> d = ms /\ - maxTime <= ms <= maxTime.
Proof.
  unfold dateOf.
  destruct (- maxTime <=? ms) eqn:L; [|discriminate].
  destruct (ms <=? maxTime) eqn:U; [|discriminate].
  apply Z.leb_le in L. apply Z.leb_le in U. cbn. intros [= <-]. auto.
Qed.

Lemma blacklistToken_eq j e u w :
  blacklistToken j e u w =
  match dateOf (e * 1000) with
  | None =>
      (Throw PrismaClientValidationError,
       logged (addFailed PrismaClientValidationError) w)
  | Some expires =>
      if Db.fails w
      then (Throw PrismaClientInitializationError,
            logged (addFailed PrismaClientInitializationError) (Db.after w))
      else if existsb (Db.has_jti j) (tokenBlacklist w)
      then (Throw (PrismaClientKnownRequestError "P2002"),
            logged (addFailed (PrismaClientKnownRequestError "P2002")) (Db.after w))
      else (Ok tt,
            logged (console_log ("[TokenBlacklist] Token blacklisted. JTI: " ++ j))
              {| tokenBlacklist := (tokenBlacklist w ++
                   [{| id := serial w; jti := j; userId := orNull u;
                       expiresAt := expires; createdAt := clock w |}])%list;
                 clock := clock w; outages := tl (outages w); uuids := uuids w;
                 drawn := drawn w; serial := S (serial w); console := console w |})
  end.
Proof.
  unfold blacklistToken, tryCatch, bind, Db.create.
  destruct (dateOf (e * 1000)) as [expires|]; [|reflexivity].
  unfold Db.call.
  destruct (Db.fails w); [reflexivity|].
  change (tokenBlacklist (Db.after w)) with (tokenBlacklist w).
  destruct (existsb (Db.has_jti j) (tokenBlacklist w)); reflexivity.
Qed.

(** At an expiry that is no valid [Date], with a row for the identifier in
    the table or without one, [blacklistToken] throws the client's
    validation error: no conflict is raised and nothing is inserted. *)
Lemma blacklistToken_invalid_date :
  (exists r, In r (tokenBlacklist Examples.calm) /\ jti r = "j1")
  /\ fst (blacklistToken "j1" 8640000000001 None Examples.calm)
     = Throw PrismaClientValidationError
  /\ (forall r, In r (tokenBlacklist Examples.calm) -> jti r <> "j9")
  /\ fst (blacklistToken "j9" 8640000000001 None Examples.calm)
     = Throw PrismaClientValidationError
  /\ tokenBlacklist (snd (blacklistToken "j9" 8640000000001 None Examples.calm))
     = tokenBlacklist Examples.calm.
Proof.
  split; [exists (Examples.row 0 "j1" (Some "u1") 2000000); simpl; auto|].
  split; [reflexivity|]. split; [|split; reflexivity].
  intros r [<- | [<- | [<- | []]]]; discriminate.
Qed.

(** C7, as the code has it.  For an expiry that is a valid [Date] and with
    the database answering, [blacklistToken] appends a row for the identifier
    when the table has none; when a row with that identifier exists it throws
    the unique-constraint error to its caller, having logged it, and leaves
    the table as it was.  A database failure is thrown to the caller as well,
    and so is the validation error for an expiry that is no valid [Date]:
    then nothing is inserted and no conflict is raised. *)
Theorem blacklistToken_conflict (j : string) (e : Z) (u : option string) (w : World) :
  (- maxTime <= e * 1000 <= maxTime -> Db.fails w = false ->
     ((forall r, In r (tokenBlacklist w) -> jti r <> j) ->
        fst (blacklistToken j e u w) = Ok tt
        /\ tokenBlacklist (snd (blacklistToken j e u w)) =
           (tokenBlacklist w ++
             [{| id := serial w; jti := j; userId := orNull u;
                 expiresAt := e * 1000; createdAt := clock w |}])%list)
     /\ ((exists r, In r (tokenBlacklist w) /\ jti r = j) ->
           fst (blacklistToken j e u w) = Throw (PrismaClientKnownRequestError "P2002")
           /\ tokenBlacklist (snd (blacklistToken j e u w)) = tokenBlacklist w
           /\ console (snd (blacklistToken j e u w))
              = (console w ++ [addFailed (PrismaClientKnownRequestError "P2002")])%list))
  /\ (- maxTime <= e * 1000 <= maxTime -> Db.fails w = true ->
        fst (blacklistToken j e u w) = Throw PrismaClientInitializationError
        /\ tokenBlacklist (snd (blacklistToken j e u w)) = tokenBlacklist w)
  /\ (~ (- maxTime <= e * 1000 <= maxTime) ->
        blacklistToken j e u w
        = (Throw PrismaClientValidationError,
           logged (addFailed PrismaClientValidationError) w)).
Proof.
  rewrite blacklistToken_eq. split; [|split].
  - intros V F. rewrite (dateOf_valid _ V), F.
    destruct (existsb (Db.has_jti j) (tokenBlacklist w)) eqn:Ex.
    + apply existsb_exists in Ex as [t [Ht Hj]]. apply has_jti_true in Hj.
      split.
      * intros Hno. exfalso. exact (Hno t Ht Hj).
      * intros _. repeat split; reflexivity.
    + split.
      * intros _. split; reflexivity.
      * intros [r [Hr Hj]]. exfalso.
        assert (E : existsb (Db.has_jti j) (tokenBlacklist w) = true).
        { apply existsb_exists. exists r. split; [assumption | now apply has_jti_true]. }
        congruence.
  - intros V F. rewrite (dateOf_valid _ V), F. split; reflexivity.
  - intros V. now rewrite (dateOf_invalid _ V).
Qed.

Lemma blacklistToken_conflict_witness :
  - maxTime <= 2000 * 1000 <= maxTime
  /\ Db.fails Examples.calm = false
  /\ (exists r, In r (tokenBlacklist Examples.calm) /\ jti r = "j1")
  /\ fst (blacklistToken "j1" 2000 (Some "u1") Examples.calm)
     = Throw (PrismaClientKnownRequestError "P2002").
Proof.
  assert (V : - maxTime <= 2000 * 1000 <= maxTime) by (unfold maxTime; lia).
  assert (E : exists r, In r (tokenBlacklist Examples.calm) /\ jti r = "j1").
  { exists (Examples.row 0 "j1" (Some "u1") 2000000). simpl. auto. }
  split; [exact V|]. split; [reflexivity|]. split; [exact E|].
  exact (proj1 (proj2 (proj1
    (blacklistToken_conflict "j1" 2000 (Some "u1") Examples.calm) V eq_refl) E)).
Defined.

(** ** [revokeUserTokens] *)

Lemma revokeUserTokens_eq u w :
  revokeUserTokens u w =
  if Db.fails w then (Ok 0%nat, logged revokeFailed (Db.after w))
  else
    let n := List.length (filter (Db.userId_equals u) (tokenBlacklist w)) in
    (Ok n,
     logged (console_log ("[TokenBlacklist] Revoked " ++ showNat n
                          ++ " tokens for user: " ++ u))
       (set_table (filter (fun x => negb (Db.userId_equals u x)) (tokenBlacklist w))
                  (Db.after w))).
Proof.
  unfold revokeUserTokens, tryCatch, bind, Db.deleteMany, Db.call.
  destruct (Db.fails w); reflexivity.
Qed.

(** C3.  [revokeUserTokens] deletes exactly the rows owned by the user
    and returns how many there were; the identifiers of the deleted rows
    are no longer reported as revoked, and no identifier becomes revoked
    by the call.  When the database call fails it returns 0, throws
    nothing and leaves the table as it was. *)
Theorem revokeUserTokens_unrevokes (u : string) (w : World) :
  (Db.fails w = false ->
     fst (revokeUserTokens u w)
       = Ok (List.length (filter (Db.userId_equals u) (tokenBlacklist w)))
     /\ (forall r, In r (tokenBlacklist (snd (revokeUserTokens u w))) <->
                   In r (tokenBlacklist w) /\ userId r <> Some u)
     /\ (Db.unique w ->
         forall r, In r (tokenBlacklist w) -> userId r = Some u ->
           fst (isJtiBlacklisted (jti r) (snd (revokeUserTokens u w))) = Ok false)
     /\ (Db.unique w ->
         forall j, fst (isJtiBlacklisted j (snd (revokeUserTokens u w))) = Ok true ->
           fst (isJtiBlacklisted j w) = Ok true))
  /\ (Db.fails w = true ->
        fst (revokeUserTokens u w) = Ok 0%nat
        /\ tokenBlacklist (snd (revokeUserTokens u w)) = tokenBlacklist w).
Proof.
  rewrite revokeUserTokens_eq. split; intros F; rewrite F; cbn zeta; cbn [fst snd].
  2: { split; reflexivity. }
  set (kept := filter (fun x => negb (Db.userId_equals u x)) (tokenBlacklist w)).
  assert (Kept : forall r, In r kept <-> In r (tokenBlacklist w) /\ userId r <> Some u).
  { intros r. unfold kept. rewrite filter_In, negb_true_iff, userId_equals_false.
    tauto. }
  split; [reflexivity|]. split; [exact Kept|]. split.
  - intros U r Hr Hu. apply distinct_NoDup in U.
    rewrite isJtiBlacklisted_eq. cbn [fst snd].
    match goal with |- context [if ?c then _ else _] => destruct c end;
      [reflexivity|].
    change (tokenBlacklist (logged _ (set_table kept (Db.after w)))) with kept.
    destruct (find (Db.has_jti (jti r)) kept) as [t|] eqn:Fd; [|reflexivity].
    exfalso. apply find_some in Fd as [Ht Hj]. apply has_jti_true in Hj.
    apply Kept in Ht as [Ht Hne]. apply Hne.
    rewrite (same_jti_same_row _ _ _ U Ht Hr Hj). exact Hu.
  - intros U j. apply distinct_NoDup in U.
    rewrite !isJtiBlacklisted_eq, F.
    match goal with |- context [if ?c then _ else _] => destruct c end;
      [discriminate|].
    change (tokenBlacklist (logged _ (set_table kept (Db.after w)))) with kept.
    change (clock (logged _ (set_table kept (Db.after w)))) with (clock w).
    destruct (find (Db.has_jti j) kept) as [t|] eqn:Fd; [|discriminate].
    pose proof (find_some _ _ Fd) as [Ht Hj]. apply has_jti_true in Hj.
    apply Kept in Ht as [Ht _]. subst j.
    rewrite (find_unique _ _ U Ht).
    destruct (clock w >? expiresAt t); [|reflexivity].
    match goal with |- context [if ?c then _ else _] => destruct c end;
      discriminate.
Qed.

Lemma revokeUserTokens_unrevokes_witness :
  Db.fails Examples.calm = false
  /\ Db.unique Examples.calm
  /\ fst (isJtiBlacklisted "j1" Examples.calm) = Ok true
  /\ fst (revokeUserTokens "u1" Examples.calm) = Ok 2%nat
  /\ fst (isJtiBlacklisted "j1" (snd (revokeUserTokens "u1" Examples.calm)))
     = Ok false.
Proof.
  split; [reflexivity|]. split; [reflexivity|]. split; [reflexivity|].
  pose proof (proj1 (revokeUserTokens_unrevokes "u1" Examples.calm) eq_refl)
    as [Hcount [_ [Hun _]]].
  split; [exact Hcount|].
  refine (Hun eq_refl (Examples.row 0 "j1" (Some "u1") 2000000) _ eq_refl).
  simpl. auto.
Defined.

(** ** [cleanupExpiredTokens] *)

Lemma cleanupExpiredTokens_eq w :
  cleanupExpiredTokens w =
  if Db.fails w then (Ok tt, logged cleanupFailed (Db.after w))
  else
    let n := List.length (filter (expired w) (tokenBlacklist w)) in
    let w' := set_table (filter (fun x => negb (expired w x)) (tokenBlacklist w))
                        (Db.after w) in
    (Ok tt, if (0 <? n)%nat then logged (cleanedUp n) w' else w').
Proof.
  unfold cleanupExpiredTokens, tryCatch, bind, Db.deleteMany, Db.call, newDate, expired.
  destruct (Db.fails w); [reflexivity|].
  change (clock (Db.after w)) with (clock w).
  change (tokenBlacklist (Db.after w)) with (tokenBlacklist w).
  cbn zeta.
  destruct (0 <? List.length (filter (Db.expiresAt_lt (clock w)) (tokenBlacklist w)))%nat;
    reflexivity.
Qed.

Lemma expired_true w r : expired w r = true <-> expiresAt r < clock w.
Proof. unfold expired, Db.expiresAt_lt. apply Z.ltb_lt. Qed.

Lemma filter_none {A} (f : A -> bool) (l : list A) :
  (forall x, In x l -> f x = false) -> filter f l = [].
Proof.
  induction l as [|a l IH]; intros H; simpl; [reflexivity|].
  rewrite (H a (or_introl eq_refl)). apply IH. intros x Hx. apply H. now right.
Qed.

Lemma filter_all {A} (f : A -> bool) (l : list A) :
  (forall x, In x l -> f x = true) -> filter f l = l.
Proof.
  induction l as [|a l IH]; intros H; simpl; [reflexivity|].
  rewrite (H a (or_introl eq_refl)). f_equal. apply IH. intros x Hx. apply H. now right.
Qed.

(** The value that [cleanupExpiredTokens] returns does not tell how many
    rows it removed: no reading of the returned value gives the count,
    even over the worlds where the database answers. *)
Lemma cleanupExpiredTokens_returns_no_count :
  ~ exists count : Result unit -> nat,
      forall w, Db.fails w = false ->
        count (fst (cleanupExpiredTokens w))
        = (List.length (tokenBlacklist w)
           - List.length (tokenBlacklist (snd (cleanupExpiredTokens w))))%nat.
Proof.
  intros [count H].
  pose proof (H Examples.calm eq_refl) as H1.
  pose proof (H (snd (cleanupExpiredTokens Examples.calm)) eq_refl) as H2.
  vm_compute in H1, H2. congruence.
Qed.

(** C4, as the code has it.  [cleanupExpiredTokens] returns nothing and
    never throws.  When the database call succeeds it deletes exactly the
    rows whose expiry is before the clock and leaves the other rows as they
    were; the number removed is only written to the console, and only when
    it is positive; a call repeated at once finds nothing to remove and
    logs no count.  When the database call fails the table is untouched
    and the failure is logged. *)
Theorem cleanupExpiredTokens_purges (w : World) :
  fst (cleanupExpiredTokens w) = Ok tt
  /\ (Db.fails w = false ->
        let w' := snd (cleanupExpiredTokens w) in
        let n := List.length (filter (expired w) (tokenBlacklist w)) in
        tokenBlacklist w' = filter (fun r => negb (expired w r)) (tokenBlacklist w)
        /\ (forall r, In r (tokenBlacklist w') <->
                      In r (tokenBlacklist w) /\ ~ expiresAt r < clock w)
        /\ console w' = (console w ++ if (0 <? n)%nat then [cleanedUp n] else [])%list
        /\ tokenBlacklist (snd (cleanupExpiredTokens w')) = tokenBlacklist w'
        /\ (Db.fails w' = false -> console (snd (cleanupExpiredTokens w')) = console w'))
  /\ (Db.fails w = true ->
        tokenBlacklist (snd (cleanupExpiredTokens w)) = tokenBlacklist w
        /\ console (snd (cleanupExpiredTokens w)) = (console w ++ [cleanupFailed])%list).
Proof.
  split; [|split].
  - rewrite cleanupExpiredTokens_eq. destruct (Db.fails w); reflexivity.
  - intros F. cbn zeta.
    set (kept := filter (fun r => negb (expired w r)) (tokenBlacklist w)).
    set (n := List.length (filter (expired w) (tokenBlacklist w))).
    assert (T : tokenBlacklist (snd (cleanupExpiredTokens w)) = kept).
    { rewrite cleanupExpiredTokens_eq, F. cbn zeta. fold n.
      destruct (0 <? n)%nat; reflexivity. }
    assert (C : clock (snd (cleanupExpiredTokens w)) = clock w).
    { rewrite cleanupExpiredTokens_eq, F. cbn zeta. fold n.
      destruct (0 <? n)%nat; reflexivity. }
    assert (Fresh : forall r, In r kept ->
              expired (snd (cleanupExpiredTokens w)) r = false).
    { intros r Hr. unfold kept in Hr. apply filter_In in Hr as [_ Hr].
      apply negb_true_iff in Hr. unfold expired in *. rewrite C. exact Hr. }
    split; [exact T|]. split; [|split; [|split]].
    + intros r. rewrite T. unfold kept.
      rewrite filter_In, negb_true_iff, <- expired_true.
      destruct (expired w r); intuition congruence.
    + rewrite cleanupExpiredTokens_eq, F. cbn zeta. fold n.
      destruct (0 <? n)%nat; cbn; [reflexivity | now rewrite app_nil_r].
    + rewrite (cleanupExpiredTokens_eq (snd (cleanupExpiredTokens w))).
      destruct (Db.fails (snd (cleanupExpiredTokens w))); [reflexivity|].
      cbn zeta. rewrite T.
      rewrite (filter_none (expired _) kept Fresh). cbn.
      apply filter_all. intros r Hr. now rewrite (Fresh r Hr).
    + intros F'.
      rewrite (cleanupExpiredTokens_eq (snd (cleanupExpiredTokens w))), F'.
      cbn zeta. rewrite T.
      rewrite (filter_none (expired _) kept Fresh). reflexivity.
  - intros F. rewrite cleanupExpiredTokens_eq, F. split; reflexivity.
Qed.

Lemma cleanupExpiredTokens_purges_witness :
  Db.fails Examples.calm = false
  /\ tokenBlacklist (snd (cleanupExpiredTokens Examples.calm))
     = [ Examples.row 0 "j1" (Some "u1") 2000000;
         Examples.row 2 "j3" (Some "u1") 3000000 ]
  /\ console (snd (cleanupExpiredTokens Examples.calm)) = [cleanedUp 1].
Proof.
  split; [reflexivity|].
  pose proof (proj1 (proj2 (cleanupExpiredTokens_purges Examples.calm)) eq_refl)
    as [HT [_ [HC _]]].
  split; [exact HT | exact HC].
Defined.

End StoreFacts.

(** ** The small token library obeys the laws *)
Module ToyJwtFacts.
Import Jwt ToyJwt.

Lemma get_put s k : get (put s k) = Some (s, k).
Proof.
  induction s as [|c r IH]; simpl; [reflexivity|]. now rewrite IH.
Qed.

Lemma getOpt_putOpt o k : getOpt (putOpt o k) = Some (o, k).
Proof.
  destruct o as [s|]; simpl; [|reflexivity]. now rewrite get_put.
Qed.

Lemma readZ_showZ z : readZ (showZ z) = Some z.
Proof.
  unfold readZ, showZ. rewrite NilEmpty.isi. simpl. now rewrite DecimalZ.of_to.
Qed.

Lemma readOptZ_showZ o : readOptZ (option_map showZ o) = Some o.
Proof.
  destruct o as [z|]; simpl; [|reflexivity]. now rewrite readZ_showZ.
Qed.

Lemma parse_render secret p : parse (render secret p) = Some (secret, p).
Proof.
  unfold parse, render.
  rewrite !get_put, !getOpt_putOpt, !readOptZ_showZ.
  now destruct p.
Qed.

Lemma toy_laws : JsonWebTokenLaws toy.
Proof.
  constructor.
  - intros p secret e t ttl Hts _ Hexp. cbn in *. unfold toySign.
    rewrite Hts, Hexp. eauto.
  - intros p secret e t ttl token t' Hts Hiat Hexp Hsign Hlt. cbn in *.
    unfold toySign in Hsign. rewrite Hts, Hexp, Hiat in Hsign.
    injection Hsign as <-. unfold toyVerify. rewrite parse_render, String.eqb_refl.
    cbn [exp stamped].
    destruct (t' >=? t + ttl) eqn:G; [|reflexivity].
    rewrite Z.geb_leb in G. apply Z.leb_le in G. lia.
Qed.

End ToyJwtFacts.

(** ** Header parsing *)
Module HeaderFacts.
Import Spec.

Lemma split_nonempty sep s : split sep s <> [].
Proof.
  destruct s as [|c r]; simpl; [discriminate|].
  destruct (Ascii.eqb c sep); [discriminate|].
  destruct (split sep r); discriminate.
Qed.

Lemma split_one sep s y :
  split sep s = [y] -> s = y /\ mentions sep s = false.
Proof.
  revert y. induction s as [|c r IH]; simpl; intros y H.
  - injection H as <-. auto.
  - destruct (Ascii.eqb c sep) eqn:E.
    + injection H as _ H. now apply split_nonempty in H.
    + destruct (split sep r) as [|first others] eqn:S.
      * now apply split_nonempty in S.
      * injection H as <- ->. destruct (IH first eq_refl) as [-> Hm].
        simpl. auto.
Qed.

Lemma split_two sep s x y :
  split sep s = [x; y] ->
  s = (x ++ String sep y)%string /\ mentions sep y = false.
Proof.
  revert x. induction s as [|c r IH]; simpl; intros x H; [discriminate|].
  destruct (Ascii.eqb c sep) eqn:E.
  - injection H as <- H. apply Ascii.eqb_eq in E. subst c.
    apply split_one in H as [-> Hm]. simpl. auto.
  - destruct (split sep r) as [|first others] eqn:S; [discriminate|].
    injection H as <- ->. destruct (IH first eq_refl) as [-> Hm].
    simpl. auto.
Qed.

Lemma split_whole sep s : mentions sep s = false -> split sep s = [s].
Proof.
  induction s as [|c r IH]; simpl; intros H; [reflexivity|].
  apply orb_false_iff in H as [E Hm]. rewrite E, (IH Hm). reflexivity.
Qed.

Lemma split_at sep a b :
  mentions sep a = false ->
  split sep (a ++ String sep b) = a :: split sep b.
Proof.
  induction a as [|c r IH]; simpl; intros H.
  - now rewrite Ascii.eqb_refl.
  - apply orb_false_iff in H as [E Hm]. rewrite E, (IH Hm). reflexivity.
Qed.

Lemma stripPrefix_app p t : stripPrefix p (p ++ t) = Some t.
Proof.
  induction p as [|a p IH]; simpl; [now destruct t|].
  now rewrite Ascii.eqb_refl.
Qed.

Lemma stripPrefix_some p s t : stripPrefix p s = Some t -> s = (p ++ t)%string.
Proof.
  revert s. induction p as [|a p IH]; intros s H.
  - destruct s; simpl in H; now injection H as <-.
  - destruct s as [|b s]; simpl in H; [discriminate|].
    destruct (Ascii.eqb a b) eqn:E; [|discriminate].
    apply Ascii.eqb_eq in E. subst b. simpl. f_equal. now apply IH.
Qed.

(** The test on [parts] accepts exactly the headers [Bearer <token>]. *)
Lemma bearer_split h :
  match bearer h with
  | Some token => split space h = ["Bearer"; token]
  | None =>
      negb (List.length (split space h) =? 2)%nat
      || negb (nth 0 (split space h) "" =? "Bearer")%string = true
  end.
Proof.
  unfold bearer.
  destruct (stripPrefix "Bearer " h) as [token|] eqn:P.
  - apply stripPrefix_some in P. subst h.
    destruct (mentions space token) eqn:Mt.
    + destruct (negb (List.length (split space ("Bearer " ++ token)) =? 2)%nat
                || negb (nth 0 (split space ("Bearer " ++ token)) "" =? "Bearer")%string)
        eqn:T; [reflexivity|].
      exfalso. apply orb_false_iff in T as [L _].
      apply negb_false_iff, Nat.eqb_eq in L.
      change ("Bearer " ++ token)%string
        with ("Bearer" ++ String space token)%string in L.
      rewrite split_at in L by reflexivity.
      destruct (split space token) as [|y [|z l]] eqn:S; try discriminate.
      apply split_one in S as [_ Hm]. congruence.
    + change ("Bearer " ++ token)%string
        with ("Bearer" ++ String space token)%string.
      rewrite split_at by reflexivity. now rewrite split_whole.
  - destruct (negb (List.length (split space h) =? 2)%nat
              || negb (nth 0 (split space h) "" =? "Bearer")%string)
      eqn:T; [reflexivity|].
    exfalso. apply orb_false_iff in T as [L F].
    apply negb_false_iff, Nat.eqb_eq in L.
    apply negb_false_iff, String.eqb_eq in F.
    destruct (split space h) as [|x [|y [|z l]]] eqn:S; try discriminate.
    simpl in F. subst x. apply split_two in S as [-> _].
    change ("Bearer" ++ String space y)%string with ("Bearer " ++ y)%string in P.
    now rewrite stripPrefix_app in P.
Qed.

End HeaderFacts.

(** ** The verifier and the guards *)
Module GuardFacts.
Import Jwt TokenBlacklist Middleware Spec.

Section WithLibrary.
Context {env : Env} {J : JsonWebToken}.

Lemma authMiddleware_guardWith req :
  authMiddleware req
  = guardWith isJtiBlacklisted ["admin"; "operator"] usersOnly req.
Proof. reflexivity. Qed.

Lemma requiredAdmin_guardWith req :
  requiredAdmin req = guardWith isJtiBlacklisted ["admin"] adminOnly req.
Proof. reflexivity. Qed.

Lemma verifyToken_eq token w :
  verifyToken token w =
  match verify token JWT_SECRET (seconds w) with
  | Ok decoded => (Ok (Some decoded), w)
  | Throw e =>
      (Ok None, logged (console_error "JWT verification failed:" (message e)) w)
  end.
Proof.
  unfold verifyToken, tryCatch.
  destruct (verify token JWT_SECRET (seconds w)); reflexivity.
Qed.

(** The lookup always answers; it never throws. *)
Lemma isJtiBlacklisted_total j w :
  fst (isJtiBlacklisted j w) = Ok (revokedAt w j).
Proof.
  unfold revokedAt. rewrite StoreFacts.isJtiBlacklisted_eq.
  repeat match goal with
         | |- context [if ?c then _ else _] => destruct c
         | |- context [match ?c with Some _ => _ | None => _ end] => destruct c
         end; reflexivity.
Qed.

Lemma role_test permitted payload :
  includes permitted "" = false ->
  negb (truthy (role payload))
  || negb (includes permitted (orEmpty (role payload)))
  = negb (permits permitted payload).
Proof.
  intros Hempty. unfold permits, truthy, orEmpty.
  destruct (role payload) as [r|]; [|reflexivity].
  destruct (r =? "")%string eqn:E; [|reflexivity].
  apply String.eqb_eq in E. subst r. now rewrite Hempty.
Qed.

(** A guard, step by step, for any lookup that answers. *)
Lemma guardWith_eq lookup permitted roleMessage req w :
  includes permitted "" = false ->
  (forall j w0, exists b, fst (lookup j w0) = Ok b) ->
  guardWith lookup permitted roleMessage req w =
  match authorization req with
  | None => (Ok (respond roleMessage req (REJECTED missing_credential)), w)
  | Some h =>
      if (h =? "")%string
      then (Ok (respond roleMessage req (REJECTED missing_credential)), w)
      else
        match bearer h with
        | None => (Ok (respond roleMessage req (REJECTED malformed_credential)), w)
        | Some token =>
            match verify token JWT_SECRET (seconds w) with
            | Throw e =>
                (Ok (respond roleMessage req (REJECTED invalid_or_expired)),
                 logged (console_error "JWT verification failed:" (message e)) w)
            | Ok payload =>
                match fst (lookup (orEmpty (jti payload)) w) with
                | Ok true =>
                    (Ok (respond roleMessage req (REJECTED revoked)),
                     snd (lookup (orEmpty (jti payload)) w))
                | _ =>
                    (Ok (respond roleMessage req
                           (if permits permitted payload then ADMITTED payload
                            else REJECTED insufficient_role)),
                     snd (lookup (orEmpty (jti payload)) w))
                end
            end
        end
  end.
Proof.
  intros Hempty Htotal. unfold guardWith, tryCatch.
  destruct (authorization req) as [h|]; [|reflexivity].
  cbn [truthy orEmpty].
  destruct (h =? "")%string; [reflexivity|]. cbn [negb].
  pose proof (HeaderFacts.bearer_split h) as B.
  destruct (bearer h) as [token|].
  - rewrite B. cbn [List.length Nat.eqb nth negb orb]. rewrite String.eqb_refl.
    cbn [negb]. unfold bind at 1. rewrite verifyToken_eq.
    destruct (verify token JWT_SECRET (seconds w)) as [payload|e]; [|reflexivity].
    unfold bind. destruct (Htotal (orEmpty (jti payload)) w) as [b Hb].
    destruct (lookup (orEmpty (jti payload)) w) as [r w'].
    cbn [fst snd] in *. subst r. destruct b; [reflexivity|].
    rewrite (role_test _ _ Hempty).
    destruct (permits permitted payload); reflexivity.
  - rewrite B. reflexivity.
Qed.

Lemma isJtiBlacklisted_answers :
  forall j w0, exists b, fst (isJtiBlacklisted j w0) = Ok b.
Proof. intros j w0. exists (revokedAt w0 j). apply isJtiBlacklisted_total. Qed.

Lemma guardWith_refines permitted roleMessage req w :
  includes permitted "" = false ->
  fst (guardWith isJtiBlacklisted permitted roleMessage req w)
  = Ok (respond roleMessage req
          (accessGuard permitted (verifiedAt w) (revokedAt w) (authorization req))).
Proof.
  intros Hempty.
  rewrite (guardWith_eq _ _ _ _ _ Hempty isJtiBlacklisted_answers).
  unfold accessGuard, verifiedAt.
  destruct (authorization req) as [h|]; [|reflexivity].
  destruct (h =? "")%string; [reflexivity|].
  destruct (bearer h) as [token|]; [|reflexivity].
  destruct (verify token JWT_SECRET (seconds w)) as [payload|e]; [|reflexivity].
  rewrite isJtiBlacklisted_total. unfold identifier.
  destruct (revokedAt w (orEmpty (jti payload))); reflexivity.
Qed.


Lemma bearer_nonempty h token : bearer h = Some token -> h <> "".
Proof. intros H ->. discriminate. Qed.

(** Once the token has verified, what a guard does is decided by the
    lookup of the identifier [payload.jti || ''] alone. *)
Lemma guardWith_verified lookup permitted roleMessage req w h token payload :
  authorization req = Some h -> bearer h = Some token ->
  verify token JWT_SECRET (seconds w) = Ok payload ->
  guardWith lookup permitted roleMessage req w =
  match lookup (orEmpty (jti payload)) w with
  | (Ok true, w') =>
      (Ok (Sent (errorResponse "Token has been revoked. Please login again."
                               401 None)), w')
  | (Ok false, w') =>
      (Ok (if negb (truthy (role payload))
              || negb (includes permitted (orEmpty (role payload)))
           then Sent (errorResponse roleMessage 403 None)
           else Next (setUser req payload)), w')
  | (Throw e, w') =>
      (Ok (Sent (errorResponse "Authentication error" 500 (Some (message e)))), w')
  end.
Proof.
  intros Hh Hb Hv. unfold guardWith, tryCatch. rewrite Hh.
  cbn [truthy orEmpty].
  pose proof (bearer_nonempty _ _ Hb) as Hne.
  apply String.eqb_neq in Hne. rewrite Hne. cbn [negb].
  pose proof (HeaderFacts.bearer_split h) as B. rewrite Hb in B. rewrite B.
  cbn [List.length Nat.eqb nth negb orb]. rewrite String.eqb_refl. cbn [negb].
  unfold bind at 1. rewrite verifyToken_eq, Hv. unfold bind.
  destruct (lookup (orEmpty (jti payload)) w) as [[[|]|e] w']; try reflexivity.
  destruct (negb (truthy (role payload))
            || negb (includes permitted (orEmpty (role payload)))); reflexivity.
Qed.

Lemma guardWith_lookup_throws lookup permitted roleMessage req w h token payload e w' :
  authorization req = Some h -> bearer h = Some token ->
  verify token JWT_SECRET (seconds w) = Ok payload ->
  lookup (orEmpty (jti payload)) w = (Throw e, w') ->
  guardWith lookup permitted roleMessage req w
  = (Ok (Sent (errorResponse "Authentication error" 500 (Some (message e)))), w').
Proof.
  intros Hh Hb Hv Hl.
  rewrite (guardWith_verified _ _ _ _ _ h token payload Hh Hb Hv), Hl.
  reflexivity.
Qed.

(** A database failure inside [isJtiBlacklisted] is caught there, logged and
    answered with "not revoked": for a request whose token verifies, both
    guards go on to the role check and hand the request on when the role is
    permitted, whether or not a row is stored for the token. *)
Lemma guards_open_on_lookup_failure
    (req : Request) (w : World) (h token : string) (payload : JwtPayload) :
  authorization req = Some h -> bearer h = Some token ->
  verify token JWT_SECRET (seconds w) = Ok payload ->
  Db.fails w = true ->
  isJtiBlacklisted (orEmpty (jti payload)) w
  = (Ok false, logged checkFailed (Db.after w))
  /\ fst (authMiddleware req w)
     = Ok (if permits ["admin"; "operator"] payload
           then Next (setUser req payload)
           else Sent (errorResponse usersOnly 403 None))
  /\ fst (requiredAdmin req w)
     = Ok (if permits ["admin"] payload
           then Next (setUser req payload)
           else Sent (errorResponse adminOnly 403 None)).
Proof.
  intros Hh Hb Hv F. pose proof (bearer_nonempty _ _ Hb) as Hne.
  assert (L : isJtiBlacklisted (orEmpty (jti payload)) w
              = (Ok false, logged checkFailed (Db.after w))).
  { rewrite StoreFacts.isJtiBlacklisted_eq, F. reflexivity. }
  split; [exact L|].
  rewrite authMiddleware_guardWith, requiredAdmin_guardWith.
  split.
  - rewrite (guardWith_eq _ ["admin"; "operator"] _ _ _ eq_refl
               isJtiBlacklisted_answers).
    rewrite Hh. apply String.eqb_neq in Hne. rewrite Hne, Hb, Hv, L.
    cbn [fst]. destruct (permits ["admin"; "operator"] payload); reflexivity.
  - rewrite (guardWith_eq _ ["admin"] _ _ _ eq_refl isJtiBlacklisted_answers).
    rewrite Hh. apply String.eqb_neq in Hne. rewrite Hne, Hb, Hv, L.
    cbn [fst]. destruct (permits ["admin"] payload); reflexivity.
Qed.

(** The catch arm of the guards is never reached: whatever the request and
    whatever the state of the database, neither guard throws and neither
    answers with status 500. *)
Lemma guards_never_answer_500 (req : Request) (w : World) :
  (exists handled, fst (authMiddleware req w) = Ok handled
     /\ forall res, handled = Sent res -> statusCode res <> 500)
  /\ (exists handled, fst (requiredAdmin req w) = Ok handled
       /\ forall res, handled = Sent res -> statusCode res <> 500).
Proof.
  rewrite authMiddleware_guardWith, requiredAdmin_guardWith.
  split; rewrite guardWith_refines by reflexivity;
    (eexists; split; [reflexivity|]);
    unfold accessGuard;
    repeat match goal with
           | |- context [match ?c with Some _ => _ | None => _ end] => destruct c
           | |- context [if ?c then _ else _] => destruct c
           end;
    cbn; intros res E; try discriminate;
    injection E as <-; cbn; discriminate.
Qed.

(** C6.  Whatever makes the library reject a token, [verifyToken]
    returns the same [null], and a guard answers the same 401 with the
    same wording and no detail: nothing the caller receives tells one
    cause of failure from another (the cause goes to the console only). *)
Theorem verification_failures_alike
    (t1 t2 : string) (w1 w2 : World) (e1 e2 : Exn) :
  verify t1 JWT_SECRET (seconds w1) = Throw e1 ->
  verify t2 JWT_SECRET (seconds w2) = Throw e2 ->
  fst (verifyToken t1 w1) = Ok None
  /\ fst (verifyToken t2 w2) = Ok None
  /\ (forall req1 req2 h1 h2,
        authorization req1 = Some h1 -> bearer h1 = Some t1 ->
        authorization req2 = Some h2 -> bearer h2 = Some t2 ->
        fst (authMiddleware req1 w1)
          = Ok (Sent (errorResponse "Invalid or expired token" 401 None))
        /\ fst (authMiddleware req2 w2) = fst (authMiddleware req1 w1)
        /\ fst (requiredAdmin req1 w1)
           = Ok (Sent (errorResponse "Invalid or expired token" 401 None))
        /\ fst (requiredAdmin req2 w2) = fst (requiredAdmin req1 w1)).
Proof.
  intros V1 V2. rewrite !verifyToken_eq, V1, V2.
  split; [reflexivity|]. split; [reflexivity|].
  intros req1 req2 h1 h2 A1 B1 A2 B2.
  pose proof (bearer_nonempty _ _ B1) as N1. apply String.eqb_neq in N1.
  pose proof (bearer_nonempty _ _ B2) as N2. apply String.eqb_neq in N2.
  rewrite !authMiddleware_guardWith, !requiredAdmin_guardWith.
  rewrite !(guardWith_eq _ ["admin"; "operator"] _ _ _ eq_refl
              isJtiBlacklisted_answers).
  rewrite !(guardWith_eq _ ["admin"] _ _ _ eq_refl isJtiBlacklisted_answers).
  rewrite A1, A2, N1, N2, B1, B2, V1, V2. repeat split; reflexivity.
Qed.

End WithLibrary.

End GuardFacts.

(** ** The running server keeps its table well formed *)
Module ServerFacts.
Import Jwt TokenBlacklist Middleware Routes Server.

Lemma NoDup_map_filter {A B} (g : A -> B) (f : A -> bool) (l : list A) :
  NoDup (map g l) -> NoDup (map g (filter f l)).
Proof.
  induction l as [|a l IH]; simpl; intros H; [constructor|].
  inversion H as [|? ? Hn Hl]; subst.
  destruct (f a); simpl; [|now apply IH].
  constructor; [|now apply IH].
  intros Hin. apply Hn. apply in_map_iff in Hin as [x [E Hx]].
  apply filter_In in Hx as [Hx _]. rewrite <- E. now apply in_map.
Qed.

Lemma filter_true {A} (l : list A) : filter (fun _ => true) l = l.
Proof. induction l as [|a l IH]; simpl; [reflexivity | now rewrite IH]. Qed.

Lemma keeps_same w w' : tokenBlacklist w' = tokenBlacklist w -> keeps w w'.
Proof. intros E. exists (fun _ => true). now rewrite filter_true. Qed.

Lemma keeps_trans w1 w2 w3 : keeps w1 w2 -> keeps w2 w3 -> keeps w1 w3.
Proof.
  intros [f Hf] [g Hg]. exists (fun x => f x && g x).
  rewrite Hg, Hf. clear. induction (tokenBlacklist w1) as [|a l IH]; simpl.
  - reflexivity.
  - destruct (f a); simpl; [destruct (g a); simpl; now rewrite IH | exact IH].
Qed.

Lemma wellFormed_keeps w w' : wellFormed w -> keeps w w' -> wellFormed w'.
Proof.
  intros [U N] [f E]. split; rewrite E.
  - now apply NoDup_map_filter.
  - intros r Hr. apply filter_In in Hr as [Hr _]. now apply N.
Qed.

Lemma isJtiBlacklisted_keeps j w : keeps w (snd (isJtiBlacklisted j w)).
Proof.
  rewrite StoreFacts.isJtiBlacklisted_eq.
  repeat match goal with
         | |- context [if ?c then _ else _] => destruct c
         | |- context [match ?c with Some _ => _ | None => _ end] => destruct c
         end;
    try (apply keeps_same; reflexivity).
  eexists. reflexivity.
Qed.

Lemma cleanupExpiredTokens_keeps w : keeps w (snd (cleanupExpiredTokens w)).
Proof.
  rewrite StoreFacts.cleanupExpiredTokens_eq. cbn zeta.
  repeat match goal with
         | |- context [if ?c then _ else _] => destruct c
         end;
    try (apply keeps_same; reflexivity); eexists; reflexivity.
Qed.

Lemma revokeUserTokens_keeps u w : keeps w (snd (revokeUserTokens u w)).
Proof.
  rewrite StoreFacts.revokeUserTokens_eq. cbn zeta.
  destruct (Db.fails w); [apply keeps_same; reflexivity | eexists; reflexivity].
Qed.

Lemma clearBlacklist_keeps w : keeps w (snd (clearBlacklist w)).
Proof.
  unfold clearBlacklist, tryCatch, bind, Db.deleteMany, Db.call.
  destruct (Db.fails w); [apply keeps_same; reflexivity | eexists; reflexivity].
Qed.

(** Inserting a row under a non-empty identifier keeps the table well
    formed, whether the insert succeeds or is refused. *)
Lemma blacklistToken_wellFormed j e u w :
  j <> "" -> wellFormed w -> wellFormed (snd (blacklistToken j e u w)).
Proof.
  intros Hj [U N]. rewrite StoreFacts.blacklistToken_eq.
  destruct (dateOf (e * 1000)) as [expires|]; [|split; assumption].
  destruct (Db.fails w); [split; assumption|].
  destruct (existsb (Db.has_jti j) (tokenBlacklist w)) eqn:Ex; [split; assumption|].
  split; cbn.
  - rewrite map_app. cbn. apply NoDup_app; [assumption | repeat constructor; auto |].
    intros x Hx [<- | []].
    apply in_map_iff in Hx as [r [E Hr]].
    assert (T : existsb (Db.has_jti (Prisma.jti r)) (tokenBlacklist w) = true).
    { apply existsb_exists. exists r. split; [assumption|].
      now apply StoreFacts.has_jti_true. }
    congruence.
  - intros r Hr. apply in_app_iff in Hr as [Hr | [<- | []]]; [now apply N|].
    exact Hj.
Qed.

Section WithLibrary.
Context {env : Env} {J : JsonWebToken}.

Lemma guardWith_keeps permitted roleMessage req w :
  includes permitted "" = false ->
  keeps w (snd (guardWith isJtiBlacklisted permitted roleMessage req w)).
Proof.
  intros Hempty.
  rewrite (GuardFacts.guardWith_eq _ _ _ _ _ Hempty
             GuardFacts.isJtiBlacklisted_answers).
  repeat match goal with
         | |- context [if ?c then _ else _] => destruct c
         | |- context [match ?c with Some _ => _ | None => _ end] => destruct c
         | |- context [match ?c with Ok _ => _ | Throw _ => _ end] => destruct c
         end;
    try (apply keeps_same; reflexivity); apply isJtiBlacklisted_keeps.
Qed.

Lemma generateToken_table payload w :
  tokenBlacklist (snd (generateToken payload w)) = tokenBlacklist w.
Proof. reflexivity. Qed.

Lemma getTokenJti_nonempty token j : getTokenJti token = Some j -> j <> "".
Proof.
  unfold getTokenJti, orNull, truthy.
  destruct (decodeToken token) as [d|]; [|discriminate].
  destruct (jti d) as [x|]; [|discriminate].
  destruct (x =? "")%string eqn:E; [discriminate|].
  intros [= <-]. now apply String.eqb_neq.
Qed.

(** The handler, case by case. *)
Lemma logout_eq req w :
  logout req w =
  match presented req with
  | Some token =>
      match getTokenJti token, getTokenExpiration token with
      | Some j, Some expiration =>
          match blacklistToken j expiration (option_map Jwt.id (user req)) w with
          | (Ok _, w') => (Ok (successResponse "Logout successful"), w')
          | (Throw e, w') =>
              (Ok (errorResponse "Logout failed" 500 (Some (message e))),
               logged (console_error "Logout error:" (message e)) w')
          end
      | _, _ => (Ok (successResponse "Logout successful"), w)
      end
  | None => (Ok (successResponse "Logout successful"), w)
  end.
Proof.
  unfold logout, presented, tryCatch.
  destruct (truthy (authorization req)); [|reflexivity].
  destruct (nth_error (split space (orEmpty (authorization req))) 1)
    as [token|]; [|reflexivity].
  destruct (getTokenJti token) as [j|]; [|reflexivity].
  destruct (getTokenExpiration token) as [expiration|]; [|reflexivity].
  unfold bind at 1.
  destruct (blacklistToken j expiration (option_map Jwt.id (user req)) w)
    as [[[]|e] w']; reflexivity.
Qed.

Lemma logout_wellFormed req w : wellFormed w -> wellFormed (snd (logout req w)).
Proof.
  intros WF. rewrite logout_eq.
  destruct (presented req) as [token|]; [|exact WF].
  destruct (getTokenJti token) as [j|] eqn:Hj; [|exact WF].
  destruct (getTokenExpiration token) as [expiration|]; [|exact WF].
  pose proof (blacklistToken_wellFormed j expiration
                (option_map Jwt.id (user req)) w
                (getTokenJti_nonempty _ _ Hj) WF) as WF'.
  destruct (blacklistToken j expiration (option_map Jwt.id (user req)) w)
    as [[[]|e] w']; exact WF'.
Qed.

Lemma postLogout_wellFormed req w :
  wellFormed w -> wellFormed (snd (postLogout req w)).
Proof.
  intros WF. unfold postLogout, bind.
  pose proof (guardWith_keeps ["admin"; "operator"] usersOnly req w eq_refl) as K.
  rewrite <- GuardFacts.authMiddleware_guardWith in K.
  pose proof (wellFormed_keeps _ _ WF K) as WF'.
  destruct (authMiddleware req w) as [[[res|req']|e] w']; cbn [snd] in *.
  - exact WF'.
  - now apply logout_wellFormed.
  - exact WF'.
Qed.

Lemma react_wellFormed w ev : wellFormed w -> wellFormed (react w ev).
Proof.
  intros WF. destruct ev; cbn [react].
  - exact WF.
  - apply (wellFormed_keeps w); [exact WF|].
    rewrite GuardFacts.authMiddleware_guardWith. now apply guardWith_keeps.
  - apply (wellFormed_keeps w); [exact WF|].
    rewrite GuardFacts.requiredAdmin_guardWith. now apply guardWith_keeps.
  - now apply postLogout_wellFormed.
  - exact (wellFormed_keeps _ _ WF (cleanupExpiredTokens_keeps w)).
  - exact (wellFormed_keeps _ _ WF (revokeUserTokens_keeps _ w)).
  - exact (wellFormed_keeps _ _ WF (clearBlacklist_keeps w)).
  - exact WF.
Qed.

Lemma run_wellFormed evs w : wellFormed w -> wellFormed (run w evs).
Proof.
  revert w. induction evs as [|ev evs IH]; intros w WF; [exact WF|].
  cbn. apply IH. now apply react_wellFormed.
Qed.

(** Every world the server can reach has a well-formed table. *)
Lemma reachable_wellFormed w : reachable w -> wellFormed w.
Proof.
  intros [now [schedule [ids [evs ->]]]]. apply run_wellFormed.
  split; [constructor | intros r []].
Qed.

Lemma falsy_orEmpty s : truthy s = false -> orEmpty s = "".
Proof.
  destruct s as [x|]; cbn; [|reflexivity].
  intros H. apply negb_false_iff in H. now apply String.eqb_eq in H.
Qed.

(** C9.  On a running server, a token that verifies but carries no
    identifier has the guard look up the empty string (what the guard does
    depends on the lookup at [""] only); no row is stored under the empty
    string, so the lookup answers "not revoked" and the guard's answer is
    that of the role check. *)
Theorem token_without_jti_passes_revocation
    (w : World) (req : Request) (h token : string) (payload : JwtPayload) :
  reachable w ->
  authorization req = Some h -> Spec.bearer h = Some token ->
  verify token JWT_SECRET (seconds w) = Ok payload ->
  truthy (jti payload) = false ->
  (forall lookup lookup' permitted roleMessage,
      lookup "" w = lookup' "" w ->
      guardWith lookup permitted roleMessage req w
      = guardWith lookup' permitted roleMessage req w)
  /\ (forall r, In r (tokenBlacklist w) -> Prisma.jti r <> "")
  /\ fst (isJtiBlacklisted "" w) = Ok false
  /\ fst (authMiddleware req w)
     = Ok (if Spec.permits ["admin"; "operator"] payload
           then Next (setUser req payload)
           else Sent (errorResponse usersOnly 403 None))
  /\ fst (requiredAdmin req w)
     = Ok (if Spec.permits ["admin"] payload
           then Next (setUser req payload)
           else Sent (errorResponse adminOnly 403 None)).
Proof.
  intros R Hh Hb Hv Hj.
  pose proof (falsy_orEmpty _ Hj) as Key.
  destruct (reachable_wellFormed w R) as [_ N].
  assert (L : fst (isJtiBlacklisted "" w) = Ok false).
  { rewrite StoreFacts.isJtiBlacklisted_eq.
    destruct (Db.fails w); [reflexivity|].
    rewrite (proj2 (StoreFacts.find_none_iff "" (tokenBlacklist w)) N).
    reflexivity. }
  split; [|split; [exact N | split; [exact L|]]].
  - intros lookup lookup' permitted roleMessage E.
    rewrite !(GuardFacts.guardWith_verified _ _ _ _ _ h token payload Hh Hb Hv).
    rewrite Key, E. reflexivity.
  - rewrite GuardFacts.authMiddleware_guardWith, GuardFacts.requiredAdmin_guardWith.
    rewrite !(GuardFacts.guardWith_verified _ _ _ _ _ h token payload Hh Hb Hv).
    rewrite Key.
    destruct (isJtiBlacklisted "" w) as [r w']. cbn [fst] in L. subst r.
    rewrite !GuardFacts.role_test by reflexivity.
    split.
    + destruct (Spec.permits ["admin"; "operator"] payload); reflexivity.
    + destruct (Spec.permits ["admin"] payload); reflexivity.
Qed.

(** C10.  When the token read by the logout handler has no identifier
    or no expiry, the handler answers 'Logout successful' and leaves the
    world exactly as it found it: nothing is inserted, nothing is logged,
    no error is raised.  On the route, whatever the guard in front hands
    on is answered that way, and the table at the end of the route is the
    table the guard left. *)
Theorem logout_skips_insert (req : Request) (w : World) (token : string) :
  presented req = Some token ->
  getTokenJti token = None \/ getTokenExpiration token = None ->
  logout req w = (Ok (successResponse "Logout successful"), w)
  /\ (forall req', fst (authMiddleware req w) = Ok (Next req') ->
        fst (postLogout req w) = Ok (successResponse "Logout successful"))
  /\ tokenBlacklist (snd (postLogout req w))
     = tokenBlacklist (snd (authMiddleware req w)).
Proof.
  intros Hp Hlack.
  assert (Skip : forall r w0, presented r = Some token ->
            logout r w0 = (Ok (successResponse "Logout successful"), w0)).
  { intros r w0 Hr. rewrite logout_eq, Hr.
    destruct Hlack as [-> | ->]; [reflexivity|].
    destruct (getTokenJti token); reflexivity. }
  assert (Same : forall req', fst (authMiddleware req w) = Ok (Next req') ->
            presented req' = Some token).
  { intros req' Hn. rewrite GuardFacts.authMiddleware_guardWith in Hn.
    rewrite (GuardFacts.guardWith_refines ["admin"; "operator"]
               _ _ _ eq_refl) in Hn.
    injection Hn as Hn. unfold Spec.respond in Hn.
    destruct (Spec.accessGuard _ _ _ _); [|discriminate].
    injection Hn as <-. exact Hp. }
  split; [now apply Skip|]. unfold postLogout, bind.
  destruct (authMiddleware req w) as [[[res|req']|e] w'] eqn:G; cbn [fst snd] in *.
  - split; [discriminate | reflexivity].
  - rewrite (Skip req' w' (Same req' eq_refl)). split; [reflexivity..].
  - split; [discriminate | reflexivity].
Qed.

(** A token issued for a subject verifies at once to a claim with that
    subject and role and the identifier just drawn; where no row is stored
    under that identifier, the lookup reports it as not revoked. *)
Lemma issued_token_verifies (payload : Subject) (w : World) (ttl : Z) :
  JsonWebTokenLaws J ->
  timespan JWT_EXPIRY = Some ttl -> 0 < ttl ->
  (forall r, In r (tokenBlacklist w) -> Prisma.jti r <> uuids w (drawn w)) ->
  exists token claim,
    fst (generateToken payload w) = Ok token
    /\ fst (verifyToken token (snd (generateToken payload w))) = Ok (Some claim)
    /\ id claim = subjectId payload
    /\ role claim = Some (roleName (subjectRole payload))
    /\ jti claim = Some (uuids w (drawn w))
    /\ fst (isJtiBlacklisted (uuids w (drawn w)) (snd (generateToken payload w)))
       = Ok false.
Proof.
  intros Laws Hts Hpos Hfresh.
  set (p := withJti payload (uuids w (drawn w))).
  destruct (sign_succeeds p JWT_SECRET JWT_EXPIRY (seconds w) ttl Hts eq_refl eq_refl)
    as [token Hs].
  exists token, (stamped p (seconds w) ttl).
  assert (G : generateToken payload w
              = (Ok token,
                 {| tokenBlacklist := tokenBlacklist w; clock := clock w;
                    outages := outages w; uuids := uuids w;
                    drawn := S (drawn w); serial := serial w;
                    console := console w |})).
  { unfold generateToken, bind, uuidv4. cbn. fold p.
    unfold seconds in *. cbn. now rewrite Hs. }
  rewrite G. cbn [fst snd]. split; [reflexivity|].
  split.
  - rewrite GuardFacts.verifyToken_eq.
    change (seconds _) with (seconds w).
    rewrite (verify_sign p JWT_SECRET JWT_EXPIRY (seconds w) ttl token (seconds w)
               Hts eq_refl eq_refl Hs) by lia.
    reflexivity.
  - repeat split.
    rewrite StoreFacts.isJtiBlacklisted_eq.
    match goal with |- context [if ?c then _ else _] => destruct c end;
      [reflexivity|].
    cbn [tokenBlacklist].
    rewrite (proj2 (StoreFacts.find_none_iff _ (tokenBlacklist w)) Hfresh).
    reflexivity.
Qed.

End WithLibrary.

End ServerFacts.

(** ** The guards and routes evaluated with the small token library *)
Module Evaluation.
Import Jwt TokenBlacklist Middleware Routes Server ToyJwt Examples.

(** C1, at a failing input.  The administrator's token is revoked: with the
    database answering, the lookup reports it and the guard rejects the
    request.  With the database down for the lookup, the failure is swallowed
    inside [isJtiBlacklisted]: the lookup answers "not revoked", no 500 is
    sent, and both guards hand the request on with the claim attached. *)
Theorem guard_admits_when_lookup_fails :
  Db.fails down = true
  /\ fst (isJtiBlacklisted "j1" calm) = Ok true
  /\ fst (authMiddleware (bearerOf adminToken) calm)
     = Ok (Sent (errorResponse "Token has been revoked. Please login again."
                               401 None))
  /\ fst (isJtiBlacklisted "j1" down) = Ok false
  /\ fst (authMiddleware (bearerOf adminToken) down)
     = Ok (Next (setUser (bearerOf adminToken) adminClaim))
  /\ fst (requiredAdmin (bearerOf adminToken) down)
     = Ok (Next (setUser (bearerOf adminToken) adminClaim)).
Proof. repeat split; vm_compute; reflexivity. Qed.

Lemma verification_failures_alike_witness :
  verify adminToken JWT_SECRET (seconds late) = Throw TokenExpiredError
  /\ verify forgedToken JWT_SECRET (seconds calm)
     = Throw (JsonWebTokenError "invalid signature")
  /\ fst (verifyToken adminToken late) = fst (verifyToken forgedToken calm)
  /\ fst (authMiddleware (bearerOf forgedToken) calm)
     = fst (authMiddleware (bearerOf adminToken) late).
Proof.
  split; [vm_compute; reflexivity|]. split; [vm_compute; reflexivity|].
  pose proof (GuardFacts.verification_failures_alike
                adminToken forgedToken late calm
                TokenExpiredError (JsonWebTokenError "invalid signature")
                eq_refl eq_refl) as [H1 [H2 H3]].
  split; [now rewrite H1, H2|].
  exact (proj1 (proj2 (H3 (bearerOf adminToken) (bearerOf forgedToken)
                          ("Bearer " ++ adminToken) ("Bearer " ++ forgedToken)
                          eq_refl eq_refl eq_refl eq_refl))).
Defined.

Lemma token_without_jti_passes_revocation_witness :
  reachable afterLogout
  /\ verify anonymousToken JWT_SECRET (seconds afterLogout) = Ok anonymousClaim
  /\ truthy (jti anonymousClaim) = false
  /\ fst (authMiddleware (bearerOf anonymousToken) afterLogout)
     = Ok (Next (setUser (bearerOf anonymousToken) anonymousClaim))
  /\ fst (requiredAdmin (bearerOf anonymousToken) afterLogout)
     = Ok (Sent (errorResponse adminOnly 403 None)).
Proof.
  assert (R : reachable afterLogout).
  { exists 1000000, [], ids, [Logout (bearerOf adminToken)]. reflexivity. }
  split; [exact R|]. split; [vm_compute; reflexivity|]. split; [reflexivity|].
  pose proof (ServerFacts.token_without_jti_passes_revocation
                afterLogout (bearerOf anonymousToken)
                ("Bearer " ++ anonymousToken) anonymousToken anonymousClaim
                R eq_refl eq_refl eq_refl eq_refl) as [_ [_ [_ [HA HR]]]].
  split; [exact HA | exact HR].
Defined.

Lemma logout_skips_insert_witness :
  presented (bearerOf anonymousToken) = Some anonymousToken
  /\ getTokenJti anonymousToken = None
  /\ logout (bearerOf anonymousToken) calm
     = (Ok (successResponse "Logout successful"), calm).
Proof.
  split; [vm_compute; reflexivity|]. split; [vm_compute; reflexivity|].
  exact (proj1 (ServerFacts.logout_skips_insert
                  (bearerOf anonymousToken) calm anonymousToken
                  eq_refl (or_introl eq_refl))).
Defined.

(** The scenarios of the specification's section 8. *)

Example scenario_operator_on_admin_route :
  fst (requiredAdmin (bearerOf operatorToken) calm)
  = Ok (Sent (errorResponse adminOnly 403 None))
  /\ fst (authMiddleware (bearerOf operatorToken) calm)
     = Ok (Next (setUser (bearerOf operatorToken) operatorClaim)).
Proof. split; vm_compute; reflexivity. Qed.

Example scenario_missing_header :
  fst (authMiddleware {| authorization := None; user := None |} calm)
  = Ok (Sent (errorResponse "Missing authorization header" 401 None)).
Proof. reflexivity. Qed.

Example scenario_revoke_then_expire :
  let w0 := world [] 5000 [] in
  let w1 := snd (blacklistToken "k" 6 None w0) in
  let w2 := react w1 (Environment 6100 []) in
  fst (isJtiBlacklisted "k" w0) = Ok false
  /\ fst (isJtiBlacklisted "k" w1) = Ok true
  /\ fst (isJtiBlacklisted "k" w2) = Ok false
  /\ tokenBlacklist (snd (isJtiBlacklisted "k" w2)) = [].
Proof. repeat split; vm_compute; reflexivity. Qed.

End Evaluation.

(** ** More about the revocation store *)
Module StoreMore.
Import Prisma TokenBlacklist.

Lemma clearBlacklist_eq w :
  clearBlacklist w =
  if Db.fails w
  then (Ok tt,
        logged (console_error "[TokenBlacklist] Error clearing blacklist:"
                  (message PrismaClientInitializationError)) (Db.after w))
  else (Ok tt,
        logged (console_log "[TokenBlacklist] Blacklist cleared")
          (set_table (filter (fun x => negb (Db.anything x)) (tokenBlacklist w))
                     (Db.after w))).
Proof.
  unfold clearBlacklist, tryCatch, bind, Db.deleteMany, Db.call.
  destruct (Db.fails w); reflexivity.
Qed.

(** X1.  [clearBlacklist] never throws.  When the database answers, the table is
    empty afterwards and no identifier is reported as revoked any more; when
    the call fails, the table is as it was. *)
Theorem clearBlacklist_unrevokes_all (w : World) :
  fst (clearBlacklist w) = Ok tt
  /\ (Db.fails w = false ->
        tokenBlacklist (snd (clearBlacklist w)) = []
        /\ forall j, fst (isJtiBlacklisted j (snd (clearBlacklist w))) = Ok false)
  /\ (Db.fails w = true ->
        tokenBlacklist (snd (clearBlacklist w)) = tokenBlacklist w).
Proof.
  rewrite clearBlacklist_eq. split; [destruct (Db.fails w); reflexivity|].
  split; intros F; rewrite F; cbn [snd]; [|reflexivity].
  assert (E : filter (fun x => negb (Db.anything x)) (tokenBlacklist w) = []).
  { apply StoreFacts.filter_none. reflexivity. }
  split; [cbn; exact E|].
  intros j. rewrite StoreFacts.isJtiBlacklisted_eq.
  match goal with |- context [if ?c then _ else _] => destruct c end;
    [reflexivity|].
  cbn [tokenBlacklist logged set_table set_console]. rewrite E. reflexivity.
Qed.

Lemma clearBlacklist_unrevokes_all_witness :
  Db.fails Examples.calm = false
  /\ fst (isJtiBlacklisted "j1" Examples.calm) = Ok true
  /\ fst (isJtiBlacklisted "j1" (snd (clearBlacklist Examples.calm))) = Ok false.
Proof.
  split; [reflexivity|]. split; [reflexivity|].
  exact (proj2 (proj1 (proj2 (clearBlacklist_unrevokes_all Examples.calm)) eq_refl)
               "j1").
Defined.

(** *** [getBlacklistStats] *)

Lemma getBlacklistStats_eq toISOString w :
  getBlacklistStats toISOString w =
  if Db.fails w || Db.fails (Db.after w)
  then (Ok {| totalBlacklisted := 0; expiredSoon := 0;
              statsCreatedAt := toISOString (clock w) |},
        logged (console_error "[TokenBlacklist] Error getting stats:"
                  (message PrismaClientInitializationError))
               (Db.after (Db.after w)))
  else (Ok {| totalBlacklisted := List.length (tokenBlacklist w);
              expiredSoon := List.length (filter (expiresSoon w) (tokenBlacklist w));
              statsCreatedAt := toISOString (clock w) |},
        Db.after (Db.after w)).
Proof.
  unfold getBlacklistStats, tryCatch, bind, promiseAll, Db.count, Db.call, newDate.
  destruct (Db.fails w) eqn:F1; cbn [orb].
  - destruct (Db.fails (Db.after w)); reflexivity.
  - destruct (Db.fails (Db.after w)) eqn:F2; [reflexivity|].
    cbn [fst snd]. change (tokenBlacklist (Db.after (Db.after w))) with (tokenBlacklist w).
    change (tokenBlacklist (Db.after w)) with (tokenBlacklist w).
    change (clock (Db.after (Db.after w))) with (clock w).
    rewrite (StoreFacts.filter_all Db.anything) by reflexivity.
    reflexivity.
Qed.

Lemma filter_length_le {A} (f : A -> bool) (l : list A) :
  (List.length (filter f l) <= List.length l)%nat.
Proof.
  induction l as [|a l IH]; simpl; [lia|]. destruct (f a); simpl; lia.
Qed.

Lemma filter_length_mono {A} (f g : A -> bool) (l : list A) :
  (forall x, f x = true -> g x = true) ->
  (List.length (filter f l) <= List.length (filter g l))%nat.
Proof.
  intros H. induction l as [|a l IH]; simpl; [lia|].
  destruct (f a) eqn:Fa.
  - rewrite (H a Fa). simpl. lia.
  - destruct (g a); simpl; lia.
Qed.

(** X2.  [getBlacklistStats] only reads: it never throws and never changes the
    table.  When both counts succeed it reports the number of rows and the
    number of rows whose expiry is at most 24 hours ahead, which is at least
    the number of rows the purge would remove now and at most the total; when
    either count fails it reports zeros.  The time stamp is that of the
    call. *)
Theorem getBlacklistStats_reports (toISOString : Z -> string) (w : World) :
  tokenBlacklist (snd (getBlacklistStats toISOString w)) = tokenBlacklist w
  /\ (exists stats,
        fst (getBlacklistStats toISOString w) = Ok stats
        /\ statsCreatedAt stats = toISOString (clock w)
        /\ (expiredSoon stats <= totalBlacklisted stats)%nat)
  /\ (Db.fails w = false -> Db.fails (Db.after w) = false ->
        exists stats,
          fst (getBlacklistStats toISOString w) = Ok stats
          /\ totalBlacklisted stats = List.length (tokenBlacklist w)
          /\ expiredSoon stats
             = List.length (filter (expiresSoon w) (tokenBlacklist w))
          /\ (List.length (filter (expired w) (tokenBlacklist w))
              <= expiredSoon stats)%nat)
  /\ (Db.fails w = true \/ Db.fails (Db.after w) = true ->
        exists stats,
          fst (getBlacklistStats toISOString w) = Ok stats
          /\ totalBlacklisted stats = 0%nat /\ expiredSoon stats = 0%nat).
Proof.
  rewrite getBlacklistStats_eq. split; [|split; [|split]].
  - destruct (Db.fails w || Db.fails (Db.after w)); reflexivity.
  - destruct (Db.fails w || Db.fails (Db.after w)); eexists;
      (split; [reflexivity|]); cbn; (split; [reflexivity|]).
    + lia.
    + apply filter_length_le.
  - intros F1 F2. rewrite F1, F2. eexists. cbn [orb].
    split; [reflexivity|]. cbn [totalBlacklisted expiredSoon].
    split; [reflexivity|]. split; [reflexivity|].
    apply filter_length_mono. intros r.
    unfold expired, expiresSoon, Db.expiresAt_lt, Db.expiresAt_lte.
    rewrite Z.ltb_lt, Z.leb_le. lia.
  - intros F.
    assert (E : Db.fails w || Db.fails (Db.after w) = true).
    { destruct F as [-> | ->]; [reflexivity | apply orb_true_r]. }
    rewrite E. eexists. split; [reflexivity|]. split; reflexivity.
Qed.

Lemma getBlacklistStats_reports_witness :
  Db.fails Examples.calm = false
  /\ Db.fails (Db.after Examples.calm) = false
  /\ exists stats,
       fst (getBlacklistStats (fun _ => "then") Examples.calm) = Ok stats
       /\ totalBlacklisted stats = 3%nat
       /\ expiredSoon stats = 3%nat.
Proof.
  split; [reflexivity|]. split; [reflexivity|].
  destruct (proj1 (proj2 (proj2
              (getBlacklistStats_reports (fun _ => "then") Examples.calm)))
              eq_refl eq_refl) as [stats [H1 [H2 [H3 _]]]].
  exists stats. split; [exact H1|]. split; [exact H2 | exact H3].
Defined.

(** *** Insert, then look up *)

Lemma find_app_miss {A} (f : A -> bool) (l l' : list A) :
  existsb f l = false -> find f (l ++ l') = find f l'.
Proof.
  induction l as [|a l IH]; simpl; [reflexivity|].
  intros H. apply orb_false_iff in H as [Ha Hl]. rewrite Ha. now apply IH.
Qed.

(** X3.  Once [blacklistToken] has succeeded, and for as long as the table stays
    as it left it, a lookup that reaches the database reports the identifier
    as revoked up to and including the expiry instant, without touching the
    table; after that instant it reports it as not revoked and no row with
    the identifier is left. *)
Theorem blacklistToken_then_lookup
    (j : string) (e : Z) (u : option string) (w w2 : World) :
  fst (blacklistToken j e u w) = Ok tt ->
  tokenBlacklist w2 = tokenBlacklist (snd (blacklistToken j e u w)) ->
  Db.fails w2 = false ->
  (clock w2 <= e * 1000 -> isJtiBlacklisted j w2 = (Ok true, Db.after w2))
  /\ (e * 1000 < clock w2 -> Db.fails (Db.after w2) = false ->
        fst (isJtiBlacklisted j w2) = Ok false
        /\ forall r, In r (tokenBlacklist (snd (isJtiBlacklisted j w2))) -> jti r <> j).
Proof.
  rewrite StoreFacts.blacklistToken_eq.
  destruct (dateOf (e * 1000)) as [expires|] eqn:D; [|discriminate].
  apply StoreFacts.dateOf_some in D as [-> _].
  destruct (Db.fails w); [discriminate|].
  destruct (existsb (Db.has_jti j) (tokenBlacklist w)) eqn:Ex; [discriminate|].
  cbn [fst snd]. intros _ T F.
  cbn [tokenBlacklist logged set_console] in T.
  assert (Fd : find (Db.has_jti j) (tokenBlacklist w2)
               = Some {| id := serial w; jti := j; userId := orNull u;
                         expiresAt := e * 1000; createdAt := clock w |}).
  { rewrite T, (find_app_miss _ _ _ Ex). cbn. unfold Db.has_jti. cbn.
    now rewrite String.eqb_refl. }
  rewrite StoreFacts.isJtiBlacklisted_eq, F, Fd. cbn [expiresAt].
  rewrite Z.gtb_ltb. split.
  - intros Hc. apply Z.ltb_ge in Hc. now rewrite Hc.
  - intros Hc F2. apply Z.ltb_lt in Hc. rewrite Hc, F2. cbn [fst snd].
    split; [reflexivity|]. intros r Hr. cbn in Hr.
    apply filter_In in Hr as [_ Hn]. apply negb_true_iff in Hn.
    now apply StoreFacts.has_jti_false.
Qed.

Lemma blacklistToken_then_lookup_witness :
  fst (blacklistToken "k" 6 None (Examples.world [] 5000 [])) = Ok tt
  /\ fst (isJtiBlacklisted "k" (snd (blacklistToken "k" 6 None (Examples.world [] 5000 []))))
     = Ok true.
Proof.
  split; [reflexivity|].
  pose proof (proj1 (blacklistToken_then_lookup "k" 6 None
                       (Examples.world [] 5000 [])
                       (snd (blacklistToken "k" 6 None (Examples.world [] 5000 [])))
                       eq_refl eq_refl eq_refl)) as H.
  rewrite H; [reflexivity | cbn; lia].
Defined.

(** *** The purge and the lookup *)

Lemma filter_filter {A} (f g : A -> bool) (l : list A) :
  filter f (filter g l) = filter (fun x => g x && f x) l.
Proof.
  induction l as [|a l IH]; simpl; [reflexivity|].
  destruct (g a); simpl; [destruct (f a)|]; now rewrite IH.
Qed.

Lemma cleanup_world w :
  Db.fails w = false ->
  tokenBlacklist (snd (cleanupExpiredTokens w))
    = filter (fun r => negb (expired w r)) (tokenBlacklist w)
  /\ clock (snd (cleanupExpiredTokens w)) = clock w
  /\ outages (snd (cleanupExpiredTokens w)) = tl (outages w).
Proof.
  intros F. rewrite StoreFacts.cleanupExpiredTokens_eq, F. cbn zeta.
  destruct (0 <? _)%nat; repeat split; reflexivity.
Qed.

(** X4.  With no outage ahead: after a purge the lookup reports an identifier
    as revoked exactly when the table before the purge held a row for it
    whose expiry had not passed, and the lookup finds nothing to delete; and
    under the unique index, purging after a lookup leaves the same table as
    purging alone. *)
Theorem purge_and_lookup_agree (j : string) (w : World) :
  outages w = [] ->
  let w1 := snd (cleanupExpiredTokens w) in
  (fst (isJtiBlacklisted j w1) = Ok true <->
     exists r, In r (tokenBlacklist w) /\ jti r = j /\ clock w <= expiresAt r)
  /\ tokenBlacklist (snd (isJtiBlacklisted j w1)) = tokenBlacklist w1
  /\ (Db.unique w ->
      tokenBlacklist (snd (cleanupExpiredTokens (snd (isJtiBlacklisted j w))))
      = tokenBlacklist w1).
Proof.
  intros O. cbn zeta.
  assert (F : Db.fails w = false) by (unfold Db.fails; now rewrite O).
  destruct (cleanup_world w F) as [T [C O1]].
  set (w1 := snd (cleanupExpiredTokens w)) in *.
  rewrite O in O1. cbn in O1.
  assert (F1 : Db.fails w1 = false) by (unfold Db.fails; now rewrite O1).
  assert (Cur : forall r, In r (tokenBlacklist w1) ->
                  In r (tokenBlacklist w) /\ clock w <= expiresAt r).
  { intros r Hr. rewrite T in Hr. apply filter_In in Hr as [Hr Hn].
    split; [exact Hr|]. apply negb_true_iff in Hn.
    unfold expired, Db.expiresAt_lt in Hn. now apply Z.ltb_ge in Hn. }
  split; [|split].
  - rewrite StoreFacts.isJtiBlacklisted_eq, F1.
    destruct (find (Db.has_jti j) (tokenBlacklist w1)) as [t|] eqn:Fd.
    + pose proof (find_some _ _ Fd) as [Ht Hj]. apply StoreFacts.has_jti_true in Hj.
      destruct (Cur t Ht) as [Hin Hc].
      rewrite Z.gtb_ltb, C. apply Z.ltb_ge in Hc. rewrite Hc. cbn [fst].
      split; [|reflexivity]. intros _. exists t. apply Z.ltb_ge in Hc. auto.
    + cbn [fst]. split; [discriminate|].
      intros [r [Hr [Hj Hc]]]. exfalso.
      refine (proj1 (StoreFacts.find_none_iff j _) Fd r _ Hj).
      rewrite T. apply filter_In. split; [exact Hr|].
      apply negb_true_iff. unfold expired, Db.expiresAt_lt. now apply Z.ltb_ge.
  - rewrite StoreFacts.isJtiBlacklisted_eq, F1.
    destruct (find (Db.has_jti j) (tokenBlacklist w1)) as [t|] eqn:Fd; [|reflexivity].
    pose proof (find_some _ _ Fd) as [Ht _]. destruct (Cur t Ht) as [_ Hc].
    rewrite Z.gtb_ltb, C. apply Z.ltb_ge in Hc. rewrite Hc. reflexivity.
  - intros U. apply StoreFacts.distinct_NoDup in U.
    assert (F2 : Db.fails (Db.after w) = false)
      by (unfold Db.fails, Db.after; cbn; now rewrite O).
    rewrite StoreFacts.isJtiBlacklisted_eq, F.
    destruct (find (Db.has_jti j) (tokenBlacklist w)) as [t|] eqn:Fd.
    + pose proof (find_some _ _ Fd) as [Ht Hj]. apply StoreFacts.has_jti_true in Hj.
      rewrite Z.gtb_ltb. destruct (expiresAt t <? clock w) eqn:Ex.
      * rewrite F2. cbn [snd].
        match goal with |- tokenBlacklist (snd (cleanupExpiredTokens ?x)) = _ =>
          assert (Fx : Db.fails x = false)
            by (unfold Db.fails, Db.after; cbn; now rewrite O);
          destruct (cleanup_world x Fx) as [Tx _]; rewrite Tx
        end.
        cbn [tokenBlacklist set_table]. rewrite filter_filter, T.
        apply filter_ext_in. intros r Hr.
        destruct (Db.has_jti j r) eqn:Hjr; [|reflexivity].
        apply StoreFacts.has_jti_true in Hjr.
        assert (r = t) by (apply (StoreFacts.same_jti_same_row _ _ _ U Hr Ht); congruence).
        subst r. cbn. unfold expired, Db.expiresAt_lt. cbn. now rewrite Ex.
      * cbn [snd].
        assert (Fx : Db.fails (Db.after w) = false) by exact F2.
        destruct (cleanup_world _ Fx) as [Tx _]. rewrite Tx, T. reflexivity.
    + cbn [snd].
      destruct (cleanup_world _ F2) as [Tx _]. rewrite Tx, T. reflexivity.
Qed.

Lemma purge_and_lookup_agree_witness :
  outages Examples.calm = []
  /\ fst (isJtiBlacklisted "j2" (snd (cleanupExpiredTokens Examples.calm))) <> Ok true
  /\ tokenBlacklist (snd (cleanupExpiredTokens (snd (isJtiBlacklisted "j2" Examples.calm))))
     = tokenBlacklist (snd (cleanupExpiredTokens Examples.calm)).
Proof.
  split; [reflexivity|].
  destruct (purge_and_lookup_agree "j2" Examples.calm eq_refl) as [H1 [_ H3]].
  split; [|exact (H3 eq_refl)].
  intros H. apply H1 in H as [r [Hr [Hj Hc]]].
  cbn in Hr. destruct Hr as [<- | [<- | [<- | []]]]; cbn in Hj, Hc;
    try discriminate; lia.
Defined.

End StoreMore.

(** ** More about the guards *)
Module GuardMore.
Import Jwt TokenBlacklist Middleware Spec.

Section WithLibrary.
Context {env : Env} {J : JsonWebToken}.

Lemma permits_admin_widens claim :
  permits ["admin"] claim = true -> permits ["admin"; "operator"] claim = true.
Proof.
  unfold permits, includes. destruct (role claim) as [r|]; [|discriminate].
  cbn. destruct (r =? "admin")%string; [reflexivity | discriminate].
Qed.

Lemma permits_operator_only claim :
  permits ["admin"; "operator"] claim = true -> permits ["admin"] claim = false ->
  role claim = Some "operator".
Proof.
  unfold permits, includes. destruct (role claim) as [r|]; [|discriminate].
  cbn. destruct (r =? "admin")%string; [discriminate|].
  destruct (r =? "operator")%string eqn:E; [|discriminate].
  apply String.eqb_eq in E. now subst r.
Qed.

(** X5.  The two guards do the same to the world and agree on every rejection
    status; whatever [requiredAdmin] hands on, [authMiddleware] hands on as
    well; and they part only on a verified, unrevoked operator, whom
    [authMiddleware] hands on and [requiredAdmin] answers with 403. *)
Theorem guards_compared (req : Request) (w : World) :
  snd (requiredAdmin req w) = snd (authMiddleware req w)
  /\ (forall req', fst (requiredAdmin req w) = Ok (Next req') ->
        fst (authMiddleware req w) = Ok (Next req'))
  /\ (forall res, fst (authMiddleware req w) = Ok (Sent res) ->
        exists res', fst (requiredAdmin req w) = Ok (Sent res')
                     /\ statusCode res' = statusCode res)
  /\ (forall req', fst (authMiddleware req w) = Ok (Next req') ->
        fst (requiredAdmin req w) = Ok (Next req')
        \/ (fst (requiredAdmin req w) = Ok (Sent (errorResponse adminOnly 403 None))
            /\ exists claim, user req' = Some claim /\ role claim = Some "operator")).
Proof.
  rewrite GuardFacts.authMiddleware_guardWith, GuardFacts.requiredAdmin_guardWith.
  rewrite (GuardFacts.guardWith_eq _ ["admin"; "operator"] _ _ _ eq_refl
             GuardFacts.isJtiBlacklisted_answers).
  rewrite (GuardFacts.guardWith_eq _ ["admin"] _ _ _ eq_refl
             GuardFacts.isJtiBlacklisted_answers).
  destruct (authorization req) as [h|];
    [|cbn; repeat split; try discriminate; intros res [= <-]; eexists; split; reflexivity].
  destruct (h =? "")%string;
    [cbn; repeat split; try discriminate; intros res [= <-]; eexists; split; reflexivity|].
  destruct (bearer h) as [token|];
    [|cbn; repeat split; try discriminate; intros res [= <-]; eexists; split; reflexivity].
  destruct (verify token JWT_SECRET (seconds w)) as [claim|e];
    [|cbn; repeat split; try discriminate; intros res [= <-]; eexists; split; reflexivity].
  rewrite GuardFacts.isJtiBlacklisted_total.
  destruct (revokedAt w (orEmpty (jti claim)));
    [cbn; repeat split; try discriminate; intros res [= <-]; eexists; split; reflexivity|].
  cbn [fst snd]. split; [reflexivity|].
  destruct (permits ["admin"] claim) eqn:PA.
  - rewrite (permits_admin_widens _ PA). cbn.
    repeat split; try discriminate; auto.
  - destruct (permits ["admin"; "operator"] claim) eqn:PU; cbn.
    + repeat split; try discriminate. intros req' [= <-]. right.
      split; [reflexivity|]. exists claim. split; [reflexivity|].
      now apply permits_operator_only.
    + repeat split; try discriminate.
      intros res [= <-]. eexists. split; reflexivity.
Qed.

(** The optional guard, step by step. *)
Lemma optionalAuthMiddleware_eq req w :
  optionalAuthMiddleware req w =
  match authorization req with
  | None => (Ok (Next req), w)
  | Some h =>
      if (h =? "")%string then (Ok (Next req), w)
      else
        match bearer h with
        | None => (Ok (Next req), w)
        | Some token =>
            match verify token JWT_SECRET (seconds w) with
            | Throw e =>
                (Ok (Next req),
                 logged (console_error "JWT verification failed:" (message e)) w)
            | Ok payload =>
                (Ok (Next (if revokedAt w (orEmpty (jti payload))
                           then req else setUser req payload)),
                 snd (isJtiBlacklisted (orEmpty (jti payload)) w))
            end
        end
  end.
Proof.
  unfold optionalAuthMiddleware, tryCatch.
  destruct (authorization req) as [h|]; [|reflexivity].
  cbn [truthy orEmpty].
  destruct (h =? "")%string; [reflexivity|]. cbn [negb].
  pose proof (HeaderFacts.bearer_split h) as B.
  destruct (bearer h) as [token|].
  - rewrite B. cbn [List.length Nat.eqb nth andb]. rewrite String.eqb_refl.
    unfold bind at 1. rewrite GuardFacts.verifyToken_eq.
    destruct (verify token JWT_SECRET (seconds w)) as [payload|e]; [|reflexivity].
    unfold bind.
    pose proof (GuardFacts.isJtiBlacklisted_total (orEmpty (jti payload)) w) as L.
    destruct (isJtiBlacklisted (orEmpty (jti payload)) w) as [r w'].
    cbn [fst snd] in *. subst r.
    destruct (revokedAt w (orEmpty (jti payload))); reflexivity.
  - apply orb_true_iff in B.
    assert (E : (List.length (split space h) =? 2)%nat
                && (nth 0 (split space h) "" =? "Bearer")%string = false).
    { apply andb_false_iff. destruct B as [B | B]; apply negb_true_iff in B; auto. }
    rewrite E. reflexivity.
Qed.

(** X6.  [optionalAuthMiddleware] never answers the request itself and never
    throws: it always hands the request on, header untouched.  It attaches
    the claim exactly when the header is [Bearer <token>], the token verifies
    and the lookup does not report it revoked, whatever the role; otherwise
    the request goes on as it came.  It does to the world what
    [authMiddleware] does, and whatever request [authMiddleware] hands on, it
    hands on the same. *)
Theorem optionalAuthMiddleware_attaches (req : Request) (w : World) :
  (exists req', fst (optionalAuthMiddleware req w) = Ok (Next req')
                /\ authorization req' = authorization req)
  /\ (forall h token claim,
        authorization req = Some h -> bearer h = Some token ->
        verify token JWT_SECRET (seconds w) = Ok claim ->
        revokedAt w (orEmpty (jti claim)) = false ->
        fst (optionalAuthMiddleware req w) = Ok (Next (setUser req claim)))
  /\ ((forall h token claim,
         authorization req = Some h -> bearer h = Some token ->
         verify token JWT_SECRET (seconds w) = Ok claim ->
         revokedAt w (orEmpty (jti claim)) = true) ->
      fst (optionalAuthMiddleware req w) = Ok (Next req))
  /\ snd (optionalAuthMiddleware req w) = snd (authMiddleware req w)
  /\ (forall req', fst (authMiddleware req w) = Ok (Next req') ->
        fst (optionalAuthMiddleware req w) = Ok (Next req')).
Proof.
  rewrite optionalAuthMiddleware_eq, GuardFacts.authMiddleware_guardWith.
  rewrite (GuardFacts.guardWith_eq _ ["admin"; "operator"] _ _ _ eq_refl
             GuardFacts.isJtiBlacklisted_answers).
  destruct (authorization req) as [h|] eqn:A.
  2: { cbn. repeat split; try discriminate; eauto. }
  destruct (h =? "")%string eqn:Hn.
  { cbn. apply String.eqb_eq in Hn. subst h. repeat split; try discriminate; eauto;
      intros h token claim [= <-]; discriminate. }
  destruct (bearer h) as [token|] eqn:B.
  2: { cbn. repeat split; try discriminate; eauto;
         intros h' token claim [= <-]; congruence. }
  destruct (verify token JWT_SECRET (seconds w)) as [claim|e] eqn:V.
  2: { cbn. repeat split; try discriminate; eauto;
         intros h' token' claim [= <-] B'; rewrite B in B'; injection B' as <-;
         congruence. }
  rewrite GuardFacts.isJtiBlacklisted_total.
  destruct (revokedAt w (orEmpty (jti claim))) eqn:R; cbn [fst snd].
  - split; [eauto|]. split; [|split; [|split]]; try reflexivity; try discriminate.
    intros h' token' claim' [= <-] B'. rewrite B in B'. injection B' as <-.
    rewrite V. intros [= <-]. congruence.
  - split; [eexists; split; [reflexivity | exact A]|].
    split; [|split; [|split]].
    + intros h' token' claim' [= <-] B'. rewrite B in B'. injection B' as <-.
      rewrite V. now intros [= <-].
    + intros H. specialize (H h token claim eq_refl B V). congruence.
    + reflexivity.
    + destruct (permits ["admin"; "operator"] claim); cbn; [auto | discriminate].
Qed.

(** X7.  [revokeUserTokens] lets logged-out tokens in again: a token that the
    guard turns away as revoked, because the table holds an unexpired row for
    its identifier owned by a user, is handed on by the guard once
    [revokeUserTokens] has been called for that user. *)
Theorem revokeUserTokens_readmits
    (req : Request) (w : World) (h token u : string) (claim : JwtPayload)
    (r : Prisma.TokenBlacklist) :
  authorization req = Some h -> bearer h = Some token ->
  verify token JWT_SECRET (seconds w) = Ok claim ->
  permits ["admin"; "operator"] claim = true ->
  Db.unique w -> outages w = [] ->
  In r (tokenBlacklist w) -> Prisma.jti r = orEmpty (jti claim) ->
  Prisma.userId r = Some u -> clock w <= Prisma.expiresAt r ->
  fst (authMiddleware req w)
    = Ok (Sent (errorResponse "Token has been revoked. Please login again."
                              401 None))
  /\ fst (authMiddleware req (snd (revokeUserTokens u w)))
     = Ok (Next (setUser req claim)).
Proof.
  intros A B V P U O Hr Hj Hu Hc. apply StoreFacts.distinct_NoDup in U.
  assert (F : Db.fails w = false) by (unfold Db.fails; now rewrite O).
  rewrite !GuardFacts.authMiddleware_guardWith. split.
  - rewrite (GuardFacts.guardWith_verified _ _ _ _ _ h token claim A B V).
    rewrite StoreFacts.isJtiBlacklisted_eq, F, <- Hj.
    rewrite (StoreFacts.find_unique _ _ U Hr), Z.gtb_ltb.
    assert (X : (Prisma.expiresAt r <? clock w) = false) by (apply Z.ltb_ge; lia).
    now rewrite X.
  - rewrite StoreFacts.revokeUserTokens_eq, F. cbn zeta. cbn [snd].
    match goal with |- fst (guardWith _ _ _ _ ?v) = _ =>
      assert (Vv : verify token JWT_SECRET (seconds v) = Ok claim) by exact V;
      rewrite (GuardFacts.guardWith_verified _ _ _ req v h token claim A B Vv);
      assert (L : isJtiBlacklisted (orEmpty (jti claim)) v = (Ok false, Db.after v))
    end.
    { rewrite StoreFacts.isJtiBlacklisted_eq.
      unfold Db.fails at 1. cbn [outages logged set_console set_table Db.after
                                 set_outages]. rewrite O. cbn [tl hd].
      cbn [tokenBlacklist].
      match goal with |- context [find ?f ?l] =>
        assert (N : find f l = None)
      end.
      { apply StoreFacts.find_none_iff. intros x Hx E.
        apply filter_In in Hx as [Hx Hn]. apply negb_true_iff in Hn.
        apply StoreFacts.userId_equals_false in Hn. apply Hn.
        assert (x = r) by (apply (StoreFacts.same_jti_same_row _ _ _ U Hx Hr);
                           congruence).
        now subst x. }
      now rewrite N. }
    rewrite L, (GuardFacts.role_test ["admin"; "operator"] claim eq_refl), P.
    reflexivity.
Qed.

End WithLibrary.

End GuardMore.

(** ** What a run of the server does to the revocations *)
Module RunFacts.
Import Jwt TokenBlacklist Middleware Routes Server.

Lemma gentle_same w w' :
  clock w' = clock w -> tokenBlacklist w' = tokenBlacklist w -> gentle w w'.
Proof. intros C T. split; [exact C|]. intros r Hr. left. now rewrite T. Qed.

Lemma gentle_trans w1 w2 w3 : gentle w1 w2 -> gentle w2 w3 -> gentle w1 w3.
Proof.
  intros [C1 G1] [C2 G2]. split; [congruence|].
  intros r Hr. destruct (G1 r Hr) as [H | H]; [|now right].
  destruct (G2 r H) as [H' | H']; [now left | right; congruence].
Qed.

Lemma isJtiBlacklisted_gentle j w :
  NoDup (map Prisma.jti (tokenBlacklist w)) ->
  gentle w (snd (isJtiBlacklisted j w)).
Proof.
  intros U. rewrite StoreFacts.isJtiBlacklisted_eq.
  destruct (Db.fails w); [now apply gentle_same|].
  destruct (find (Db.has_jti j) (tokenBlacklist w)) as [t|] eqn:Fd;
    [|now apply gentle_same].
  pose proof (find_some _ _ Fd) as [Ht Hj]. apply StoreFacts.has_jti_true in Hj.
  rewrite Z.gtb_ltb.
  destruct (Prisma.expiresAt t <? clock w) eqn:Ex; [|now apply gentle_same].
  destruct (Db.fails (Db.after w)); [now apply gentle_same|].
  split; [reflexivity|]. intros r Hr. cbn.
  destruct (Db.has_jti j r) eqn:Hjr.
  - right. apply StoreFacts.has_jti_true in Hjr.
    assert (r = t) by (apply (StoreFacts.same_jti_same_row _ _ _ U Hr Ht); congruence).
    subst r. now apply Z.ltb_lt.
  - left. apply filter_In. split; [exact Hr | now rewrite Hjr].
Qed.

Lemma cleanupExpiredTokens_gentle w : gentle w (snd (cleanupExpiredTokens w)).
Proof.
  rewrite StoreFacts.cleanupExpiredTokens_eq.
  destruct (Db.fails w); [now apply gentle_same|]. cbn zeta.
  assert (G : forall r, In r (tokenBlacklist w) ->
                In r (filter (fun x => negb (expired w x)) (tokenBlacklist w))
                \/ Prisma.expiresAt r < clock w).
  { intros r Hr. destruct (expired w r) eqn:Ex.
    - right. now apply StoreFacts.expired_true.
    - left. apply filter_In. split; [exact Hr | now rewrite Ex]. }
  destruct (0 <? _)%nat; (split; [reflexivity | exact G]).
Qed.

Lemma blacklistToken_gentle j e u w : gentle w (snd (blacklistToken j e u w)).
Proof.
  rewrite StoreFacts.blacklistToken_eq.
  destruct (dateOf (e * 1000)) as [expires|]; [|now apply gentle_same].
  destruct (Db.fails w); [now apply gentle_same|].
  destruct (existsb (Db.has_jti j) (tokenBlacklist w)); [now apply gentle_same|].
  split; [reflexivity|]. intros r Hr. left. cbn. apply in_app_iff. now left.
Qed.

Section WithLibrary.
Context {env : Env} {J : JsonWebToken}.

Lemma guardWith_gentle permitted roleMessage req w :
  includes permitted "" = false ->
  NoDup (map Prisma.jti (tokenBlacklist w)) ->
  gentle w (snd (guardWith isJtiBlacklisted permitted roleMessage req w)).
Proof.
  intros Hempty U.
  rewrite (GuardFacts.guardWith_eq _ _ _ _ _ Hempty
             GuardFacts.isJtiBlacklisted_answers).
  repeat match goal with
         | |- context [if ?c then _ else _] => destruct c
         | |- context [match ?c with Some _ => _ | None => _ end] => destruct c
         | |- context [match ?c with Ok _ => _ | Throw _ => _ end] => destruct c
         end;
    try (now apply gentle_same); now apply isJtiBlacklisted_gentle.
Qed.

Lemma logout_gentle req w : gentle w (snd (logout req w)).
Proof.
  rewrite ServerFacts.logout_eq.
  destruct (presented req) as [token|]; [|now apply gentle_same].
  destruct (getTokenJti token) as [j|]; [|now apply gentle_same].
  destruct (getTokenExpiration token) as [expiration|]; [|now apply gentle_same].
  pose proof (blacklistToken_gentle j expiration (option_map Jwt.id (user req)) w) as G.
  destruct (blacklistToken j expiration (option_map Jwt.id (user req)) w)
    as [[[]|e] w']; cbn [snd] in *; [exact G|].
  destruct G as [C G]. split; [exact C | exact G].
Qed.

Lemma postLogout_gentle req w :
  NoDup (map Prisma.jti (tokenBlacklist w)) -> gentle w (snd (postLogout req w)).
Proof.
  intros U. unfold postLogout, bind.
  pose proof (guardWith_gentle ["admin"; "operator"] usersOnly req w eq_refl U) as G.
  rewrite <- GuardFacts.authMiddleware_guardWith in G.
  destruct (authMiddleware req w) as [[[res|req']|e] w']; cbn [snd] in *;
    try exact G.
  exact (gentle_trans _ _ _ G (logout_gentle req' w')).
Qed.

(** Apart from the two maintenance calls and the passing of time, an
    event leaves the clock alone and deletes expired rows only. *)
Lemma react_gentle w ev :
  wellFormed w -> sparing ev = true ->
  (forall now schedule, ev <> Environment now schedule) ->
  gentle w (react w ev).
Proof.
  intros [U _] Sp NotEnv. destruct ev; cbn [react]; try discriminate.
  - now apply gentle_same.
  - rewrite GuardFacts.authMiddleware_guardWith. now apply guardWith_gentle.
  - rewrite GuardFacts.requiredAdmin_guardWith. now apply guardWith_gentle.
  - now apply postLogout_gentle.
  - apply cleanupExpiredTokens_gentle.
  - exfalso. now apply (NotEnv now schedule).
Qed.

(** X8.  On a running server no login, guarded request, logout, cleanup tick or
    change of the environment removes a revocation whose expiry has not
    passed: only [revokeUserTokens] and [clearBlacklist] can. *)
Theorem current_revocations_survive
    (w : World) (ev : Event) (r : Prisma.TokenBlacklist) :
  reachable w -> sparing ev = true ->
  In r (tokenBlacklist w) -> clock w <= Prisma.expiresAt r ->
  In r (tokenBlacklist (react w ev)).
Proof.
  intros R Sp Hr Hc. pose proof (ServerFacts.reachable_wellFormed w R) as WF.
  destruct ev as [p|q|q|q| |u| |now schedule] eqn:E; try discriminate;
    try (rewrite <- E; destruct (react_gentle w ev WF) as [_ G];
         [subst ev; reflexivity | subst ev; discriminate |];
         destruct (G r Hr) as [H | H]; [exact H | lia]).
  exact Hr.
Qed.

Lemma presented_bearer req h token :
  authorization req = Some h -> Spec.bearer h = Some token ->
  presented req = Some token.
Proof.
  intros A B. unfold presented. rewrite A. cbn [truthy orEmpty].
  pose proof (GuardFacts.bearer_nonempty _ _ B) as N. apply String.eqb_neq in N.
  rewrite N. cbn [negb].
  pose proof (HeaderFacts.bearer_split h) as S. rewrite B in S. now rewrite S.
Qed.





End WithLibrary.

End RunFacts.

(** ** Issuing, logging out, and the handler's insert *)
Module CycleFacts.
Import Jwt TokenBlacklist Middleware Routes Server.

Lemma toy_payload_laws : JsonWebTokenPayloadLaws ToyJwt.toy.
Proof.
  constructor.
  - intros token secret t p. cbn. unfold ToyJwt.toyVerify, ToyJwt.toyDecode.
    destruct (ToyJwt.parse token) as [[s q]|]; [|discriminate].
    destruct (s =? secret)%string; [|discriminate].
    destruct (exp q) as [e|]; [destruct (t >=? e)|]; cbn; congruence.
  - intros token secret t p e. cbn. unfold ToyJwt.toyVerify.
    destruct (ToyJwt.parse token) as [[s q]|]; [|discriminate].
    destruct (s =? secret)%string; [|discriminate].
    destruct (exp q) as [x|] eqn:Ex.
    + destruct (t >=? x) eqn:G; [discriminate|].
      intros [= <-] E. rewrite Ex in E. injection E as <-.
      rewrite Z.geb_leb in G. apply Z.leb_gt in G. exact G.
    + intros [= <-] E. congruence.
Qed.

Section WithLibrary.
Context {env : Env} {J : JsonWebToken}.

(** X10.  The handler of POST /logout for a token with an identifier and an
    expiry: it never throws.  When the expiry in milliseconds is a valid
    [Date] and the database answers, it appends the row (identifier, expiry
    in milliseconds, the user of the request as owner) and answers 'Logout
    successful' when the table has no row for the identifier, and answers 500
    'Logout failed' with the conflict's message, table untouched, when it has
    one; with the database down it answers 500 as well.  When the expiry in
    milliseconds is no valid [Date] it answers 500 'Logout failed' with the
    validation error's message, and neither the table nor the database is
    touched. *)
Theorem logout_inserts_or_fails
    (req : Request) (w : World) (token j : string) (e : Z) :
  presented req = Some token ->
  getTokenJti token = Some j -> getTokenExpiration token = Some e ->
  (exists res, fst (logout req w) = Ok res)
  /\ (- maxTime <= e * 1000 <= maxTime -> Db.fails w = false ->
      (forall r, In r (tokenBlacklist w) -> Prisma.jti r <> j) ->
      fst (logout req w) = Ok (successResponse "Logout successful")
      /\ tokenBlacklist (snd (logout req w)) =
         (tokenBlacklist w ++
           [{| Prisma.id := serial w; Prisma.jti := j;
               Prisma.userId := orNull (option_map Jwt.id (user req));
               Prisma.expiresAt := e * 1000; Prisma.createdAt := clock w |}])%list)
  /\ (- maxTime <= e * 1000 <= maxTime -> Db.fails w = false ->
      (exists r, In r (tokenBlacklist w) /\ Prisma.jti r = j) ->
      fst (logout req w)
        = Ok (errorResponse "Logout failed" 500
                (Some (message (PrismaClientKnownRequestError "P2002"))))
      /\ tokenBlacklist (snd (logout req w)) = tokenBlacklist w)
  /\ (- maxTime <= e * 1000 <= maxTime -> Db.fails w = true ->
      fst (logout req w)
        = Ok (errorResponse "Logout failed" 500
                (Some (message PrismaClientInitializationError)))
      /\ tokenBlacklist (snd (logout req w)) = tokenBlacklist w)
  /\ (~ (- maxTime <= e * 1000 <= maxTime) ->
      fst (logout req w)
        = Ok (errorResponse "Logout failed" 500
                (Some (message PrismaClientValidationError)))
      /\ tokenBlacklist (snd (logout req w)) = tokenBlacklist w
      /\ outages (snd (logout req w)) = outages w).
Proof.
  intros P Hj He. rewrite ServerFacts.logout_eq, P, Hj, He.
  rewrite StoreFacts.blacklistToken_eq.
  split; [|split; [|split; [|split]]].
  - destruct (dateOf (e * 1000)); [|eexists; reflexivity].
    destruct (Db.fails w); [eexists; reflexivity|].
    destruct (existsb _ _); eexists; reflexivity.
  - intros V F Hno. rewrite (StoreFacts.dateOf_valid _ V), F.
    assert (E : existsb (Db.has_jti j) (tokenBlacklist w) = false).
    { destruct (existsb (Db.has_jti j) (tokenBlacklist w)) eqn:Ex; [|reflexivity].
      apply existsb_exists in Ex as [r [Hr Hjr]].
      apply StoreFacts.has_jti_true in Hjr. exfalso. exact (Hno r Hr Hjr). }
    rewrite E. split; reflexivity.
  - intros V F [r [Hr Hjr]]. rewrite (StoreFacts.dateOf_valid _ V), F.
    assert (E : existsb (Db.has_jti j) (tokenBlacklist w) = true).
    { apply existsb_exists. exists r. split; [exact Hr|].
      now apply StoreFacts.has_jti_true. }
    rewrite E. split; reflexivity.
  - intros V F. rewrite (StoreFacts.dateOf_valid _ V), F. split; reflexivity.
  - intros V. rewrite (StoreFacts.dateOf_invalid _ V). repeat split; reflexivity.
Qed.

(** [getTokenJti] never returns the empty string and [getTokenExpiration]
    never returns 0; what they return is read from the decoded payload,
    without any check of the signature or of the expiry. *)
Lemma token_accessors_read_payload (token : string) :
  (forall j, getTokenJti token = Some j ->
     j <> "" /\ exists d, decode token = Some d /\ jti d = Some j)
  /\ (forall e, getTokenExpiration token = Some e ->
        e <> 0 /\ exists d, decode token = Some d /\ exp d = Some e)
  /\ (decode token = None ->
        getTokenJti token = None /\ getTokenExpiration token = None).
Proof.
  unfold getTokenJti, getTokenExpiration, decodeToken.
  destruct (decode token) as [d|]; [|repeat split; discriminate].
  split; [|split; [|discriminate]].
  - intros j. unfold orNull, truthy. destruct (jti d) as [x|] eqn:Dj; [|discriminate].
    destruct (x =? "")%string eqn:E; [discriminate|].
    intros [= <-]. split; [now apply String.eqb_neq|].
    exists d. split; [reflexivity | exact Dj].
  - intros e. destruct (exp d) as [x|] eqn:De; [|discriminate].
    destruct (x =? 0) eqn:E; [discriminate|].
    intros [= <-]. split; [now apply Z.eqb_neq|].
    exists d. split; [reflexivity | exact De].
Qed.

Lemma bearer_of_compact token :
  Spec.mentions space token = false ->
  Spec.bearer ("Bearer " ++ token) = Some token.
Proof.
  intros H. unfold Spec.bearer.
  rewrite (HeaderFacts.stripPrefix_app "Bearer " token). now rewrite H.
Qed.

Lemma generateToken_issues payload w ttl :
  JsonWebTokenLaws J -> timespan JWT_EXPIRY = Some ttl ->
  exists token,
    sign (withJti payload (uuids w (drawn w))) JWT_SECRET JWT_EXPIRY (seconds w)
      = Ok token
    /\ generateToken payload w
       = (Ok token,
          {| tokenBlacklist := tokenBlacklist w; clock := clock w;
             outages := outages w; uuids := uuids w; drawn := S (drawn w);
             serial := serial w; console := console w |}).
Proof.
  intros Laws Hts.
  destruct (sign_succeeds (withJti payload (uuids w (drawn w)))
              JWT_SECRET JWT_EXPIRY (seconds w) ttl Hts eq_refl eq_refl)
    as [token Hs].
  exists token. split; [exact Hs|].
  unfold generateToken, bind, uuidv4. cbn. unfold seconds in *. cbn.
  now rewrite Hs.
Qed.

Lemma seconds_bounds w : seconds w * 1000 <= clock w < (seconds w + 1) * 1000.
Proof.
  unfold seconds.
  pose proof (Z.div_mod (clock w) 1000 ltac:(lia)).
  pose proof (Z.mod_pos_bound (clock w) 1000 ltac:(lia)). lia.
Qed.

Lemma issued_token_facts payload w ttl :
  JsonWebTokenLaws J -> JsonWebTokenPayloadLaws J ->
  timespan JWT_EXPIRY = Some ttl -> 0 < ttl -> 0 <= clock w ->
  uuids w (drawn w) <> "" ->
  exists token,
    sign (withJti payload (uuids w (drawn w))) JWT_SECRET JWT_EXPIRY (seconds w)
      = Ok token
    /\ generateToken payload w
       = (Ok token,
          {| tokenBlacklist := tokenBlacklist w; clock := clock w;
             outages := outages w; uuids := uuids w; drawn := S (drawn w);
             serial := serial w; console := console w |})
    /\ verify token JWT_SECRET (seconds w)
       = Ok (stamped (withJti payload (uuids w (drawn w))) (seconds w) ttl)
    /\ getTokenJti token = Some (uuids w (drawn w))
    /\ getTokenExpiration token = Some (seconds w + ttl).
Proof.
  intros Laws PLaws Hts Hpos Hclk Hid.
  destruct (generateToken_issues payload w ttl Laws Hts) as [token [Hs G]].
  exists token. split; [exact Hs|]. split; [exact G|].
  pose proof (verify_sign (withJti payload (uuids w (drawn w))) _ _ _ _ _
                (seconds w) Hts eq_refl eq_refl Hs ltac:(lia)) as V.
  split; [exact V|].
  pose proof (decode_verified _ _ _ _ V) as D.
  unfold getTokenJti, getTokenExpiration, decodeToken. rewrite D.
  cbn [jti exp stamped withJti]. split.
  - unfold orNull, truthy. apply String.eqb_neq in Hid. now rewrite Hid.
  - pose proof (seconds_bounds w).
    assert (E : (seconds w + ttl =? 0) = false) by (apply Z.eqb_neq; lia).
    now rewrite E.
Qed.

(** X11.  A token just issued decodes to the payload that was signed, stamped
    with the time of issue and the expiry; [getTokenJti] and
    [getTokenExpiration] return its fresh identifier and its expiry. *)
Theorem issued_token_round_trip (payload : Subject) (w : World) (ttl : Z) :
  JsonWebTokenLaws J -> JsonWebTokenPayloadLaws J ->
  timespan JWT_EXPIRY = Some ttl -> 0 < ttl -> 0 <= clock w ->
  uuids w (drawn w) <> "" ->
  exists token,
    fst (generateToken payload w) = Ok token
    /\ decodeToken token
       = Some (stamped (withJti payload (uuids w (drawn w))) (seconds w) ttl)
    /\ getTokenJti token = Some (uuids w (drawn w))
    /\ getTokenExpiration token = Some (seconds w + ttl).
Proof.
  intros Laws PLaws Hts Hpos Hclk Hid.
  destruct (issued_token_facts payload w ttl Laws PLaws Hts Hpos Hclk Hid)
    as [token [_ [G [V [Hj He]]]]].
  exists token. rewrite G. split; [reflexivity|].
  split; [exact (decode_verified _ _ _ _ V)|]. split; assumption.
Qed.

(** The whole cycle at a world where no row is stored under the identifier
    drawn next: the token issued is handed on by [authMiddleware]; POST
    /logout with it appends one row; from then on [authMiddleware] answers
    the token with 401. *)
Lemma cycle_of_fresh_identifier (payload : Subject) (w : World) (ttl : Z) :
  JsonWebTokenLaws J -> JsonWebTokenPayloadLaws J ->
  timespan JWT_EXPIRY = Some ttl -> 0 < ttl -> 0 <= clock w ->
  (seconds w + ttl) * 1000 <= maxTime ->
  uuids w (drawn w) <> "" ->
  (forall r, In r (tokenBlacklist w) -> Prisma.jti r <> uuids w (drawn w)) ->
  outages w = [] ->
  exists token,
    fst (generateToken payload w) = Ok token
    /\ (Spec.mentions space token = false ->
        let req := {| authorization := Some ("Bearer " ++ token); user := None |} in
        let w1 := snd (generateToken payload w) in
        let claim := stamped (withJti payload (uuids w (drawn w))) (seconds w) ttl in
        fst (authMiddleware req w1) = Ok (Next (setUser req claim))
        /\ fst (postLogout req w1) = Ok (successResponse "Logout successful")
        /\ tokenBlacklist (snd (postLogout req w1)) =
           (tokenBlacklist w ++
             [{| Prisma.id := serial w; Prisma.jti := uuids w (drawn w);
                 Prisma.userId := orNull (Some (subjectId payload));
                 Prisma.expiresAt := (seconds w + ttl) * 1000;
                 Prisma.createdAt := clock w |}])%list
        /\ fst (authMiddleware req (snd (postLogout req w1)))
           = Ok (Sent (errorResponse "Token has been revoked. Please login again."
                                     401 None))).
Proof.
  intros Laws PLaws Hts Hpos Hclk Hmax Hid Hfresh Hout.
  destruct (issued_token_facts payload w ttl Laws PLaws Hts Hpos Hclk Hid)
    as [token [Hs [G [V [Hj He]]]]].
  exists token. rewrite G. split; [reflexivity|].
  intros Hcompact. cbn zeta. cbn [snd].
  assert (Hdate : dateOf ((seconds w + ttl) * 1000) = Some ((seconds w + ttl) * 1000)).
  { apply StoreFacts.dateOf_valid. pose proof (seconds_bounds w).
    unfold maxTime in *. lia. }
  set (u := uuids w (drawn w)) in *.
  set (claim := stamped (withJti payload u) (seconds w) ttl) in *.
  set (req := {| authorization := Some ("Bearer " ++ token); user := None |}).
  pose proof (bearer_of_compact token Hcompact) as B.
  assert (Ex : existsb (Db.has_jti u) (tokenBlacklist w) = false).
  { destruct (existsb (Db.has_jti u) (tokenBlacklist w)) eqn:Ex; [|reflexivity].
    apply existsb_exists in Ex as [r [Hr Hjr]].
    apply StoreFacts.has_jti_true in Hjr. exfalso. exact (Hfresh r Hr Hjr). }
  assert (Fn : find (Db.has_jti u) (tokenBlacklist w) = None).
  { now apply StoreFacts.find_none_iff. }
  destruct w as [table now schedule ids n k lines]. cbn in Hout. subst schedule.
  cbn [tokenBlacklist clock serial] in *.
  (* the guard before the logout *)
  assert (A1 : forall rq v, authorization rq = Some ("Bearer " ++ token) ->
             tokenBlacklist v = table -> clock v = now -> outages v = [] ->
             authMiddleware rq v = (Ok (Next (setUser rq claim)), Db.after v)).
  { intros rq v Hh Tv Cv Ov. rewrite GuardFacts.authMiddleware_guardWith.
    assert (Vv : verify token JWT_SECRET (seconds v) = Ok claim).
    { unfold seconds in *. cbn in V. now rewrite Cv. }
    rewrite (GuardFacts.guardWith_verified _ _ _ _ _ _ token claim Hh B Vv).
    change (orEmpty (jti claim)) with u.
    rewrite StoreFacts.isJtiBlacklisted_eq.
    unfold Db.fails. rewrite Ov, Tv, Fn. cbn [hd].
    assert (Rl : negb (truthy (role claim))
                 || negb (includes ["admin"; "operator"] (orEmpty (role claim)))
                 = false).
    { unfold claim. cbn [role stamped withJti].
      destruct (subjectRole payload); reflexivity. }
    now rewrite Rl. }
  split; [now rewrite A1|].
  unfold postLogout, bind. rewrite A1 by reflexivity.
  rewrite ServerFacts.logout_eq.
  rewrite (RunFacts.presented_bearer (setUser req claim) _ token eq_refl B).
  rewrite Hj, He, StoreFacts.blacklistToken_eq.
  rewrite Hdate.
  cbn [Db.fails Db.after set_outages outages tokenBlacklist hd tl].
  rewrite Ex. cbn [fst snd]. split; [reflexivity|]. split; [reflexivity|].
  rewrite GuardFacts.authMiddleware_guardWith.
  match goal with |- fst (guardWith _ _ _ _ ?v) = _ =>
    assert (Vv : verify token JWT_SECRET (seconds v) = Ok claim)
      by (unfold seconds in *; cbn in *; exact V);
    rewrite (GuardFacts.guardWith_verified _ _ _ req v ("Bearer " ++ token)
               token claim eq_refl B Vv)
  end.
  change (orEmpty (jti claim)) with u.
  rewrite StoreFacts.isJtiBlacklisted_eq.
  cbn [Db.fails Db.after set_outages outages tokenBlacklist hd tl logged
       set_console clock].
  rewrite (StoreMore.find_app_miss _ _ _ Ex). cbn [find]. unfold Db.has_jti at 1.
  cbn [Prisma.jti]. rewrite String.eqb_refl. cbn [Prisma.expiresAt].
  pose proof (seconds_bounds {| tokenBlacklist := table; clock := now;
                                outages := []; uuids := ids; drawn := n;
                                serial := k; console := lines |}) as SB.
  cbn [clock] in SB.
  assert (X : (now >? (seconds {| tokenBlacklist := table; clock := now;
                                   outages := []; uuids := ids; drawn := n;
                                   serial := k; console := lines |} + ttl) * 1000)
              = false).
  { rewrite Z.gtb_ltb. apply Z.ltb_ge. lia. }
  rewrite X. reflexivity.
Qed.

End WithLibrary.

End CycleFacts.

(** ** POST /login *)
Module LoginFacts.
Import Jwt TokenBlacklist Middleware Routes.

Section WithLibrary.
Context {env : Env} {J : JsonWebToken}.
Variables Body Issues : Type.
Variable loginSchema_parse : Body -> Issues + LoginRequest.
Variable bcrypt_compare : string -> string -> bool.
Variable users : list User.t.

(** The handler, case by case. *)
Lemma login_eq body w :
  login loginSchema_parse bcrypt_compare users body w =
  match loginSchema_parse body with
  | inl issues => (Ok (errorReply "Validation failed" 400 (zodIssues issues)), w)
  | inr r =>
      if Db.fails w
      then (Ok (errorReply "Login failed" 500
                  (errorMessage (message PrismaClientInitializationError))),
            logged (console_error "Login error:"
                      (message PrismaClientInitializationError)) (Db.after w))
      else
        match account users (loginEmail r) with
        | None => (Ok (errorReply "Invalid email or password" 401 noDetail), Db.after w)
        | Some u =>
            if negb (User.isActive u)
            then (Ok (errorReply "User account is inactive" 403 noDetail), Db.after w)
            else if negb (bcrypt_compare (loginPassword r) (User.password u))
            then (Ok (errorReply "Invalid email or password" 401 noDetail), Db.after w)
            else
              match generateToken (subjectOf u) (Db.after w) with
              | (Ok tok, w') => (Ok (successReply (loginData tok u) "Login successful"), w')
              | (Throw e, w') =>
                  (Ok (errorReply "Login failed" 500 (errorMessage (message e))),
                   logged (console_error "Login error:" (message e)) w')
              end
        end
  end.
Proof.
  unfold login, account.
  destruct (loginSchema_parse body) as [issues|r]; [reflexivity|].
  unfold tryCatch, bind at 1, findFirstByEmail, Db.call.
  destruct (Db.fails w); [reflexivity|].
  destruct (find _ users) as [u|]; [|reflexivity].
  destruct (negb (User.isActive u)); [reflexivity|].
  destruct (negb (bcrypt_compare (loginPassword r) (User.password u)));
    [reflexivity|].
  unfold bind. fold (subjectOf u).
  destruct (generateToken (subjectOf u) (Db.after w)) as [[tok|e] w']; reflexivity.
Qed.

(** X13.  An unknown email and a wrong password for an active account get the
    same answer and leave the same world: with the database answering, 401
    'Invalid email or password' in both cases. *)
Theorem login_hides_unknown_accounts
    (body1 body2 : Body) (r1 r2 : LoginRequest) (u : User.t) (w : World) :
  loginSchema_parse body1 = inr r1 -> loginSchema_parse body2 = inr r2 ->
  account users (loginEmail r1) = None ->
  account users (loginEmail r2) = Some u ->
  User.isActive u = true ->
  bcrypt_compare (loginPassword r2) (User.password u) = false ->
  login loginSchema_parse bcrypt_compare users body1 w
  = login loginSchema_parse bcrypt_compare users body2 w
  /\ (Db.fails w = false ->
      fst (login loginSchema_parse bcrypt_compare users body1 w)
      = Ok (errorReply "Invalid email or password" 401 noDetail)).
Proof.
  intros P1 P2 A1 A2 Act Pw. rewrite !login_eq, P1, P2, A1, A2, Act, Pw. cbn [negb].
  split; [reflexivity|]. intros F. now rewrite F.
Qed.

(** X14.  For an account that is not active the answer is 403 'User account is
    inactive' whatever password is sent, right or wrong: the password is not
    looked at and no token is issued. *)
Theorem login_inactive_account
    (body : Body) (r : LoginRequest) (u : User.t) (w : World) :
  loginSchema_parse body = inr r ->
  account users (loginEmail r) = Some u ->
  User.isActive u = false ->
  Db.fails w = false ->
  login loginSchema_parse bcrypt_compare users body w
  = (Ok (errorReply "User account is inactive" 403 noDetail), Db.after w).
Proof.
  intros P A Act F. now rewrite login_eq, P, F, A, Act.
Qed.

(** X15.  The handler never throws and never touches the revocation table.  A
    body that does not parse is answered with 400 and the issues, before any
    database call; a database failure and a failure to sign are answered
    with 500 'Login failed' and the error's message. *)
Theorem login_failures (body : Body) (w : World) :
  (exists reply, fst (login loginSchema_parse bcrypt_compare users body w) = Ok reply)
  /\ tokenBlacklist (snd (login loginSchema_parse bcrypt_compare users body w))
     = tokenBlacklist w
  /\ (forall issues, loginSchema_parse body = inl issues ->
        login loginSchema_parse bcrypt_compare users body w
        = (Ok (errorReply "Validation failed" 400 (zodIssues issues)), w))
  /\ (forall r, loginSchema_parse body = inr r -> Db.fails w = true ->
        fst (login loginSchema_parse bcrypt_compare users body w)
        = Ok (errorReply "Login failed" 500
                (errorMessage (message PrismaClientInitializationError))))
  /\ (forall r u e,
        loginSchema_parse body = inr r -> Db.fails w = false ->
        account users (loginEmail r) = Some u -> User.isActive u = true ->
        bcrypt_compare (loginPassword r) (User.password u) = true ->
        sign (withJti (subjectOf u) (uuids w (drawn w))) JWT_SECRET JWT_EXPIRY
             (seconds w) = Throw e ->
        fst (login loginSchema_parse bcrypt_compare users body w)
        = Ok (errorReply "Login failed" 500 (errorMessage (message e)))).
Proof.
  rewrite login_eq.
  assert (G : forall u,
            generateToken (subjectOf u) (Db.after w)
            = (sign (withJti (subjectOf u) (uuids w (drawn w))) JWT_SECRET
                    JWT_EXPIRY (seconds w),
               snd (generateToken (subjectOf u) (Db.after w)))
            /\ tokenBlacklist (snd (generateToken (subjectOf u) (Db.after w)))
               = tokenBlacklist w).
  { intros u. split; reflexivity. }
  destruct (loginSchema_parse body) as [issues|r].
  { split; [eexists; reflexivity|]. split; [reflexivity|]. split; [now intros ? [= <-]|].
    split; intros; discriminate. }
  destruct (Db.fails w) eqn:F.
  { split; [eexists; reflexivity|]. split; [reflexivity|]. split; [intros; discriminate|].
    split; [reflexivity | intros; discriminate]. }
  destruct (account users (loginEmail r)) as [u|] eqn:A.
  2: { split; [eexists; reflexivity|]. split; [reflexivity|]. split; [intros; discriminate|].
       split; [intros; discriminate|]. intros r' u' e [= <-]; intros; congruence. }
  destruct (User.isActive u) eqn:Act; cbn [negb].
  2: { split; [eexists; reflexivity|]. split; [reflexivity|]. split; [intros; discriminate|].
       split; [intros; discriminate|]. intros r' u' e [= <-]; intros; congruence. }
  destruct (bcrypt_compare (loginPassword r) (User.password u)) eqn:Pw; cbn [negb].
  2: { split; [eexists; reflexivity|]. split; [reflexivity|]. split; [intros; discriminate|].
       split; [intros; discriminate|]. intros r' u' e [= <-]; intros; congruence. }
  destruct (G u) as [Gu Tu]. rewrite Gu.
  destruct (sign (withJti (subjectOf u) (uuids w (drawn w))) JWT_SECRET JWT_EXPIRY
              (seconds w)) as [tok|e] eqn:Sg.
  - split; [eexists; reflexivity|]. split; [exact Tu|]. split; [intros; discriminate|].
    split; [intros; discriminate|].
    intros r' u' e [= <-] _ A'; rewrite A in A'; injection A' as <-; intros; congruence.
  - split; [eexists; reflexivity|]. split; [exact Tu|]. split; [intros; discriminate|].
    split; [intros; discriminate|].
    intros r' u' e' [= <-] _ A'; rewrite A in A'; injection A' as <-;
      intros _ _ S'; rewrite Sg in S'; injection S' as <-; reflexivity.
Qed.

(** A successful login at a world where no row is stored under the
    identifier drawn next answers with a token that [authMiddleware] hands on
    at once, and that [requiredAdmin] hands on exactly for an administrator. *)
Lemma login_of_fresh_identifier
    (body : Body) (r : LoginRequest) (u : User.t) (w : World) (ttl : Z) :
  JsonWebTokenLaws J ->
  loginSchema_parse body = inr r ->
  account users (loginEmail r) = Some u ->
  User.isActive u = true ->
  bcrypt_compare (loginPassword r) (User.password u) = true ->
  Db.fails w = false ->
  timespan JWT_EXPIRY = Some ttl -> 0 < ttl ->
  (forall x, In x (tokenBlacklist w) -> Prisma.jti x <> uuids w (drawn w)) ->
  exists tok,
    fst (login loginSchema_parse bcrypt_compare users body w)
      = Ok (successReply (loginData tok u) "Login successful")
    /\ (Spec.mentions space tok = false ->
        forall req, authorization req = Some ("Bearer " ++ tok) ->
        let w1 := snd (login loginSchema_parse bcrypt_compare users body w) in
        let claim :=
          stamped (withJti (subjectOf u) (uuids w (drawn w))) (seconds w) ttl in
        id claim = User.id u
        /\ role claim = Some (roleName (User.role u))
        /\ fst (authMiddleware req w1) = Ok (Next (setUser req claim))
        /\ fst (requiredAdmin req w1)
           = Ok (match User.role u with
                 | admin => Next (setUser req claim)
                 | operator => Sent (errorResponse adminOnly 403 None)
                 end)).
Proof.
  intros Laws P A Act Pw F Hts Hpos Hfresh.
  destruct (CycleFacts.generateToken_issues (subjectOf u) (Db.after w) ttl Laws Hts)
    as [tok [Hs G]].
  exists tok. rewrite login_eq, P, F, A, Act, Pw. cbn [negb]. rewrite G.
  cbn [fst snd]. split; [reflexivity|].
  intros Hcompact req Hh. cbn zeta.
  split; [reflexivity|]. split; [reflexivity|].
  pose proof (CycleFacts.bearer_of_compact tok Hcompact) as B.
  assert (Hs' : sign (withJti (subjectOf u) (uuids w (drawn w))) JWT_SECRET
                     JWT_EXPIRY (seconds w) = Ok tok) by exact Hs.
  pose proof (verify_sign (withJti (subjectOf u) (uuids w (drawn w))) _ _
                (seconds w) _ _ (seconds w) Hts eq_refl eq_refl Hs'
                ltac:(lia)) as V.
  set (claim := stamped (withJti (subjectOf u) (uuids w (drawn w))) (seconds w) ttl)
    in *.
  rewrite GuardFacts.authMiddleware_guardWith, GuardFacts.requiredAdmin_guardWith.
  match goal with |- fst (guardWith _ _ _ _ ?v) = _ /\ _ =>
    assert (Vv : verify tok JWT_SECRET (seconds v) = Ok claim) by exact V;
    rewrite !(GuardFacts.guardWith_verified _ _ _ req v ("Bearer " ++ tok)
                tok claim Hh B Vv);
    assert (L : fst (isJtiBlacklisted (orEmpty (jti claim)) v) = Ok false)
  end.
  { rewrite StoreFacts.isJtiBlacklisted_eq.
    match goal with |- context [if ?c then _ else _] => destruct c end;
      [reflexivity|].
    change (orEmpty (jti claim)) with (uuids w (drawn w)).
    match goal with |- context [find _ (tokenBlacklist ?x)] =>
      change (tokenBlacklist x) with (tokenBlacklist w)
    end.
    rewrite (proj2 (StoreFacts.find_none_iff _ (tokenBlacklist w)) Hfresh).
    reflexivity. }
  match goal with |- context [isJtiBlacklisted ?j ?v] =>
    destruct (isJtiBlacklisted j v) as [res w']
  end.
  cbn [fst] in L. subst res. cbn [fst].
  unfold claim. cbn [role stamped withJti subjectOf subjectRole].
  destruct (User.role u); split; reflexivity.
Qed.

End WithLibrary.

End LoginFacts.

(** ** What every stored row looks like *)
Module RowFacts.
Import Jwt TokenBlacklist Middleware Routes Server.

Lemma orNull_not_empty s : orNull s <> Some "".
Proof.
  unfold orNull, truthy. destruct s as [x|]; [|discriminate].
  destruct (x =? "")%string eqn:E; [discriminate|].
  cbn. intros [= ->]. discriminate.
Qed.

Section WithLibrary.
Context {env : Env} {J : JsonWebToken}.

Lemma keeps_rows (P : Prisma.TokenBlacklist -> Prop) w w' :
  keeps w w' ->
  (forall r, In r (tokenBlacklist w) -> P r) ->
  forall r, In r (tokenBlacklist w') -> P r.
Proof.
  intros [f E] H r Hr. rewrite E in Hr. apply filter_In in Hr as [Hr _]. now apply H.
Qed.

Lemma logout_rows (P : Prisma.TokenBlacklist -> Prop) req w :
  (forall i j u e c, j <> "" -> e <> 0 ->
      P {| Prisma.id := i; Prisma.jti := j; Prisma.userId := orNull u;
           Prisma.expiresAt := e * 1000; Prisma.createdAt := c |}) ->
  (forall r, In r (tokenBlacklist w) -> P r) ->
  forall r, In r (tokenBlacklist (snd (logout req w))) -> P r.
Proof.
  intros New H. rewrite ServerFacts.logout_eq.
  destruct (presented req) as [token|]; [|exact H].
  destruct (getTokenJti token) as [j|] eqn:Hj; [|exact H].
  destruct (getTokenExpiration token) as [e|] eqn:He; [|exact H].
  destruct (CycleFacts.token_accessors_read_payload token) as [Aj [Ae _]].
  destruct (Aj j Hj) as [Nj _]. destruct (Ae e He) as [Ne _].
  rewrite StoreFacts.blacklistToken_eq.
  destruct (dateOf (e * 1000)) as [expires|] eqn:D; [|exact H].
  apply StoreFacts.dateOf_some in D as [-> _].
  destruct (Db.fails w); [exact H|].
  destruct (existsb (Db.has_jti j) (tokenBlacklist w)); [exact H|].
  cbn. intros r Hr. apply in_app_iff in Hr as [Hr | [<- | []]]; [now apply H|].
  now apply New.
Qed.

Lemma react_rows (P : Prisma.TokenBlacklist -> Prop) w ev :
  (forall i j u e c, j <> "" -> e <> 0 ->
      P {| Prisma.id := i; Prisma.jti := j; Prisma.userId := orNull u;
           Prisma.expiresAt := e * 1000; Prisma.createdAt := c |}) ->
  (forall r, In r (tokenBlacklist w) -> P r) ->
  forall r, In r (tokenBlacklist (react w ev)) -> P r.
Proof.
  intros New H. destruct ev; cbn [react]; try exact H.
  - apply (keeps_rows P w); [|exact H].
    rewrite GuardFacts.authMiddleware_guardWith.
    now apply ServerFacts.guardWith_keeps.
  - apply (keeps_rows P w); [|exact H].
    rewrite GuardFacts.requiredAdmin_guardWith.
    now apply ServerFacts.guardWith_keeps.
  - unfold postLogout, bind.
    pose proof (ServerFacts.guardWith_keeps ["admin"; "operator"] usersOnly req w
                  eq_refl) as K.
    rewrite <- GuardFacts.authMiddleware_guardWith in K.
    pose proof (keeps_rows P _ _ K H) as H'.
    destruct (authMiddleware req w) as [[[res|req']|e] w']; cbn [snd] in *;
      try exact H'.
    now apply logout_rows.
  - exact (keeps_rows P _ _ (ServerFacts.cleanupExpiredTokens_keeps w) H).
  - exact (keeps_rows P _ _ (ServerFacts.revokeUserTokens_keeps _ w) H).
  - exact (keeps_rows P _ _ (ServerFacts.clearBlacklist_keeps w) H).
Qed.

(** X17.  In every world the server can reach, the table satisfies its unique
    index, and every row has a non-empty identifier, an owner that is absent
    or non-empty, and an expiry that is a whole, non-zero number of seconds
    (the token's [exp], in milliseconds). *)
Theorem reachable_rows (w : World) :
  reachable w ->
  Db.unique w
  /\ forall r, In r (tokenBlacklist w) ->
       Prisma.jti r <> ""
       /\ Prisma.userId r <> Some ""
       /\ exists e, e <> 0 /\ Prisma.expiresAt r = e * 1000.
Proof.
  intros R. split.
  - apply StoreFacts.distinct_NoDup. exact (proj1 (ServerFacts.reachable_wellFormed w R)).
  - destruct R as [now [schedule [ids [evs ->]]]].
    assert (Gen : forall evs w0,
               (forall r, In r (tokenBlacklist w0) ->
                  Prisma.jti r <> "" /\ Prisma.userId r <> Some ""
                  /\ exists e, e <> 0 /\ Prisma.expiresAt r = e * 1000) ->
               forall r, In r (tokenBlacklist (run w0 evs)) ->
                 Prisma.jti r <> "" /\ Prisma.userId r <> Some ""
                 /\ exists e, e <> 0 /\ Prisma.expiresAt r = e * 1000).
    { clear. induction evs as [|ev evs IH]; intros w0 H; [exact H|].
      cbn [run fold_left]. apply IH.
      apply (react_rows _ w0 ev); [|exact H].
      intros i j u e c Hj He. cbn. split; [exact Hj|].
      split; [apply orNull_not_empty | eauto]. }
    apply Gen. intros r [].
Qed.

End WithLibrary.

End RowFacts.

(** ** Identifiers are fresh when issued *)
Module IssuanceFacts.
Import Jwt TokenBlacklist Middleware Routes Server.

Lemma isJtiBlacklisted_ids j w :
  uuids (snd (isJtiBlacklisted j w)) = uuids w
  /\ drawn (snd (isJtiBlacklisted j w)) = drawn w.
Proof.
  rewrite StoreFacts.isJtiBlacklisted_eq.
  repeat match goal with
         | |- context [if ?c then _ else _] => destruct c
         | |- context [match ?c with Some _ => _ | None => _ end] => destruct c
         end; split; reflexivity.
Qed.

Lemma cleanupExpiredTokens_ids w :
  uuids (snd (cleanupExpiredTokens w)) = uuids w
  /\ drawn (snd (cleanupExpiredTokens w)) = drawn w.
Proof.
  rewrite StoreFacts.cleanupExpiredTokens_eq. cbn zeta.
  repeat match goal with
         | |- context [if ?c then _ else _] => destruct c
         end; split; reflexivity.
Qed.

Lemma revokeUserTokens_ids u w :
  uuids (snd (revokeUserTokens u w)) = uuids w
  /\ drawn (snd (revokeUserTokens u w)) = drawn w.
Proof.
  rewrite StoreFacts.revokeUserTokens_eq. cbn zeta.
  destruct (Db.fails w); split; reflexivity.
Qed.

Lemma clearBlacklist_ids w :
  uuids (snd (clearBlacklist w)) = uuids w
  /\ drawn (snd (clearBlacklist w)) = drawn w.
Proof.
  unfold clearBlacklist, tryCatch, bind, Db.deleteMany, Db.call.
  destruct (Db.fails w); split; reflexivity.
Qed.

Lemma blacklistToken_ids j e u w :
  uuids (snd (blacklistToken j e u w)) = uuids w
  /\ drawn (snd (blacklistToken j e u w)) = drawn w.
Proof.
  rewrite StoreFacts.blacklistToken_eq.
  destruct (dateOf (e * 1000)); [|split; reflexivity].
  destruct (Db.fails w); [split; reflexivity|].
  destruct (existsb _ _); split; reflexivity.
Qed.

Section WithLibrary.
Context {env : Env} {J : JsonWebToken}.

Lemma guardWith_ids permitted roleMessage req w :
  includes permitted "" = false ->
  uuids (snd (guardWith isJtiBlacklisted permitted roleMessage req w)) = uuids w
  /\ drawn (snd (guardWith isJtiBlacklisted permitted roleMessage req w)) = drawn w.
Proof.
  intros Hempty.
  rewrite (GuardFacts.guardWith_eq _ _ _ _ _ Hempty
             GuardFacts.isJtiBlacklisted_answers).
  repeat match goal with
         | |- context [if ?c then _ else _] => destruct c
         | |- context [match ?c with Some _ => _ | None => _ end] => destruct c
         | |- context [match ?c with Ok _ => _ | Throw _ => _ end] => destruct c
         end;
    try (split; reflexivity); apply isJtiBlacklisted_ids.
Qed.

Lemma logout_ids req w :
  uuids (snd (logout req w)) = uuids w /\ drawn (snd (logout req w)) = drawn w.
Proof.
  rewrite ServerFacts.logout_eq.
  destruct (presented req) as [token|]; [|split; reflexivity].
  destruct (getTokenJti token) as [j|]; [|split; reflexivity].
  destruct (getTokenExpiration token) as [e|]; [|split; reflexivity].
  pose proof (blacklistToken_ids j e (option_map Jwt.id (user req)) w) as I.
  destruct (blacklistToken j e (option_map Jwt.id (user req)) w) as [[[]|x] w'];
    exact I.
Qed.

Lemma postLogout_ids req w :
  uuids (snd (postLogout req w)) = uuids w
  /\ drawn (snd (postLogout req w)) = drawn w.
Proof.
  unfold postLogout, bind.
  pose proof (guardWith_ids ["admin"; "operator"] usersOnly req w eq_refl) as G.
  rewrite <- GuardFacts.authMiddleware_guardWith in G.
  destruct (authMiddleware req w) as [[[res|req']|x] w']; cbn [snd] in *;
    try exact G.
  destruct (logout_ids req' w') as [U D]. destruct G as [U' D'].
  split; congruence.
Qed.

(** No event changes what [uuidv4()] returns, and none takes back an
    identifier once drawn. *)
Lemma react_ids w ev :
  uuids (react w ev) = uuids w /\ (drawn w <= drawn (react w ev))%nat.
Proof.
  assert (Same : forall w', uuids w' = uuids w /\ drawn w' = drawn w ->
                   uuids w' = uuids w /\ (drawn w <= drawn w')%nat).
  { intros w' [U D]. split; [exact U | rewrite D; apply Nat.le_refl]. }
  destruct ev; cbn [react].
  - split; [reflexivity | cbn; apply Nat.le_succ_diag_r].
  - apply Same. rewrite GuardFacts.authMiddleware_guardWith. now apply guardWith_ids.
  - apply Same. rewrite GuardFacts.requiredAdmin_guardWith. now apply guardWith_ids.
  - apply Same, postLogout_ids.
  - apply Same, cleanupExpiredTokens_ids.
  - apply Same, revokeUserTokens_ids.
  - apply Same, clearBlacklist_ids.
  - split; [reflexivity | apply Nat.le_refl].
Qed.

Lemma run_ids evs : forall w, uuids (run w evs) = uuids w.
Proof.
  induction evs as [|ev evs IH]; intros w; [reflexivity|].
  cbn [run fold_left]. fold (run (react w ev) evs).
  rewrite IH. apply react_ids.
Qed.

Lemma issued_later w w' j :
  uuids w' = uuids w -> (drawn w <= drawn w')%nat -> issued w j -> issued w' j.
Proof.
  intros U D [k [Hk Hu]]. exists k. split; [lia | now rewrite U].
Qed.

(** A request that a guard hands on carries a token that verified, and the
    claim attached is the one it verified to. *)
Lemma guard_hands_on permitted roleMessage req w req' :
  includes permitted "" = false ->
  fst (guardWith isJtiBlacklisted permitted roleMessage req w) = Ok (Next req') ->
  exists h token claim,
    authorization req = Some h /\ Spec.bearer h = Some token
    /\ verify token JWT_SECRET (seconds w) = Ok claim
    /\ req' = setUser req claim.
Proof.
  intros Hempty. rewrite (GuardFacts.guardWith_refines _ _ _ _ Hempty).
  unfold Spec.accessGuard, Spec.verifiedAt.
  destruct (authorization req) as [h|]; [|discriminate].
  destruct (h =? "")%string; [discriminate|].
  destruct (Spec.bearer h) as [token|] eqn:B; [|discriminate].
  destruct (verify token JWT_SECRET (seconds w)) as [claim|x] eqn:V; [|discriminate].
  destruct (Spec.revokedAt w _); [discriminate|].
  destruct (Spec.permits permitted claim); [|discriminate].
  cbn. intros [= <-]. exists h, token, claim. auto.
Qed.

(** The rows that the logout route stores are for identifiers the server
    has issued, when the tokens it is sent are its own. *)
Lemma postLogout_issued req w :
  JsonWebTokenPayloadLaws J ->
  ownTokens w req ->
  (forall r, In r (tokenBlacklist w) -> issued w (Prisma.jti r)) ->
  forall r, In r (tokenBlacklist (snd (postLogout req w))) ->
    issued (snd (postLogout req w)) (Prisma.jti r).
Proof.
  intros Laws Own Inv.
  destruct (postLogout_ids req w) as [U D].
  assert (Goal' : forall r, In r (tokenBlacklist (snd (postLogout req w))) ->
                    issued w (Prisma.jti r)).
  2: { intros r Hr. apply (issued_later w); [exact U | rewrite D; apply Nat.le_refl |].
       now apply Goal'. }
  clear U D. unfold postLogout, bind.
  pose proof (ServerFacts.guardWith_keeps ["admin"; "operator"] usersOnly req w
                eq_refl) as K.
  pose proof (guard_hands_on ["admin"; "operator"] usersOnly req w) as Hand.
  rewrite <- GuardFacts.authMiddleware_guardWith in K, Hand.
  assert (Inv' : forall r, In r (tokenBlacklist (snd (authMiddleware req w))) ->
                   issued w (Prisma.jti r)).
  { destruct K as [f E]. intros r Hr. rewrite E in Hr.
    apply filter_In in Hr as [Hr _]. now apply Inv. }
  destruct (authMiddleware req w) as [[[res|req']|x] w']; cbn [fst snd] in *;
    try exact Inv'.
  destruct (Hand req' eq_refl eq_refl) as [h [token [claim [A [B [V ->]]]]]].
  pose proof (RunFacts.presented_bearer req h token A B) as P.
  rewrite ServerFacts.logout_eq.
  change (presented (setUser req claim)) with (presented req). rewrite P.
  destruct (getTokenJti token) as [j|] eqn:Hj; [|exact Inv'].
  destruct (getTokenExpiration token) as [e|]; [|exact Inv'].
  assert (Ij : issued w j).
  { apply (Own token claim j P V).
    unfold getTokenJti, decodeToken in Hj.
    rewrite (decode_verified _ _ _ _ V) in Hj.
    unfold orNull in Hj. destruct (truthy (jti claim)); [exact Hj | discriminate]. }
  rewrite StoreFacts.blacklistToken_eq.
  destruct (dateOf (e * 1000)) as [expires|]; [|exact Inv'].
  destruct (Db.fails w'); [exact Inv'|].
  destruct (existsb (Db.has_jti j) (tokenBlacklist w')); [exact Inv'|].
  cbn. intros r Hr. apply in_app_iff in Hr as [Hr | [<- | []]];
    [now apply Inv' | exact Ij].
Qed.

Lemma react_issued w ev :
  JsonWebTokenPayloadLaws J ->
  match ev with
  | Logout req => ownTokens w req
  | _ => True
  end ->
  (forall r, In r (tokenBlacklist w) -> issued w (Prisma.jti r)) ->
  forall r, In r (tokenBlacklist (react w ev)) -> issued (react w ev) (Prisma.jti r).
Proof.
  intros Laws Own Inv.
  assert (Kept : forall w', keeps w w' ->
            uuids w' = uuids w /\ drawn w' = drawn w ->
            forall r, In r (tokenBlacklist w') -> issued w' (Prisma.jti r)).
  { intros w' [f E] [U D] r Hr. rewrite E in Hr. apply filter_In in Hr as [Hr _].
    apply (issued_later w); [exact U | rewrite D; apply Nat.le_refl | now apply Inv]. }
  destruct ev as [p|q|q|q| |u| |now schedule]; cbn [react].
  - intros r Hr. apply (issued_later w); [reflexivity | cbn; lia | exact (Inv r Hr)].
  - rewrite GuardFacts.authMiddleware_guardWith.
    apply Kept; [now apply ServerFacts.guardWith_keeps | now apply guardWith_ids].
  - rewrite GuardFacts.requiredAdmin_guardWith.
    apply Kept; [now apply ServerFacts.guardWith_keeps | now apply guardWith_ids].
  - now apply postLogout_issued.
  - apply Kept; [apply ServerFacts.cleanupExpiredTokens_keeps
                | apply cleanupExpiredTokens_ids].
  - apply Kept; [apply ServerFacts.revokeUserTokens_keeps | apply revokeUserTokens_ids].
  - apply Kept; [apply ServerFacts.clearBlacklist_keeps | apply clearBlacklist_ids].
  - intros r Hr. apply (issued_later w); [reflexivity | cbn; lia | exact (Inv r Hr)].
Qed.

Lemma run_issued evs :
  JsonWebTokenPayloadLaws J ->
  forall w, ownRun w evs ->
    (forall r, In r (tokenBlacklist w) -> issued w (Prisma.jti r)) ->
    forall r, In r (tokenBlacklist (run w evs)) -> issued (run w evs) (Prisma.jti r).
Proof.
  intros Laws. induction evs as [|ev evs IH]; intros w Own Inv; [exact Inv|].
  destruct Own as [Own Rest]. cbn [run fold_left]. fold (run (react w ev) evs).
  apply IH; [exact Rest|]. now apply react_issued.
Qed.

(** On a server whose identifiers never repeat and that is sent tokens of
    its own only, no row is stored under the identifier to be drawn next. *)
Lemma next_identifier_fresh now schedule ids evs :
  JsonWebTokenPayloadLaws J ->
  distinctIds ids ->
  ownRun (boot now schedule ids) evs ->
  forall r, In r (tokenBlacklist (run (boot now schedule ids) evs)) ->
    Prisma.jti r <> uuids (run (boot now schedule ids) evs)
                          (drawn (run (boot now schedule ids) evs)).
Proof.
  intros Laws Dist Own r Hr E.
  assert (Inv : forall r, In r (tokenBlacklist (boot now schedule ids)) ->
                  issued (boot now schedule ids) (Prisma.jti r)) by (intros ? []).
  destruct (run_issued evs Laws _ Own Inv r Hr) as [k [Hk Hu]].
  rewrite E in Hu. rewrite (run_ids evs (boot now schedule ids)) in Hu.
  cbn [uuids boot] in Hu. apply Dist in Hu. lia.
Qed.

(** C8.  On a server started with an empty table, whose [uuidv4()] never
    repeats and whose logout route has been sent tokens of its own only,
    and with a configured lifetime that is positive: a token issued for a
    subject verifies at once to a claim with that subject and role and the
    identifier just drawn; no row is stored under that identifier, and the
    lookup reports it as not revoked. *)
Theorem issue_then_verify
    (payload : Subject) (now : Z) (schedule : list bool) (ids : nat -> string)
    (evs : list Event) (w : World) (ttl : Z) :
  JsonWebTokenLaws J -> JsonWebTokenPayloadLaws J ->
  timespan JWT_EXPIRY = Some ttl -> 0 < ttl ->
  distinctIds ids ->
  ownRun (boot now schedule ids) evs ->
  w = run (boot now schedule ids) evs ->
  exists token claim,
    fst (generateToken payload w) = Ok token
    /\ fst (verifyToken token (snd (generateToken payload w))) = Ok (Some claim)
    /\ id claim = subjectId payload
    /\ role claim = Some (roleName (subjectRole payload))
    /\ jti claim = Some (uuids w (drawn w))
    /\ (forall r, In r (tokenBlacklist w) -> Prisma.jti r <> uuids w (drawn w))
    /\ fst (isJtiBlacklisted (uuids w (drawn w)) (snd (generateToken payload w)))
       = Ok false.
Proof.
  intros Laws PLaws Hts Hpos Dist Own ->.
  pose proof (next_identifier_fresh now schedule ids evs PLaws Dist Own) as Fresh.
  destruct (ServerFacts.issued_token_verifies payload _ ttl Laws Hts Hpos Fresh)
    as [token [claim [G [V [Hi [Hr [Hj L]]]]]]].
  exists token, claim. auto 10.
Qed.

(** X12.  The whole cycle, on a server started with an empty table, whose
    [uuidv4()] never repeats and never returns the empty string and whose
    logout route has been sent tokens of its own only; with a positive
    configured lifetime, a clock not before the epoch, an expiry that is a
    valid [Date], and no outage ahead.  A token issued for a subject is
    handed on by [authMiddleware]; POST /logout with it answers 'Logout
    successful' and appends exactly one row, holding the token's identifier,
    the subject as owner and the token's expiry in milliseconds; and from
    then on [authMiddleware] answers that token with 401 'Token has been
    revoked'. *)
Theorem issue_logout_cycle
    (payload : Subject) (now : Z) (schedule : list bool) (ids : nat -> string)
    (evs : list Event) (w : World) (ttl : Z) :
  JsonWebTokenLaws J -> JsonWebTokenPayloadLaws J ->
  timespan JWT_EXPIRY = Some ttl -> 0 < ttl ->
  distinctIds ids -> (forall n, ids n <> "") ->
  ownRun (boot now schedule ids) evs ->
  w = run (boot now schedule ids) evs ->
  0 <= clock w -> (seconds w + ttl) * 1000 <= maxTime ->
  outages w = [] ->
  exists token,
    fst (generateToken payload w) = Ok token
    /\ (Spec.mentions space token = false ->
        let req := {| authorization := Some ("Bearer " ++ token); user := None |} in
        let w1 := snd (generateToken payload w) in
        let claim := stamped (withJti payload (uuids w (drawn w))) (seconds w) ttl in
        fst (authMiddleware req w1) = Ok (Next (setUser req claim))
        /\ fst (postLogout req w1) = Ok (successResponse "Logout successful")
        /\ tokenBlacklist (snd (postLogout req w1)) =
           (tokenBlacklist w ++
             [{| Prisma.id := serial w; Prisma.jti := uuids w (drawn w);
                 Prisma.userId := orNull (Some (subjectId payload));
                 Prisma.expiresAt := (seconds w + ttl) * 1000;
                 Prisma.createdAt := clock w |}])%list
        /\ fst (authMiddleware req (snd (postLogout req w1)))
           = Ok (Sent (errorResponse "Token has been revoked. Please login again."
                                     401 None))).
Proof.
  intros Laws PLaws Hts Hpos Dist Full Own -> Hclk Hmax Hout.
  apply (CycleFacts.cycle_of_fresh_identifier payload _ ttl Laws PLaws Hts Hpos
           Hclk Hmax); [| |exact Hout].
  - rewrite (run_ids evs (boot now schedule ids)). apply Full.
  - exact (next_identifier_fresh now schedule ids evs PLaws Dist Own).
Qed.

End WithLibrary.

Section WithLogin.
Context {env : Env} {J : JsonWebToken}.
Variables Body Issues : Type.
Variable loginSchema_parse : Body -> Issues + LoginRequest.
Variable bcrypt_compare : string -> string -> bool.
Variable users : list User.t.

(** X16.  On a server started with an empty table, whose [uuidv4()] never
    repeats and whose logout route has been sent tokens of its own only,
    with a positive configured lifetime and the database answering: a
    successful login answers with a token that [authMiddleware] hands on at
    once with the user's id and role in the claim, and that [requiredAdmin]
    hands on exactly for an administrator. *)
Theorem login_then_guard
    (body : Body) (r : LoginRequest) (u : User.t)
    (now : Z) (schedule : list bool) (ids : nat -> string)
    (evs : list Event) (w : World) (ttl : Z) :
  JsonWebTokenLaws J -> JsonWebTokenPayloadLaws J ->
  loginSchema_parse body = inr r ->
  account users (loginEmail r) = Some u ->
  User.isActive u = true ->
  bcrypt_compare (loginPassword r) (User.password u) = true ->
  timespan JWT_EXPIRY = Some ttl -> 0 < ttl ->
  distinctIds ids ->
  ownRun (boot now schedule ids) evs ->
  w = run (boot now schedule ids) evs ->
  Db.fails w = false ->
  exists tok,
    fst (login loginSchema_parse bcrypt_compare users body w)
      = Ok (successReply (loginData tok u) "Login successful")
    /\ (Spec.mentions space tok = false ->
        forall req, authorization req = Some ("Bearer " ++ tok) ->
        let w1 := snd (login loginSchema_parse bcrypt_compare users body w) in
        let claim :=
          stamped (withJti (subjectOf u) (uuids w (drawn w))) (seconds w) ttl in
        id claim = User.id u
        /\ role claim = Some (roleName (User.role u))
        /\ fst (authMiddleware req w1) = Ok (Next (setUser req claim))
        /\ fst (requiredAdmin req w1)
           = Ok (match User.role u with
                 | admin => Next (setUser req claim)
                 | operator => Sent (errorResponse adminOnly 403 None)
                 end)).
Proof.
  intros Laws PLaws P A Act Pw Hts Hpos Dist Own -> F.
  exact (LoginFacts.login_of_fresh_identifier Body Issues loginSchema_parse
           bcrypt_compare users body r u _ ttl Laws P A Act Pw F Hts Hpos
           (next_identifier_fresh now schedule ids evs PLaws Dist Own)).
Qed.

End WithLogin.

End IssuanceFacts.

(** ** Further evaluations with the small token library *)
Module EvaluationMore.
Import Jwt TokenBlacklist Middleware Routes Server ToyJwt Examples.

Lemma guards_compared_witness :
  fst (authMiddleware (bearerOf operatorToken) calm)
    = Ok (Next (setUser (bearerOf operatorToken) operatorClaim))
  /\ (fst (requiredAdmin (bearerOf operatorToken) calm)
        = Ok (Next (setUser (bearerOf operatorToken) operatorClaim))
      \/ fst (requiredAdmin (bearerOf operatorToken) calm)
         = Ok (Sent (errorResponse adminOnly 403 None))).
Proof.
  assert (A : fst (authMiddleware (bearerOf operatorToken) calm)
              = Ok (Next (setUser (bearerOf operatorToken) operatorClaim)))
    by (vm_compute; reflexivity).
  split; [exact A|].
  destruct (proj2 (proj2 (proj2 (GuardMore.guards_compared
                                   (bearerOf operatorToken) calm))) _ A)
    as [H | [H _]]; [left | right]; exact H.
Defined.

Lemma optionalAuthMiddleware_attaches_witness :
  verify operatorToken JWT_SECRET (seconds calm) = Ok operatorClaim
  /\ Spec.revokedAt calm (orEmpty (jti operatorClaim)) = false
  /\ fst (optionalAuthMiddleware (bearerOf operatorToken) calm)
     = Ok (Next (setUser (bearerOf operatorToken) operatorClaim)).
Proof.
  split; [vm_compute; reflexivity|]. split; [vm_compute; reflexivity|].
  exact (proj1 (proj2 (GuardMore.optionalAuthMiddleware_attaches
                         (bearerOf operatorToken) calm))
               ("Bearer " ++ operatorToken) operatorToken operatorClaim
               eq_refl eq_refl eq_refl eq_refl).
Defined.

Lemma current_revocations_survive_witness :
  reachable afterLogout
  /\ In {| Prisma.id := 0; Prisma.jti := "j1"; Prisma.userId := Some "u1";
           Prisma.expiresAt := 605700000; Prisma.createdAt := 1000000 |}
        (tokenBlacklist (react afterLogout CleanupTick)).
Proof.
  assert (R : reachable afterLogout).
  { exists 1000000, [], ids, [Logout (bearerOf adminToken)]. reflexivity. }
  split; [exact R|].
  refine (RunFacts.current_revocations_survive afterLogout CleanupTick
            {| Prisma.id := 0; Prisma.jti := "j1"; Prisma.userId := Some "u1";
               Prisma.expiresAt := 605700000; Prisma.createdAt := 1000000 |}
            R eq_refl _ _).
  - vm_compute. left. reflexivity.
  - vm_compute. discriminate.
Defined.


Lemma logout_inserts_or_fails_witness :
  presented (bearerOf adminToken) = Some adminToken
  /\ getTokenJti adminToken = Some "j1"
  /\ getTokenExpiration adminToken = Some 605700
  /\ Db.fails calm = false
  /\ fst (logout (bearerOf adminToken) calm)
     = Ok (errorResponse "Logout failed" 500
             (Some (message (PrismaClientKnownRequestError "P2002")))).
Proof.
  split; [vm_compute; reflexivity|]. split; [vm_compute; reflexivity|].
  split; [vm_compute; reflexivity|]. split; [reflexivity|].
  refine (proj1 (proj1 (proj2 (proj2 (CycleFacts.logout_inserts_or_fails
                                        (bearerOf adminToken) calm adminToken
                                        "j1" 605700 eq_refl eq_refl eq_refl)))
                       _ eq_refl _)).
  - unfold maxTime. lia.
  - exists (row 0 "j1" (Some "u1") 2000000). split; [left|]; reflexivity.
Defined.

(** A logout with a token whose expiry is no valid [Date]: 500, and the
    table stays as it was. *)
Example scenario_logout_distant_expiry :
  getTokenJti distantToken = Some "j7"
  /\ getTokenExpiration distantToken = Some 8640000000001
  /\ fst (logout (bearerOf distantToken) calm)
     = Ok (errorResponse "Logout failed" 500
             (Some (message PrismaClientValidationError)))
  /\ tokenBlacklist (snd (logout (bearerOf distantToken) calm)) = table3.
Proof. repeat split; vm_compute; reflexivity. Qed.

Lemma ids_distinct : distinctIds ids.
Proof.
  intros m n E. unfold ids in E. cbn in E. injection E as E.
  unfold showNat in E.
  assert (U : Nat.to_uint m = Nat.to_uint n).
  { pose proof (NilEmpty.usu (Nat.to_uint m)) as Hm.
    pose proof (NilEmpty.usu (Nat.to_uint n)) as Hn.
    rewrite E in Hm. rewrite Hm in Hn. now injection Hn. }
  rewrite <- (DecimalNat.Unsigned.of_to m), <- (DecimalNat.Unsigned.of_to n).
  now rewrite U.
Qed.

Lemma ids_nonempty : forall n, ids n <> "".
Proof. intros n. unfold ids. cbn. discriminate. Qed.

(** In [session] the logout is made with the token the login returned. *)
Lemma session_own : ownRun started session.
Proof.
  split; [exact I|]. split; [|exact I].
  intros token claim j P V Hj.
  vm_compute in P. injection P as <-.
  vm_compute in V. injection V as <-.
  cbn in Hj. injection Hj as <-.
  exists 0%nat. split; [cbn; lia | reflexivity].
Qed.

(** C8 at the end of [session]: the table holds the row of the first token,
    and the second token gets another identifier. *)
Lemma issue_then_verify_witness :
  timespan JWT_EXPIRY = Some 604800
  /\ ownRun started session
  /\ (exists r, In r (tokenBlacklist afterSession) /\ Prisma.jti r = "uuid-0")
  /\ exists token claim,
       fst (generateToken operatorSubject afterSession) = Ok token
       /\ fst (verifyToken token (snd (generateToken operatorSubject afterSession)))
          = Ok (Some claim)
       /\ id claim = "u7"
       /\ role claim = Some "operator"
       /\ jti claim = Some "uuid-1"
       /\ fst (isJtiBlacklisted "uuid-1"
                 (snd (generateToken operatorSubject afterSession)))
          = Ok false.
Proof.
  split; [reflexivity|]. split; [exact session_own|].
  split; [eexists; split; [vm_compute; left; reflexivity | reflexivity]|].
  destruct (@IssuanceFacts.issue_then_verify toyEnv toy operatorSubject
              1000000 [] ids session afterSession 604800
              ToyJwtFacts.toy_laws CycleFacts.toy_payload_laws eq_refl eq_refl
              ids_distinct session_own eq_refl)
    as [token [claim [G [V [Hi [Hr [Hj [_ L]]]]]]]].
  exists token, claim. split; [exact G|]. split; [exact V|].
  split; [exact Hi|]. split; [exact Hr|]. split; [exact Hj | exact L].
Defined.

Lemma issued_token_round_trip_witness :
  timespan JWT_EXPIRY = Some 604800
  /\ uuids calm (drawn calm) <> ""
  /\ exists token,
       fst (generateToken operatorSubject calm) = Ok token
       /\ getTokenJti token = Some "uuid-0"
       /\ getTokenExpiration token = Some 605800.
Proof.
  assert (N : uuids calm (drawn calm) <> "") by discriminate.
  split; [reflexivity|]. split; [exact N|].
  destruct (@CycleFacts.issued_token_round_trip toyEnv toy operatorSubject calm 604800
              ToyJwtFacts.toy_laws CycleFacts.toy_payload_laws eq_refl eq_refl
              ltac:(discriminate) N) as [token [H1 [_ [H3 H4]]]].
  exists token. split; [exact H1|]. split; [exact H3 | exact H4].
Defined.

Lemma issue_logout_cycle_witness :
  outages afterSession = []
  /\ exists token,
       fst (generateToken operatorSubject afterSession) = Ok token
       /\ (Spec.mentions space token = false ->
           fst (postLogout (bearerOf token)
                  (snd (generateToken operatorSubject afterSession)))
             = Ok (successResponse "Logout successful")
           /\ fst (authMiddleware (bearerOf token)
                     (snd (postLogout (bearerOf token)
                             (snd (generateToken operatorSubject afterSession)))))
              = Ok (Sent (errorResponse
                            "Token has been revoked. Please login again." 401 None))).
Proof.
  split; [reflexivity|].
  destruct (@IssuanceFacts.issue_logout_cycle toyEnv toy operatorSubject
              1000000 [] ids session afterSession 604800
              ToyJwtFacts.toy_laws CycleFacts.toy_payload_laws eq_refl eq_refl
              ids_distinct ids_nonempty session_own eq_refl
              ltac:(vm_compute; discriminate) ltac:(vm_compute; discriminate)
              eq_refl)
    as [token [H1 H2]].
  exists token. split; [exact H1|]. intros C.
  destruct (H2 C) as [_ [H3 [_ H4]]]. split; [exact H3 | exact H4].
Defined.

Lemma reachable_rows_witness :
  reachable afterLogout /\ Db.unique afterLogout.
Proof.
  assert (R : reachable afterLogout).
  { exists 1000000, [], ids, [Logout (bearerOf adminToken)]. reflexivity. }
  split; [exact R|]. exact (proj1 (RowFacts.reachable_rows afterLogout R)).
Defined.

Lemma login_hides_unknown_accounts_witness :
  account people "zoe@example.org" = None
  /\ account people "ada@example.org" = Some ada
  /\ checkPassword "guess!" (User.password ada) = false
  /\ login parseBody checkPassword people
           (Some "zoe@example.org", Some "guess!") calm
     = login parseBody checkPassword people
             (Some "ada@example.org", Some "guess!") calm.
Proof.
  split; [reflexivity|]. split; [reflexivity|]. split; [reflexivity|].
  exact (proj1 (@LoginFacts.login_hides_unknown_accounts toyEnv toy _ _
                  parseBody checkPassword people
                  (Some "zoe@example.org", Some "guess!")
                  (Some "ada@example.org", Some "guess!")
                  {| loginEmail := "zoe@example.org"; loginPassword := "guess!" |}
                  {| loginEmail := "ada@example.org"; loginPassword := "guess!" |}
                  ada calm eq_refl eq_refl eq_refl eq_refl eq_refl eq_refl)).
Defined.

Lemma login_inactive_account_witness :
  account people "bob@example.org" = Some bob
  /\ checkPassword "secret2" (User.password bob) = true
  /\ fst (login parseBody checkPassword people
                (Some "bob@example.org", Some "secret2") calm)
     = Ok (errorReply "User account is inactive" 403 noDetail).
Proof.
  split; [reflexivity|]. split; [reflexivity|].
  rewrite (@LoginFacts.login_inactive_account toyEnv toy _ _
             parseBody checkPassword people
             (Some "bob@example.org", Some "secret2")
             {| loginEmail := "bob@example.org"; loginPassword := "secret2" |}
             bob calm eq_refl eq_refl eq_refl eq_refl).
  reflexivity.
Defined.

Lemma login_failures_witness :
  login parseBody checkPassword people (Some "ada@example.org", Some "short") calm
  = (Ok (errorReply "Validation failed" 400
           (zodIssues ["Password must be at least 6 characters"])), calm).
Proof.
  exact (proj1 (proj2 (proj2 (@LoginFacts.login_failures toyEnv toy _ _
                                parseBody checkPassword people
                                (Some "ada@example.org", Some "short") calm)))
               ["Password must be at least 6 characters"] eq_refl).
Defined.

Lemma login_then_guard_witness :
  account people "ada@example.org" = Some ada
  /\ checkPassword "secret1" (User.password ada) = true
  /\ ownRun started session
  /\ exists tok,
       fst (login parseBody checkPassword people
                  (Some "ada@example.org", Some "secret1") afterSession)
         = Ok (successReply (loginData tok ada) "Login successful")
       /\ (Spec.mentions space tok = false ->
           exists claim,
             id claim = "u1" /\ role claim = Some "admin"
             /\ fst (requiredAdmin (bearerOf tok)
                       (snd (login parseBody checkPassword people
                               (Some "ada@example.org", Some "secret1")
                               afterSession)))
                = Ok (Next (setUser (bearerOf tok) claim))).
Proof.
  split; [reflexivity|]. split; [reflexivity|]. split; [exact session_own|].
  destruct (@IssuanceFacts.login_then_guard toyEnv toy _ _
              parseBody checkPassword people
              (Some "ada@example.org", Some "secret1")
              {| loginEmail := "ada@example.org"; loginPassword := "secret1" |}
              ada 1000000 [] ids session afterSession 604800
              ToyJwtFacts.toy_laws CycleFacts.toy_payload_laws
              eq_refl eq_refl eq_refl eq_refl eq_refl eq_refl
              ids_distinct session_own eq_refl eq_refl)
    as [tok [H1 H2]].
  exists tok. split; [exact H1|]. intros C.
  destruct (H2 C (bearerOf tok) eq_refl) as [Hi [Hr [_ Hg]]].
  eexists. split; [exact Hi|]. split; [exact Hr | exact Hg].
Defined.

Lemma revokeUserTokens_readmits_witness :
  fst (authMiddleware (bearerOf adminToken) calm)
    = Ok (Sent (errorResponse "Token has been revoked. Please login again."
                              401 None))
  /\ fst (authMiddleware (bearerOf adminToken) (snd (revokeUserTokens "u1" calm)))
     = Ok (Next (setUser (bearerOf adminToken) adminClaim)).
Proof.
  refine (@GuardMore.revokeUserTokens_readmits toyEnv toy
            (bearerOf adminToken) calm ("Bearer " ++ adminToken) adminToken "u1"
            adminClaim (row 0 "j1" (Some "u1") 2000000)
            eq_refl eq_refl eq_refl eq_refl eq_refl eq_refl _ eq_refl eq_refl _).
  - left. reflexivity.
  - vm_compute. discriminate.
Defined.

End EvaluationMore.
